(** * The chat controller of the therapy-assistant backend

    A shallow embedding of [src/controllers/chat.ts] (the handlers
    [sendMessage], [generateTopic], [updateSessionTopic] and the helper
    [generateFallbackTopic]) together with the part of
    [src/models/chat.ts] they manipulate.

    - JavaScript strings are sequences of UTF-16 code units ([jsstring]);
      [length], [substring] and [includes] therefore count what the
      runtime counts.
    - Request bodies and model answers are JSON values ([value]).
    - The collection of chat sessions is a finite map from [sessionId]
      (unique in the schema) to the stored document.
    - A handler is a computation over a [World] (the stored sessions and
      the log of the external calls made so far); the answers of the
      outside (database failures, telemetry, the generative model, the
      clock) come from an [Env].
    - The built-ins whose tables are part of the runtime
      ([toLowerCase], [toUpperCase], [JSON.parse], [ToString]) are
      variables of the sections that use them. *)

From Stdlib Require Import String Ascii List NArith ZArith Bool Lia.
From stdpp Require Import base option list gmap.
Import ListNotations.

Set Warnings "-register-all".

Open Scope N_scope.

(** ** Strings *)

Module JsString.

Abbreviation jsstring := (list N).

(** *** Literals: the UTF-8 text of the source file, as UTF-16 code units *)

Fixpoint bytes (s : string) : list N :=
  match s with
  | EmptyString => []
  | String c r => N_of_ascii c :: bytes r
  end.

Definition cont (b : N) : N := N.land b 63.

Fixpoint codepoints (bs : list N) : list N :=
  match bs with
  | [] => []
  | b0 :: r0 =>
    if b0 <? 128 then b0 :: codepoints r0
    else match r0 with
    | [] => [b0]
    | b1 :: r1 =>
      if b0 <? 224 then (N.land b0 31 * 64 + cont b1) :: codepoints r1
      else match r1 with
      | [] => [b0; b1]
      | b2 :: r2 =>
        if b0 <? 240
        then (N.land b0 15 * 4096 + cont b1 * 64 + cont b2) :: codepoints r2
        else match r2 with
        | [] => [b0; b1; b2]
        | b3 :: r3 =>
          (N.land b0 7 * 262144 + cont b1 * 4096 + cont b2 * 64 + cont b3)
            :: codepoints r3
        end
      end
    end
  end.

Definition units (cp : N) : list N :=
  if cp <? 65536 then [cp]
  else [55296 + (cp - 65536) / 1024; 56320 + (cp - 65536) mod 1024].

Definition js (s : string) : jsstring := flat_map units (codepoints (bytes s)).

(** *** [String.prototype.trim] *)

(** WhiteSpace and LineTerminator code points of ECMAScript. *)
Definition isWhiteSpace (c : N) : bool :=
  ((9 <=? c) && (c <=? 13)) || (c =? 32) || (c =? 160) || (c =? 5760)
  || ((8192 <=? c) && (c <=? 8202)) || (c =? 8232) || (c =? 8233)
  || (c =? 8239) || (c =? 8287) || (c =? 12288) || (c =? 65279).

Fixpoint trimStart (s : jsstring) : jsstring :=
  match s with
  | c :: r => if isWhiteSpace c then trimStart r else s
  | [] => []
  end.

Definition trimEnd (s : jsstring) : jsstring := rev (trimStart (rev s)).

Definition trim (s : jsstring) : jsstring := trimEnd (trimStart s).

(** *** [includes], [startsWith], [substring], [split], [join] *)

Fixpoint startsWith (p s : jsstring) : bool :=
  match p, s with
  | [], _ => true
  | a :: p', b :: s' => (a =? b) && startsWith p' s'
  | _ :: _, [] => false
  end.

Fixpoint includes (p s : jsstring) : bool :=
  startsWith p s ||
  match s with
  | [] => false
  | _ :: s' => includes p s'
  end.

(** [s.substring(0, n)] *)
Definition substring0 (n : nat) (s : jsstring) : jsstring := firstn n s.

(** [s.split(sep)] for a separator of one code unit. *)
Fixpoint split (sep : N) (s : jsstring) : list jsstring :=
  match s with
  | [] => [[]]
  | c :: r =>
    if c =? sep then [] :: split sep r
    else match split sep r with
         | w :: ws => (c :: w) :: ws
         | [] => [[c]]
         end
  end.

Fixpoint join (sep : jsstring) (ws : list jsstring) : jsstring :=
  match ws with
  | [] => []
  | [w] => w
  | w :: ws' => w ++ sep ++ join sep ws'
  end.

(** [s.charAt(0)] and [s.slice(1)] *)
Definition charAt0 (s : jsstring) : jsstring := firstn 1 s.
Definition slice1 (s : jsstring) : jsstring := skipn 1 s.

(** *** Global regular-expression replacement

    [s.replace(/re/g, "")] for a pattern given by [matchAt], which tells
    how many code units the pattern matches at the head of its argument
    ([None]: no match there).  The scan goes from left to right and
    resumes after each match. *)
Fixpoint removeAll_go (matchAt : jsstring -> option nat) (skip : nat)
    (s : jsstring) : jsstring :=
  match s with
  | [] => []
  | c :: r =>
    match skip with
    | S k => removeAll_go matchAt k r
    | O =>
      match matchAt s with
      | Some (S n) => removeAll_go matchAt n r
      | _ => c :: removeAll_go matchAt 0%nat r
      end
    end
  end.

Definition removeAll (matchAt : jsstring -> option nat) (s : jsstring) : jsstring :=
  removeAll_go matchAt 0%nat s.

(** *** The ASCII instances of the case mappings

    [toLowerCase] and [toUpperCase] follow the Unicode tables of the
    runtime; on code units below 128 they are these two maps. *)
Definition asciiLower (s : jsstring) : jsstring :=
  map (fun c => if (65 <=? c) && (c <=? 90) then c + 32 else c) s.

Definition asciiUpper (s : jsstring) : jsstring :=
  map (fun c => if (97 <=? c) && (c <=? 122) then c - 32 else c) s.

End JsString.
Import JsString.

(** ** JSON values, exceptions *)

(** What [express.json()] and [JSON.parse] produce, and what
    [res.json] takes.  Numbers carry an integer: the handlers only test
    a number for truthiness, where every non-integer behaves as any
    non-zero integer.  An object is the list of its own properties. *)
Inductive value : Type :=
  | VUndefined
  | VNull
  | VBool (b : bool)
  | VNum (n : Z)
  | VStr (s : jsstring)
  | VArr (items : list value)
  | VObj (fields : list (jsstring * value)).

(** A thrown value: an [Error] instance with its [message], or anything
    else ([error instanceof Error] is false). *)
Inductive exn : Type :=
  | Error (message : jsstring)
  | NotAnError.

Inductive Result (A : Type) : Type :=
  | Ok (a : A)
  | Throw (e : exn).
Arguments Ok {A} a.
Arguments Throw {A} e.

(** The engine's [TypeError]s. *)
Definition TypeError (message : jsstring) : exn := Error message.

(** [!v] is [negb (truthy v)]. *)
Definition truthy (v : value) : bool :=
  match v with
  | VUndefined | VNull => false
  | VBool b => b
  | VNum n => negb (n =? 0)%Z
  | VStr s => negb (length s =? 0)%nat
  | VArr _ | VObj _ => true
  end.

Definition jsstring_eqb (a b : jsstring) : bool :=
  (length a =? length b)%nat && startsWith a b.

Fixpoint ownProperty (k : jsstring) (fields : list (jsstring * value)) : value :=
  match fields with
  | [] => VUndefined
  | (k', v) :: r => if jsstring_eqb k k' then v else ownProperty k r
  end.

(** [v.k] for a key [k] that no built-in prototype defines ([role],
    [content], [emotionalState], [riskLevel], [toLowerCase] on a
    non-string, ...): the own property of an object, [undefined] on any
    other value that can be boxed, a [TypeError] on [null] and
    [undefined]. *)
Definition getProp (v : value) (k : jsstring) : Result value :=
  match v with
  | VUndefined =>
    Throw (TypeError (js "Cannot read properties of undefined (reading '" ++ k ++ js "')"))
  | VNull =>
    Throw (TypeError (js "Cannot read properties of null (reading '" ++ k ++ js "')"))
  | VObj fields => Ok (ownProperty k fields)
  | _ => Ok VUndefined
  end.

(** [a === b] against a string literal [b]. *)
Definition strictEqStr (a : value) (b : jsstring) : bool :=
  match a with
  | VStr s => jsstring_eqb s b
  | _ => false
  end.

(** ** The data model of [models/chat.ts] *)

Abbreviation ObjectId := N (only parsing).
Abbreviation Date := N (only parsing).

Inductive Role : Type := Role_user | Role_assistant.

(** [metadata] as the controller fills it: [analysis] and [progress]
    (both [Mixed] in the schema). *)
Record Metadata : Type := {
  analysis : value;
  progress : value
}.

Record IChatMessage : Type := {
  role : Role;
  content : jsstring;
  timestamp : Date;
  metadata : option Metadata
}.

Inductive Status : Type := active | completed | paused.

(** [createdAt] and [updatedAt] are maintained by the store and read by
    none of the handlers below. *)
Record IChatSession : Type := {
  sessionId : jsstring;
  userId : ObjectId;
  messages : list IChatMessage;
  topic : option jsstring;
  startTime : Date;
  status : Status
}.

(** [session.messages.push(m)] *)
Definition push (session : IChatSession) (m : IChatMessage) : IChatSession :=
  {| sessionId := sessionId session;
     userId := userId session;
     messages := messages session ++ [m];
     topic := topic session;
     startTime := startTime session;
     status := status session |}.

(** [session.topic = t] *)
Definition setTopic (session : IChatSession) (t : jsstring) : IChatSession :=
  {| sessionId := sessionId session;
     userId := userId session;
     messages := messages session;
     topic := Some t;
     startTime := startTime session;
     status := status session |}.

(** ** Requests and responses *)

(** A request as the handlers read it: [req.params.sessionId], the
    parsed JSON object [req.body], and the identity attached by the
    authentication middleware ([None] when [req.user] or [req.user.id]
    is missing).  [new Types.ObjectId(req.user.id)] and the comparison
    of the [toString()] forms amount to equality of the identifiers. *)
Record Request : Type := {
  params_sessionId : jsstring;
  body : list (jsstring * value);
  user : option ObjectId
}.

(** [res.status(s).json(b)]; [res.json(b)] has status 200. *)
Record Response : Type := {
  statusCode : N;
  json : value
}.

(** The error taxonomy of the specification, read off the status. *)
Inductive ErrorKind : Type :=
  | ValidationError
  | UnauthenticatedError
  | ForbiddenError
  | NotFoundError
  | PersistenceError.

Definition errorKind (r : Response) : option ErrorKind :=
  if statusCode r =? 400 then Some ValidationError
  else if statusCode r =? 401 then Some UnauthenticatedError
  else if statusCode r =? 403 then Some ForbiddenError
  else if statusCode r =? 404 then Some NotFoundError
  else if statusCode r =? 500 then Some PersistenceError
  else None.

(** ** The outside world *)

(** The payload of the telemetry event ([memory] and [goals] are the
    constant stubs of the source). *)
Record InngestEvent : Type := {
  name : jsstring;
  data_message : jsstring;
  data_history : list IChatMessage;
  data_memory : value;
  data_goals : value;
  data_systemPrompt : jsstring
}.

(** The external calls a handler makes, in the order it makes them.
    [EvSave s ok]: [s.save()] was called and [ok] tells whether the
    document was written. *)
Inductive Event : Type :=
  | EvFindOne (sid : jsstring)
  | EvInngestSend (ev : InngestEvent)
  | EvGenerateContent (prompt : jsstring)
  | EvSave (session : IChatSession) (ok : bool).

(** The answers of the outside during one request.  [generateContent n
    p] is the answer of the model to the [n]-th completion of the
    request, asked with prompt [p]: the text of the response, or a
    failure of the call or of [response.text()].  [saveFails s] covers
    schema validation and the write itself.  [clock n] is [new Date()]
    after [n] external calls. *)
Record Env : Type := {
  findOneFails : jsstring -> option exn;
  inngestSendFails : InngestEvent -> option exn;
  generateContent : nat -> jsstring -> Result jsstring;
  saveFails : IChatSession -> option exn;
  clock : nat -> Date
}.

Record World : Type := {
  store : gmap jsstring IChatSession;
  trace : list Event
}.

Definition logEvent (e : Event) (w : World) : World :=
  {| store := store w; trace := trace w ++ [e] |}.

Definition isGenerate (e : Event) : bool :=
  match e with EvGenerateContent _ => true | _ => false end.

Definition generateCalls (t : list Event) : nat := length (List.filter isGenerate t).

(** ** Computations that may throw *)

Definition M (A : Type) : Type := World -> Result A * World.

Definition ret {A} (a : A) : M A := fun w => (Ok a, w).

Definition bind {A B} (m : M A) (k : A -> M B) : M B :=
  fun w => match m w with
           | (Ok a, w') => k a w'
           | (Throw e, w') => (Throw e, w')
           end.

(** [try { m } catch (e) { h e }] *)
Definition tryCatch {A} (m : M A) (h : exn -> M A) : M A :=
  fun w => match m w with
           | (Ok a, w') => (Ok a, w')
           | (Throw e, w') => h e w'
           end.

Definition lift {A} (r : Result A) : M A := fun w => (r, w).

Declare Scope js_scope.
Delimit Scope js_scope with js.
Notation "x <- m ;; k" := (bind m (fun x => k))
  (at level 100, m at next level, right associativity) : js_scope.
Notation "m ;;; k" := (bind m (fun _ => k))
  (at level 100, right associativity) : js_scope.
Open Scope js_scope.

Section Effects.
Variable env : Env.

(** [await ChatSession.findOne({ sessionId })] *)
Definition findOne (sid : jsstring) : M (option IChatSession) :=
  fun w =>
    let w' := logEvent (EvFindOne sid) w in
    match findOneFails env sid with
    | Some e => (Throw e, w')
    | None => (Ok (store w !! sid), w')
    end.

(** [await session.save()] *)
Definition save (session : IChatSession) : M unit :=
  fun w =>
    match saveFails env session with
    | Some e => (Throw e, logEvent (EvSave session false) w)
    | None =>
      (Ok tt,
       {| store := <[sessionId session := session]> (store w);
          trace := trace w ++ [EvSave session true] |})
    end.

(** [await inngest.send(event)] *)
Definition inngest_send (ev : InngestEvent) : M unit :=
  fun w =>
    let w' := logEvent (EvInngestSend ev) w in
    match inngestSendFails env ev with
    | Some e => (Throw e, w')
    | None => (Ok tt, w')
    end.

(** [(await model.generateContent(prompt)).response.text()] *)
Definition model_generateContent (prompt : jsstring) : M jsstring :=
  fun w =>
    (generateContent env (generateCalls (trace w)) prompt,
     logEvent (EvGenerateContent prompt) w).

(** [new Date()] *)
Definition newDate : M Date :=
  fun w => (Ok (clock env (length (trace w))), w).

End Effects.

(** ** [sendMessage] *)

Definition dq : jsstring := [34].
Definition quoted (s : jsstring) : jsstring := dq ++ s ++ dq.
Definition backticks : jsstring := [96; 96; 96].

(** [error instanceof Error ? error.message : "Unknown error"] *)
Definition errorMessage (e : exn) : jsstring :=
  match e with
  | Error m => m
  | NotAnError => js "Unknown error"
  end.

Definition systemPrompt : jsstring :=
  js "You are an AI therapist assistant. Your role is to:
  1. Provide empathetic and supportive responses
  2. Use evidence-based therapeutic techniques
  3. Maintain professional boundaries
  4. Monitor for risk factors
  5. Guide users toward their therapeutic goals".

Definition sessionMessageEvent (message : jsstring) (history : list IChatMessage)
    : InngestEvent :=
  {| name := js "therapy/session.message";
     data_message := trim message;
     data_history := history;
     data_memory :=
       VObj [(js "userProfile",
              VObj [(js "emotionalState", VArr []);
                    (js "riskLevel", VNum 0);
                    (js "preferences", VObj [])]);
             (js "sessionContext",
              VObj [(js "conversationThemes", VArr []);
                    (js "currentTechnique", VNull)])];
     data_goals := VArr [];
     data_systemPrompt := systemPrompt |}.

Definition analysisPrompt (message : jsstring) : jsstring :=
  js "Analyze this therapy message and provide insights. Return ONLY a valid JSON object with no markdown formatting or additional text.
Message: " ++ trim message ++ js "

Required JSON structure:
{
  " ++ quoted (js "emotionalState") ++ js ": " ++ quoted (js "string") ++ js ",
  " ++ quoted (js "themes") ++ js ": [" ++ quoted (js "string") ++ js "],
  " ++ quoted (js "riskLevel") ++ js ": 1,
  " ++ quoted (js "recommendedApproach") ++ js ": " ++ quoted (js "string") ++ js ",
  " ++ quoted (js "progressIndicators") ++ js ": [" ++ quoted (js "string") ++ js "]
}".

Definition responsePrompt (message : jsstring) : jsstring :=
  js "You are an AI therapist assistant. Provide a helpful, empathetic response to this message:

Message: " ++ trim message ++ js "

Guidelines:
- Be warm and supportive
- Use therapeutic techniques when appropriate
- Keep responses conversational but professional
- Focus on the person's immediate needs
- Ask follow-up questions to encourage reflection".

(** [/```json\n?/g] *)
Definition matchFenceOpen (s : jsstring) : option nat :=
  if startsWith (backticks ++ js "json") s
  then Some (match skipn 7 s with
             | 10 :: _ => 8%nat
             | _ => 7%nat
             end)
  else None.

(** [/\n?```/g] *)
Definition matchFenceClose (s : jsstring) : option nat :=
  if startsWith (10 :: backticks) s then Some 4%nat
  else if startsWith backticks s then Some 3%nat
  else None.

(** [analysisText.replace(/```json\n?/g, "").replace(/\n?```/g, "").trim()]
    where [analysisText] is the trimmed text of the model. *)
Definition cleanAnalysisText (text : jsstring) : jsstring :=
  trim (removeAll matchFenceClose (removeAll matchFenceOpen (trim text))).

Definition fallbackAnalysis : value :=
  VObj [(js "emotionalState", VStr (js "seeking_support"));
        (js "themes", VArr [VStr (js "anxiety_management")]);
        (js "riskLevel", VNum 1);
        (js "recommendedApproach", VStr (js "cognitive_behavioral"));
        (js "progressIndicators", VArr [VStr (js "active_engagement")])].

Definition fallbackResponse : jsstring :=
  js "I hear that you're looking for support with managing anxiety. That's a very common concern, and it's great that you're reaching out. There are several effective strategies we can explore together. What specific situations tend to trigger your anxiety the most?".

(** [{ emotionalState: analysis.emotionalState, riskLevel: analysis.riskLevel }] *)
Definition progressOf (analysis : value) : Result value :=
  match getProp analysis (js "emotionalState") with
  | Throw e => Throw e
  | Ok es =>
    match getProp analysis (js "riskLevel") with
    | Throw e => Throw e
    | Ok rl => Ok (VObj [(js "emotionalState", es); (js "riskLevel", rl)])
    end
  end.

Definition userMessage (message : jsstring) (t : Date) : IChatMessage :=
  {| role := Role_user; content := trim message; timestamp := t; metadata := None |}.

Definition assistantMessage (response : jsstring) (t : Date)
    (analysis progress : value) : IChatMessage :=
  {| role := Role_assistant; content := response; timestamp := t;
     metadata := Some {| analysis := analysis; progress := progress |} |}.

Definition sendMessageOk (response : jsstring) (analysis progress : value) : Response :=
  {| statusCode := 200;
     json := VObj [(js "response", VStr response);
                   (js "message", VStr response);
                   (js "analysis", analysis);
                   (js "metadata", VObj [(js "progress", progress)])] |}.

Definition reply (status : N) (key text : string) : Response :=
  {| statusCode := status; json := VObj [(js key, VStr (js text))] |}.

Section SendMessage.
Variable env : Env.
(** [JSON.parse]: [None] is a [SyntaxError]. *)
Variable JSON_parse : jsstring -> option value.

Definition parseJSON (text : jsstring) : Result value :=
  match JSON_parse text with
  | Some v => Ok v
  | None => Throw (Error (js "Unexpected token in JSON"))
  end.

(** The part of the handler that follows the ownership check. *)
Definition processMessage (session : IChatSession) (message : jsstring)
    : M Response :=
  (* Add user message to history FIRST *)
  t <- newDate env ;;
  let session := push session (userMessage message t) in
  (* Continue processing even if Inngest fails *)
  tryCatch (inngest_send env (sessionMessageEvent message (messages session)))
           (fun _ => ret tt) ;;;
  analysis <-
    tryCatch
      (analysisText <- model_generateContent env (analysisPrompt message) ;;
       lift (parseJSON (cleanAnalysisText analysisText)))
      (fun _ => ret fallbackAnalysis) ;;
  response <-
    tryCatch
      (text <- model_generateContent env (responsePrompt message) ;;
       ret (trim text))
      (fun _ => ret fallbackResponse) ;;
  (* Add ONLY the assistant's response *)
  t' <- newDate env ;;
  progress <- lift (progressOf analysis) ;;
  let session := push session (assistantMessage response t' analysis progress) in
  (* Save the updated session *)
  save env session ;;;
  progress' <- lift (progressOf analysis) ;;
  ret (sendMessageOk response analysis progress').

Definition sendMessageBody (req : Request) : M Response :=
  let sessionId := params_sessionId req in
  let message := ownProperty (js "message") (body req) in
  (* Validate input *)
  match message with
  | VStr text =>
    if negb (truthy message) || (length (trim text) =? 0)%nat
    then ret (reply 400 "message" "Message cannot be empty")
    else
      (* Ensure user is authenticated *)
      match user req with
      | None => ret (reply 401 "message" "Unauthorized")
      | Some userId' =>
        (* Find session by sessionId *)
        found <- findOne env sessionId ;;
        match found with
        | None => ret (reply 404 "message" "Session not found")
        | Some session =>
          if negb (userId session =? userId')
          then ret (reply 403 "message" "Unauthorized")
          else processMessage session text
        end
      end
  | _ => (* !message || typeof message !== 'string' *)
    ret (reply 400 "message" "Message cannot be empty")
  end.

Definition sendMessage (req : Request) (w : World) : Response * World :=
  match sendMessageBody req w with
  | (Ok res, w') => (res, w')
  | (Throw error, w') =>
    ({| statusCode := 500;
        json := VObj [(js "message", VStr (js "Error processing message"));
                      (js "error", VStr (errorMessage error))] |}, w')
  end.

End SendMessage.

(** ** [generateFallbackTopic] *)

Definition newChat : jsstring := js "💬 New Chat".

(** [topicMap], in the order [Object.entries] enumerates it: none of the
    keys is an array index, so this is the order of the literal. *)
Definition topicMap : list (jsstring * jsstring) :=
  [ (js "anxiety", js "💭 Anxiety Support");
    (js "anxious", js "💭 Anxiety Support");
    (js "worried", js "💭 Anxiety Support");
    (js "stress", js "😰 Stress Management");
    (js "stressed", js "😰 Stress Management");
    (js "overwhelmed", js "🌊 Feeling Overwhelmed");
    (js "sleep", js "😴 Sleep Issues");
    (js "insomnia", js "😴 Sleep Problems");
    (js "tired", js "😴 Sleep & Energy");
    (js "depression", js "🌧️ Depression Support");
    (js "depressed", js "🌧️ Depression Support");
    (js "sad", js "😢 Emotional Support");
    (js "work", js "💼 Work Issues");
    (js "job", js "💼 Work Stress");
    (js "relationship", js "💕 Relationship Help");
    (js "partner", js "💕 Relationship Issues");
    (js "family", js "👨‍👩‍👧‍👦 Family Matters");
    (js "panic", js "⚡ Panic Support");
    (js "anger", js "😡 Anger Management");
    (js "angry", js "😡 Anger Management");
    (js "lonely", js "🤗 Loneliness Support");
    (js "confidence", js "💪 Building Confidence");
    (js "self-esteem", js "💪 Self-Worth");
    (js "grief", js "💙 Grief Support");
    (js "loss", js "💙 Coping with Loss") ].

(** [messages.filter((msg) => msg.role === "user")] *)
Fixpoint filterUser (messages : list value) : Result (list value) :=
  match messages with
  | [] => Ok []
  | msg :: rest =>
    match getProp msg (js "role") with
    | Throw e => Throw e
    | Ok r =>
      match filterUser rest with
      | Throw e => Throw e
      | Ok us => Ok (if strictEqStr r (js "user") then msg :: us else us)
      end
    end
  end.

(** [for (const [keyword, topic] of entries) if (firstMessage.includes(keyword)) return topic] *)
Fixpoint scanKeywords (entries : list (jsstring * jsstring)) (firstMessage : jsstring)
    : option jsstring :=
  match entries with
  | [] => None
  | (keyword, topic) :: rest =>
    if includes keyword firstMessage then Some topic
    else scanKeywords rest firstMessage
  end.

Section FallbackTopic.
Variables toLowerCase toUpperCase : jsstring -> jsstring.

(** Generate from first few words. *)
Definition fromFirstWords (firstMessage : jsstring) : jsstring :=
  let words := join (js " ") (firstn 3 (split 32 firstMessage)) in
  let capitalizedWords := toUpperCase (charAt0 words) ++ slice1 words in
  js "💬 " ++ capitalizedWords.

(** [userMessages[0].content.toLowerCase()] *)
Definition firstMessageOf (first : value) : Result jsstring :=
  match getProp first (js "content") with
  | Throw e => Throw e
  | Ok (VStr c) => Ok (toLowerCase c)
  | Ok VUndefined =>
    Throw (TypeError (js "Cannot read properties of undefined (reading 'toLowerCase')"))
  | Ok VNull =>
    Throw (TypeError (js "Cannot read properties of null (reading 'toLowerCase')"))
  | Ok _ =>
    Throw (TypeError (js "userMessages[0].content.toLowerCase is not a function"))
  end.

Definition generateFallbackTopic (messages : value) : Result jsstring :=
  if negb (truthy messages) then Ok newChat
  else match messages with
  | VArr msgs =>
    if (length msgs =? 0)%nat then Ok newChat
    else
      match filterUser msgs with
      | Throw e => Throw e
      | Ok [] => Ok newChat
      | Ok (first :: _) =>
        match firstMessageOf first with
        | Throw e => Throw e
        | Ok firstMessage =>
          match scanKeywords topicMap firstMessage with
          | Some topic => Ok topic
          | None => Ok (fromFirstWords firstMessage)
          end
        end
      end
  | VObj fields =>
    match ownProperty (js "length") fields with
    | VNum 0 => Ok newChat
    | _ => Throw (TypeError (js "messages.filter is not a function"))
    end
  | _ => Throw (TypeError (js "messages.filter is not a function"))
  end.

End FallbackTopic.

(** ** [generateTopic] *)

Definition topicPromptHead : jsstring :=
  js "Based on the following therapy conversation, generate a short, empathetic topic title (maximum 4 words) that captures the main theme or concern being discussed.

Conversation:
".

Definition topicPromptTail : jsstring :=
  js "

Guidelines:
- Keep it concise (3-4 words maximum)
- Use empathetic language
- Focus on the main emotional theme or concern
- Suitable for a therapy context
- Add appropriate emoji if helpful (optional)

Examples of good topics:
- " ++ quoted (js "💭 Anxiety Management") ++ js "
- " ++ quoted (js "😴 Sleep Struggles") ++ js " 
- " ++ quoted (js "💼 Work Stress") ++ js "
- " ++ quoted (js "💕 Relationship Issues") ++ js "
- " ++ quoted (js "🌟 Building Confidence") ++ js "

Generate only the topic title, nothing else:".

(** The global replacement that deletes every single quote (39) and
    every double quote (34) of the topic. *)
Definition matchQuote (s : jsstring) : option nat :=
  match s with
  | c :: _ => if (c =? 39) || (c =? 34) then Some 1%nat else None
  | [] => None
  end.

Section GenerateTopic.
Variable env : Env.
Variables toLowerCase toUpperCase : jsstring -> jsstring.
(** The conversion to a string of a template literal. *)
Variable ToString : value -> Result jsstring.

(** One line of the transcript:
    [`${msg.role}: ${msg.content.substring(0, 200)}${msg.content.length > 200 ? "..." : ""}`] *)
Definition transcriptLine (msg : value) : Result jsstring :=
  match getProp msg (js "role") with
  | Throw e => Throw e
  | Ok r =>
    match ToString r with
    | Throw e => Throw e
    | Ok roleText =>
      match getProp msg (js "content") with
      | Throw e => Throw e
      | Ok (VStr c) =>
        Ok (roleText ++ js ": " ++ substring0 200 c
              ++ (if (200 <? length c)%nat then js "..." else []))
      | Ok VUndefined =>
        Throw (TypeError (js "Cannot read properties of undefined (reading 'substring')"))
      | Ok VNull =>
        Throw (TypeError (js "Cannot read properties of null (reading 'substring')"))
      | Ok _ => Throw (TypeError (js "msg.content.substring is not a function"))
      end
    end
  end.

(** [messages.map(...)] *)
Fixpoint transcript (messages : list value) : Result (list jsstring) :=
  match messages with
  | [] => Ok []
  | msg :: rest =>
    match transcriptLine msg with
    | Throw e => Throw e
    | Ok l =>
      match transcript rest with
      | Throw e => Throw e
      | Ok ls => Ok (l :: ls)
      end
    end
  end.

Definition topicPrompt (messages : list value) : Result jsstring :=
  match transcript messages with
  | Throw e => Throw e
  | Ok ls => Ok (topicPromptHead ++ join [10] ls ++ topicPromptTail)
  end.

Definition topicResponse (topic : jsstring) : Response :=
  {| statusCode := 200; json := VObj [(js "topic", VStr topic)] |}.

Definition ultimateFallback : Response :=
  {| statusCode := 500;
     json := VObj [(js "error", VStr (js "Failed to generate topic"));
                   (js "topic", VStr (js "💬 Therapy Session"))] |}.

Definition generateTopicBody (req : Request) : M Response :=
  let messages := ownProperty (js "messages") (body req) in
  (* Validate input *)
  match messages with
  | VArr msgs =>
    if negb (truthy messages) || (length msgs =? 0)%nat
    then ret (reply 400 "error" "Messages array is required and cannot be empty")
    else
      (* Check authentication *)
      match user req with
      | None => ret (reply 401 "message" "Unauthorized")
      | Some _ =>
        (* Use Gemini to generate a topic *)
        topicPrompt' <- lift (topicPrompt msgs) ;;
        text <- model_generateContent env topicPrompt' ;;
        let topic := trim text in
        (* Clean up the response (remove quotes, extra formatting) *)
        let topic := trim (removeAll matchQuote topic) in
        (* Fallback if topic is too long or empty *)
        topic <- (if (length topic =? 0)%nat || (50 <? length topic)%nat
                  then lift (generateFallbackTopic toLowerCase toUpperCase messages)
                  else ret topic) ;;
        ret (topicResponse topic)
      end
  | _ => (* !messages || !Array.isArray(messages) *)
    ret (reply 400 "error" "Messages array is required and cannot be empty")
  end.

Definition generateTopic (req : Request) (w : World) : Response * World :=
  match generateTopicBody req w with
  | (Ok res, w') => (res, w')
  | (Throw error, w') =>
    (* Fallback to simple topic generation if AI fails *)
    match generateFallbackTopic toLowerCase toUpperCase
            (ownProperty (js "messages") (body req)) with
    | Ok fallbackTopic => (topicResponse fallbackTopic, w')
    | Throw fallbackError => (ultimateFallback, w')
    end
  end.

End GenerateTopic.

(** ** [updateSessionTopic] *)

Section UpdateSessionTopic.
Variable env : Env.

Definition topicUpdated (topic : option jsstring) : Response :=
  {| statusCode := 200;
     json := VObj [(js "success", VBool true);
                   (js "topic", match topic with
                                | Some t => VStr t
                                | None => VUndefined
                                end);
                   (js "message", VStr (js "Topic updated successfully"))] |}.

Definition updateSessionTopicBody (req : Request) : M Response :=
  let sessionId := params_sessionId req in
  let topic' := ownProperty (js "topic") (body req) in
  (* Validate input *)
  match topic' with
  | VStr text =>
    if negb (truthy topic') || (length (trim text) =? 0)%nat
    then ret (reply 400 "error" "Topic is required and must be a non-empty string")
    else
      (* Check authentication *)
      match user req with
      | None => ret (reply 401 "message" "Unauthorized")
      | Some userId' =>
        (* Find and update the session *)
        found <- findOne env sessionId ;;
        match found with
        | None => ret (reply 404 "error" "Session not found")
        | Some session =>
          (* Check if user owns this session *)
          if negb (userId session =? userId')
          then ret (reply 403 "error" "Unauthorized")
          else
            (* Update the topic; limit topic length *)
            let session := setTopic session (substring0 100 (trim text)) in
            save env session ;;;
            ret (topicUpdated (topic session))
        end
      end
  | _ => (* !topic || typeof topic !== "string" *)
    ret (reply 400 "error" "Topic is required and must be a non-empty string")
  end.

Definition updateSessionTopic (req : Request) (w : World) : Response * World :=
  match updateSessionTopicBody req w with
  | (Ok res, w') => (res, w')
  | (Throw error, w') =>
    ({| statusCode := 500;
        json := VObj [(js "error", VStr (js "Failed to update session topic"));
                      (js "details", VStr (errorMessage error))] |}, w')
  end.

End UpdateSessionTopic.

(** ** Notions used by the statements *)

(** The world at the start of a request. *)
Definition initial (st : gmap jsstring IChatSession) : World :=
  {| store := st; trace := [] |}.

(** A submission that passes the four guards of [sendMessage]: the
    message is a string that is not blank, the caller is authenticated,
    the query succeeds and finds a session, and the caller owns it. *)
Record Accepted (env : Env) (req : Request) (st : gmap jsstring IChatSession)
    (text : jsstring) (session : IChatSession) : Prop := {
  acc_message : ownProperty (js "message") (body req) = VStr text;
  acc_nonblank : (length (trim text) =? 0)%nat = false;
  acc_user : user req = Some (userId session);
  acc_query : findOneFails env (params_sessionId req) = None;
  acc_found : st !! params_sessionId req = Some session;
  acc_key : sessionId session = params_sessionId req
}.

(** [!v || typeof v !== 'string' || v.trim().length === 0] *)
Definition blank (v : value) : bool :=
  match v with
  | VStr s => (length (trim s) =? 0)%nat
  | _ => true
  end.

(** The value bound to [analysis] when the first [try] block is left. *)
Definition analysisValue (env : Env) (JSON_parse : jsstring -> option value)
    (text : jsstring) : value :=
  match generateContent env 0 (analysisPrompt text) with
  | Ok answer =>
    match JSON_parse (cleanAnalysisText answer) with
    | Some v => v
    | None => fallbackAnalysis
    end
  | Throw _ => fallbackAnalysis
  end.

(** The value bound to [response] when the second [try] block is left. *)
Definition responseText (env : Env) (text : jsstring) : jsstring :=
  match generateContent env 1 (responsePrompt text) with
  | Ok answer => trim answer
  | Throw _ => fallbackResponse
  end.

(** [v == null]: the two values on which a property read throws. *)
Definition nullish (v : value) : bool :=
  match v with
  | VUndefined | VNull => true
  | _ => false
  end.

(** The analysis completion answered with a text that [JSON.parse]
    reads as [null]: the one outcome of the first [try] block on which
    [analysis.emotionalState] throws. *)
Definition analysisIsNull (env : Env) (JSON_parse : jsstring -> option value)
    (text : jsstring) : Prop :=
  exists answer v,
    generateContent env 0 (analysisPrompt text) = Ok answer
    /\ JSON_parse (cleanAnalysisText answer) = Some v
    /\ nullish v = true.

(** The four external calls every accepted submission makes first. *)
Definition pipelineCalls (req : Request) (text : jsstring) (history : list IChatMessage)
    : list Event :=
  [ EvFindOne (params_sessionId req);
    EvInngestSend (sessionMessageEvent text history);
    EvGenerateContent (analysisPrompt text);
    EvGenerateContent (responsePrompt text) ].

Definition serverError (e : exn) : Response :=
  {| statusCode := 500;
     json := VObj [(js "message", VStr (js "Error processing message"));
                   (js "error", VStr (errorMessage e))] |}.

(** The progress projection of the fallback analysis. *)
Definition fallbackProgress : value :=
  VObj [(js "emotionalState", VStr (js "seeking_support"));
        (js "riskLevel", VNum 1)].

(** [p] occurs in [s] as a contiguous run of code units. *)
Definition occursIn (p s : jsstring) : Prop := exists a b, s = a ++ p ++ b.

(** An element of a message list: an object whose [role] and [content]
    are strings. *)
Definition isMessage (v : value) : bool :=
  match v with
  | VObj fields =>
    match ownProperty (js "role") fields, ownProperty (js "content") fields with
    | VStr _, VStr _ => true
    | _, _ => false
    end
  | _ => false
  end.

Definition hasRoleUser (v : value) : bool :=
  match v with
  | VObj fields => strictEqStr (ownProperty (js "role") fields) (js "user")
  | _ => false
  end.

Definition message (r c : jsstring) : value :=
  VObj [(js "role", VStr r); (js "content", VStr c)].

(** "The user turn is committed before any call of the model": every
    completion in the log is preceded by a successful save of a session
    that holds the user message. *)
Definition committedBeforeOracle (text : jsstring) (t : list Event) : Prop :=
  forall before prompt after,
    t = before ++ EvGenerateContent prompt :: after ->
    exists s m, In (EvSave s true) before /\ In m (messages s)
                /\ role m = Role_user /\ content m = trim text.


(** What [generateTopic] answers when it falls back: the fallback topic
    of the list, or the hardcoded topic when the fallback throws. *)
Definition fallbackAnswerWith (toLowerCase toUpperCase : jsstring -> jsstring)
    (messages : value) : Response :=
  match generateFallbackTopic toLowerCase toUpperCase messages with
  | Ok topic => topicResponse topic
  | Throw _ => ultimateFallback
  end.

(** *** Sample data *)

Definition sampleSession : IChatSession :=
  {| sessionId := js "s-1"; userId := 7; messages := []; topic := None;
     startTime := 1000; status := active |}.

Definition sampleStore : gmap jsstring IChatSession :=
  {[ js "s-1" := sampleSession ]}.

(** A model that is unreachable, a store that works. *)
Definition offlineEnv : Env :=
  {| findOneFails := fun _ => None;
     inngestSendFails := fun _ => None;
     generateContent := fun _ _ => Throw (Error (js "fetch failed"));
     saveFails := fun _ => None;
     clock := fun n => 5000 + N.of_nat n |}.

(** A model that answers, a store that rejects every write. *)
Definition readOnlyEnv : Env :=
  {| findOneFails := fun _ => None;
     inngestSendFails := fun _ => None;
     generateContent := fun _ _ => Ok (js "  Tell me more.  ");
     saveFails := fun _ => Some (Error (js "write failed"));
     clock := fun n => 5000 + N.of_nat n |}.

(** A parser that accepts nothing. *)
Definition noParse (text : jsstring) : option value := None.




(** The conversion of the strings among the values. *)
Definition stringToString (v : value) : Result jsstring :=
  match v with
  | VStr s => Ok s
  | _ => Ok (js "undefined")
  end.

Definition sampleRequest (caller : option N) (key text : string) : Request :=
  {| params_sessionId := js "s-1";
     body := [(js key, VStr (js text))];
     user := caller |}.

Definition anxiousText : jsstring := js " I feel anxious about work ".

Definition anxiousRequest : Request :=
  sampleRequest (Some 7) "message" " I feel anxious about work ".

(** The session the sample data lead to when both fallbacks are used. *)
Definition anxiousStored : IChatSession :=
  push (push sampleSession (userMessage anxiousText 5001))
       (assistantMessage fallbackResponse 5004 fallbackAnalysis fallbackProgress).

Definition greeting : value := message (js "assistant") (js "How can I help?").
Definition joblessTurn : value := message (js "user") (js "I am JOBLESS").
Definition sleeplessTurn : value := message (js "user") (js "I can't sleep at night").

Definition topicRequest (caller : option N) (msgs : list value) : Request :=
  {| params_sessionId := [];
     body := [(js "messages", VArr msgs)];
     user := caller |}.

(** ** The other handlers of [controllers/chat.ts] *)

(** The answers of the collaborators that only these handlers call:
    [User.findById] (whether a user document exists, or the rejection of
    the query), the identifier [uuidv4()] returns during the request,
    and the failures of [deleteOne] and of [find].  These calls have no
    entry of their own in the log, which keeps the queries by
    [sessionId], the telemetry, the completions and the saves. *)
Record Outside : Type := {
  User_findById : N -> Result bool;
  uuidv4 : jsstring;
  deleteOneFails : jsstring -> option exn;
  findFails : N -> option exn
}.

(** [new ChatSession({ sessionId, userId, startTime, status: "active", messages: [] })] *)
Definition newChatSession (sid : jsstring) (owner : N) (t : N) : IChatSession :=
  {| sessionId := sid; userId := owner; messages := []; topic := None;
     startTime := t; status := active |}.

(** One element of [transformedSessions] ([createdAt] and [updatedAt]
    are left to the store, as in [IChatSession]). *)
Record SessionSummary : Type := {
  summary_sessionId : jsstring;
  summary_topic : option jsstring;
  summary_startTime : N;
  summary_status : Status;
  summary_messages : list IChatMessage;
  messageCount : nat
}.

Definition transformSession (session : IChatSession) : SessionSummary :=
  {| summary_sessionId := sessionId session;
     summary_topic := topic session;
     summary_startTime := startTime session;
     summary_status := status session;
     summary_messages := messages session;
     messageCount := length (messages session) |}.

Section OtherHandlers.
Variable env : Env.
Variable outside : Outside.
(** What [res.json] makes of the documents (their [toJSON]). *)
Variable messagesJSON : list IChatMessage -> value.
Variable sessionJSON : IChatSession -> value.
Variable summariesJSON : list SessionSummary -> value.
(** [.sort({ updatedAt: -1 })]: the order of the last updates, which the
    store keeps. *)
Variable sortByUpdatedAt : list IChatSession -> list IChatSession.

(** [await session.save()] for a new document: the unique index on
    [sessionId] rejects a second document with the same identifier. *)
Definition saveNew (session : IChatSession) : M unit :=
  fun w =>
    match saveFails env session with
    | Some e => (Throw e, logEvent (EvSave session false) w)
    | None =>
      match store w !! sessionId session with
      | Some _ =>
        (Throw (Error (js "E11000 duplicate key error")),
         logEvent (EvSave session false) w)
      | None =>
        (Ok tt,
         {| store := <[sessionId session := session]> (store w);
            trace := trace w ++ [EvSave session true] |})
      end
    end.

(** [await ChatSession.deleteOne({ sessionId })] *)
Definition deleteOne (sid : jsstring) : M unit :=
  fun w =>
    match deleteOneFails outside sid with
    | Some e => (Throw e, w)
    | None => (Ok tt, {| store := delete sid (store w); trace := trace w |})
    end.

(** [await ChatSession.find({ userId }).sort({ updatedAt: -1 }).select(...).exec()] *)
Definition findByUser (owner : N) : M (list IChatSession) :=
  fun w =>
    match findFails outside owner with
    | Some e => (Throw e, w)
    | None =>
      (Ok (sortByUpdatedAt
             (List.filter (fun session => userId session =? owner)
                          (map snd (map_to_list (store w))))), w)
    end.

Definition created (sid : jsstring) : Response :=
  {| statusCode := 201;
     json := VObj [(js "message", VStr (js "Chat session created successfully"));
                   (js "sessionId", VStr sid)] |}.

Definition createChatSessionBody (req : Request) : M Response :=
  match user req with
  | None => ret (reply 401 "message" "Unauthorized")
  | Some userId' =>
    found <- lift (User_findById outside userId') ;;
    if negb found then ret (reply 404 "message" "User not found")
    else
      (* Generate a unique sessionId *)
      let sessionId' := uuidv4 outside in
      t <- newDate env ;;
      let session := newChatSession sessionId' userId' t in
      saveNew session ;;;
      ret (created (sessionId session))
  end.

Definition createChatSession (req : Request) (w : World) : Response * World :=
  match createChatSessionBody req w with
  | (Ok res, w') => (res, w')
  | (Throw error, w') =>
    ({| statusCode := 500;
        json := VObj [(js "message", VStr (js "Error creating chat session"));
                      (js "error", VStr (errorMessage error))] |}, w')
  end.

Definition getChatSessionBody (req : Request) : M Response :=
  found <- findOne env (params_sessionId req) ;;
  match found with
  | None => ret (reply 404 "error" "Chat session not found")
  | Some chatSession => ret {| statusCode := 200; json := sessionJSON chatSession |}
  end.

Definition getChatSession (req : Request) (w : World) : Response * World :=
  match getChatSessionBody req w with
  | (Ok res, w') => (res, w')
  | (Throw error, w') => (reply 500 "error" "Failed to get chat session", w')
  end.

Definition getChatHistoryBody (req : Request) : M Response :=
  (* Ensure user is authenticated *)
  match user req with
  | None => ret (reply 401 "message" "Unauthorized")
  | Some userId' =>
    (* Find session by sessionId instead of _id *)
    found <- findOne env (params_sessionId req) ;;
    match found with
    | None => ret (reply 404 "message" "Session not found")
    | Some session =>
      if negb (userId session =? userId')
      then ret (reply 403 "message" "Unauthorized")
      else ret {| statusCode := 200; json := messagesJSON (messages session) |}
    end
  end.

Definition getChatHistory (req : Request) (w : World) : Response * World :=
  match getChatHistoryBody req w with
  | (Ok res, w') => (res, w')
  | (Throw error, w') => (reply 500 "message" "Error fetching chat history", w')
  end.

Definition getAllChatSessionsBody (req : Request) : M Response :=
  (* 1. Authenticate the user *)
  match user req with
  | None => ret (reply 401 "message" "Unauthorized")
  | Some userId' =>
    (* 2. Fetch all chat sessions for the authenticated user *)
    sessions <- findByUser userId' ;;
    (* 3. Transform the sessions *)
    let transformedSessions := map transformSession sessions in
    (* 4. Send the list of sessions back *)
    ret {| statusCode := 200; json := summariesJSON transformedSessions |}
  end.

Definition getAllChatSessions (req : Request) (w : World) : Response * World :=
  match getAllChatSessionsBody req w with
  | (Ok res, w') => (res, w')
  | (Throw error, w') =>
    ({| statusCode := 500;
        json := VObj [(js "message", VStr (js "Internal server error"));
                      (js "error", VStr (errorMessage error))] |}, w')
  end.

Definition deleted (sid : jsstring) : Response :=
  {| statusCode := 200;
     json := VObj [(js "success", VBool true);
                   (js "message", VStr (js "Session deleted successfully"));
                   (js "sessionId", VStr sid)] |}.

Definition deleteChatSessionBody (req : Request) : M Response :=
  let sessionId' := params_sessionId req in
  (* Check authentication *)
  match user req with
  | None => ret (reply 401 "message" "Unauthorized")
  | Some userId' =>
    (* Find the session first to check ownership *)
    found <- findOne env sessionId' ;;
    match found with
    | None => ret (reply 404 "error" "Session not found")
    | Some session =>
      (* Check if user owns this session *)
      if negb (userId session =? userId')
      then ret (reply 403 "error" "Unauthorized - you can only delete your own sessions")
      else
        (* Delete the session *)
        deleteOne sessionId' ;;;
        ret (deleted sessionId')
    end
  end.

Definition deleteChatSession (req : Request) (w : World) : Response * World :=
  match deleteChatSessionBody req w with
  | (Ok res, w') => (res, w')
  | (Throw error, w') =>
    ({| statusCode := 500;
        json := VObj [(js "error", VStr (js "Failed to delete session"));
                      (js "details", VStr (errorMessage error))] |}, w')
  end.

End OtherHandlers.

(** ** Invariants of the stored sessions *)

(** Every document is stored under its own [sessionId]. *)
Definition wellKeyed (st : gmap jsstring IChatSession) : Prop :=
  forall k s, st !! k = Some s -> sessionId s = k.

(** [maxlength: 100] of the schema: no stored topic is longer. *)
Definition topicsWithinLimit (st : gmap jsstring IChatSession) : Prop :=
  forall k s t, st !! k = Some s -> topic s = Some t -> (length t <= 100)%nat.

(** *** More sample data *)

Definition sampleOutside : Outside :=
  {| User_findById := fun _ => Ok true;
     uuidv4 := js "3f2c-new";
     deleteOneFails := fun _ => None;
     findFails := fun _ => None |}.

(** Encodings that keep what the checks below look at. *)
Definition contentsJSON (ms : list IChatMessage) : value :=
  VArr (map (fun m => VStr (content m)) ms).

Definition idJSON (session : IChatSession) : value := VStr (sessionId session).

Definition idsJSON (l : list SessionSummary) : value :=
  VArr (map (fun x => VStr (summary_sessionId x)) l).

Definition otherSession : IChatSession :=
  {| sessionId := js "s-2"; userId := 8; messages := []; topic := None;
     startTime := 2000; status := active |}.

Definition twoSessions : gmap jsstring IChatSession :=
  <[js "s-2" := otherSession]> sampleStore.

(** [env] with another answer of the telemetry collaborator. *)
Definition withTelemetry (f : InngestEvent -> option exn) (env : Env) : Env :=
  {| findOneFails := findOneFails env;
     inngestSendFails := f;
     generateContent := generateContent env;
     saveFails := saveFails env;
     clock := clock env |}.

(** A store whose query by [sessionId] rejects. *)
Definition brokenQueryEnv : Env :=
  {| findOneFails := fun _ => Some (Error (js "connection lost"));
     inngestSendFails := fun _ => None;
     generateContent := fun _ _ => Ok (js "  Tell me more.  ");
     saveFails := fun _ => None;
     clock := fun n => 5000 + N.of_nat n |}.

(** A model that answers, a store that works, a telemetry collaborator
    that is down. *)
Definition answeringEnv : Env :=
  {| findOneFails := fun _ => None;
     inngestSendFails := fun _ => Some (Error (js "inngest down"));
     generateContent := fun _ _ => Ok (js "  Tell me more.  ");
     saveFails := fun _ => None;
     clock := fun n => 5000 + N.of_nat n |}.

(** A users collection without the caller. *)
Definition strangerOutside : Outside :=
  {| User_findById := fun _ => Ok false;
     uuidv4 := js "3f2c-new";
     deleteOneFails := fun _ => None;
     findFails := fun _ => None |}.

(** A first message to the session [sampleOutside] names. *)
Definition firstMessageRequest : Request :=
  {| params_sessionId := js "3f2c-new";
     body := [(js "message", VStr anxiousText)];
     user := Some 7 |}.

(** A model that wraps its topic in quotes. *)
Definition quotingEnv : Env :=
  {| findOneFails := fun _ => None;
     inngestSendFails := fun _ => None;
     generateContent := fun _ _ => Ok (js "  'Work Stress'
");
     saveFails := fun _ => None;
     clock := fun n => 5000 + N.of_nat n |}.

Definition isQuote (c : N) : bool := (c =? 39) || (c =? 34).

(** The number of spaces of a string. *)
Definition spaces (s : jsstring) : nat := length (List.filter (N.eqb 32) s).

Definition helloTurn : value := message (js "user") (js "Hello  there my friend").

(** A generator that returns an identifier already in use. *)
Definition collidingOutside : Outside :=
  {| User_findById := fun _ => Ok true;
     uuidv4 := js "s-1";
     deleteOneFails := fun _ => None;
     findFails := fun _ => None |}.

(** * Properties *)

(** ** Strings *)

Example js_ascii : js "job" = [106; 111; 98].
Proof. reflexivity. Qed.

Example js_emoji :
  js "💬 New Chat" = [55357; 56492; 32; 78; 101; 119; 32; 67; 104; 97; 116].
Proof. reflexivity. Qed.

Example trim_example : trim (js "  hi there 	") = js "hi there".
Proof. reflexivity. Qed.

Example split_example : split 32 (js "a  b c") = [js "a"; []; js "b"; js "c"].
Proof. reflexivity. Qed.

Example cleanAnalysisText_example :
  cleanAnalysisText (backticks ++ js "json
{}
" ++ backticks ++ js " ") = js "{}".
Proof. reflexivity. Qed.

Lemma startsWith_spec (p s : jsstring) :
  startsWith p s = true <-> exists b, s = p ++ b.
Proof.
  revert s. induction p as [|a p IH]; intros s; simpl.
  - split; [intros _; exists s; reflexivity | reflexivity].
  - destruct s as [|c s].
    + split; [discriminate | intros [b Hb]; discriminate].
    + rewrite andb_true_iff, N.eqb_eq, IH. split.
      * intros [-> [b ->]]. exists b. reflexivity.
      * intros [b Hb]. injection Hb as -> ->. split; [reflexivity | exists b; reflexivity].
Qed.

(** [includes] is substring containment. *)
Lemma includes_spec (p s : jsstring) : includes p s = true <-> occursIn p s.
Proof.
  unfold occursIn. induction s as [|c s IH].
  - simpl. rewrite orb_false_r, startsWith_spec. split.
    + intros [b Hb]. exists [], b. exact Hb.
    + intros [a [b Hab]]. destruct a; [exists b; exact Hab | discriminate].
  - cbn [includes]. rewrite orb_true_iff, startsWith_spec, IH. split.
    + intros [[b Hb] | [a [b Hab]]].
      * exists [], b. exact Hb.
      * exists (c :: a), b. rewrite Hab. reflexivity.
    + intros [a [b Hab]]. destruct a as [|x a].
      * left. exists b. exact Hab.
      * right. injection Hab as _ Hab. exists a, b. exact Hab.
Qed.

Lemma includes_false (p s : jsstring) : includes p s = false -> ~ occursIn p s.
Proof. intros H Hocc. apply includes_spec in Hocc. congruence. Qed.

Lemma nonblank_truthy (text : jsstring) :
  (length (trim text) =? 0)%nat = false -> truthy (VStr text) = true.
Proof. destruct text; [discriminate | reflexivity]. Qed.

(** ** The run of [sendMessage] *)

Ltac run_step :=
  cbn [store trace length app generateCalls List.filter isGenerate].

Section SendMessageFacts.
Variable env : Env.
Variable JSON_parse : jsstring -> option value.

Lemma processMessage_run (req : Request) (st : gmap jsstring IChatSession)
    (text : jsstring) (session : IChatSession) :
  sessionId session = params_sessionId req ->
  processMessage env JSON_parse session text
    {| store := st; trace := [EvFindOne (params_sessionId req)] |} =
  let s1 := push session (userMessage text (clock env 1)) in
  let calls := pipelineCalls req text (messages s1) in
  let A := analysisValue env JSON_parse text in
  let R := responseText env text in
  match progressOf A with
  | Throw e => (Throw e, {| store := st; trace := calls |})
  | Ok p =>
    let s2 := push s1 (assistantMessage R (clock env 4) A p) in
    match saveFails env s2 with
    | Some e => (Throw e, {| store := st; trace := calls ++ [EvSave s2 false] |})
    | None =>
      (Ok (sendMessageOk R A p),
       {| store := <[params_sessionId req := s2]> st;
          trace := calls ++ [EvSave s2 true] |})
    end
  end.
Proof.
  intros Hkey.
  unfold processMessage, analysisValue, responseText, pipelineCalls.
  unfold bind, tryCatch, newDate, inngest_send, model_generateContent, lift,
    save, ret, parseJSON, logEvent.
  run_step.
  destruct (inngestSendFails env _); run_step;
    destruct (generateContent env 0 (analysisPrompt text)) as [answer|?];
    run_step;
    try (destruct (JSON_parse (cleanAnalysisText answer)) as [v|]; run_step);
    destruct (generateContent env 1 (responsePrompt text)) as [answer'|?];
    run_step.
  all: match goal with
       | |- context [progressOf ?a] => destruct (progressOf a) as [p|e']
       end; [|reflexivity].
  all: run_step.
  all: match goal with
       | |- context [saveFails env ?s] => destruct (saveFails env s)
       end; [reflexivity|].
  all: cbn [sessionId push]; rewrite Hkey; reflexivity.
Qed.

End SendMessageFacts.

Section SendMessageClaims.
Variable env : Env.
Variable JSON_parse : jsstring -> option value.

(** The first guard. *)
Lemma sendMessage_invalid (req : Request) (w : World) :
  blank (ownProperty (js "message") (body req)) = true ->
  sendMessage env JSON_parse req w
    = (reply 400 "message" "Message cannot be empty", w).
Proof.
  unfold sendMessage, sendMessageBody, blank.
  destruct (ownProperty (js "message") (body req)); try reflexivity.
  intros ->. rewrite orb_true_r. reflexivity.
Qed.

(** The fourth guard. *)
Lemma sendMessage_other_owner (req : Request) (st : gmap jsstring IChatSession)
    (text : jsstring) (session : IChatSession) (caller : N) :
  ownProperty (js "message") (body req) = VStr text ->
  (length (trim text) =? 0)%nat = false ->
  user req = Some caller ->
  findOneFails env (params_sessionId req) = None ->
  st !! params_sessionId req = Some session ->
  userId session <> caller ->
  sendMessage env JSON_parse req (initial st)
    = (reply 403 "message" "Unauthorized",
       {| store := st; trace := [EvFindOne (params_sessionId req)] |}).
Proof.
  intros Hmsg Hblank Huser Hquery Hfound Hother.
  apply N.eqb_neq in Hother.
  unfold sendMessage, sendMessageBody.
  rewrite Hmsg, (nonblank_truthy _ Hblank), Hblank, Huser.
  cbn [negb orb]. unfold bind, findOne, logEvent, initial.
  cbn [store trace app]. rewrite Hquery, Hfound, Hother. reflexivity.
Qed.

(** An accepted submission runs the whole pipeline: the query, the
    telemetry event, the two completions, and then, unless the
    analysis is [null], one save. *)
Lemma sendMessage_accepted (req : Request) (st : gmap jsstring IChatSession)
    (text : jsstring) (session : IChatSession) :
  Accepted env req st text session ->
  sendMessage env JSON_parse req (initial st) =
  let s1 := push session (userMessage text (clock env 1)) in
  let calls := pipelineCalls req text (messages s1) in
  let A := analysisValue env JSON_parse text in
  let R := responseText env text in
  match progressOf A with
  | Throw e => (serverError e, {| store := st; trace := calls |})
  | Ok p =>
    let s2 := push s1 (assistantMessage R (clock env 4) A p) in
    match saveFails env s2 with
    | Some e => (serverError e, {| store := st; trace := calls ++ [EvSave s2 false] |})
    | None =>
      (sendMessageOk R A p,
       {| store := <[params_sessionId req := s2]> st;
          trace := calls ++ [EvSave s2 true] |})
    end
  end.
Proof.
  intros [Hmsg Hblank Huser Hquery Hfound Hkey].
  unfold sendMessage, sendMessageBody.
  rewrite Hmsg, (nonblank_truthy _ Hblank), Hblank, Huser.
  cbn [negb orb]. unfold bind at 1, findOne at 1, logEvent, initial.
  cbn [store trace app]. rewrite Hquery, Hfound, N.eqb_refl.
  cbn [negb].
  rewrite (processMessage_run env JSON_parse req st text session Hkey).
  cbv zeta.
  destruct (progressOf (analysisValue env JSON_parse text)); [|reflexivity].
  match goal with
  | |- context [saveFails env ?s] => destruct (saveFails env s)
  end; reflexivity.
Qed.

(** [analysis.emotionalState] throws exactly when the analysis is
    [null]; on every other value the progress projection is built. *)
Lemma progressOf_analysis (text : jsstring) :
  (analysisIsNull env JSON_parse text
   /\ exists e, progressOf (analysisValue env JSON_parse text) = Throw e)
  \/ (~ analysisIsNull env JSON_parse text
      /\ exists p, progressOf (analysisValue env JSON_parse text) = Ok p).
Proof.
  unfold analysisIsNull, analysisValue.
  destruct (generateContent env 0 (analysisPrompt text)) as [answer|e].
  - destruct (JSON_parse (cleanAnalysisText answer)) as [v|] eqn:Hparse.
    + destruct (nullish v) eqn:Hnull.
      * left. split; [exists answer, v; repeat split; assumption |].
        destruct v; try discriminate Hnull; eexists; reflexivity.
      * right. split.
        -- intros [answer' [v' [[= <-] [Hparse' Hnull']]]].
           rewrite Hparse in Hparse'. injection Hparse' as <-. congruence.
        -- destruct v; try discriminate Hnull; eexists; reflexivity.
    + right. split; [| eexists; reflexivity].
      intros [answer' [v' [[= <-] [Hparse' _]]]]. congruence.
  - right. split; [| eexists; reflexivity].
    intros [answer' [v' [[=] _]]].
Qed.

(** C2. A message that is absent, is not a string, or is empty after
    trimming is answered with status 400 (ValidationError) before
    anything else happens: the world (the stored sessions and the log
    of external calls) is the one the request started from. *)
Theorem sendMessage_blank_rejected (req : Request) (w : World) :
  ownProperty (js "message") (body req) = VUndefined
  \/ (forall s, ownProperty (js "message") (body req) <> VStr s)
  \/ (exists s, ownProperty (js "message") (body req) = VStr s /\ trim s = []) ->
  sendMessage env JSON_parse req w
    = (reply 400 "message" "Message cannot be empty", w)
  /\ errorKind (fst (sendMessage env JSON_parse req w)) = Some ValidationError.
Proof.
  intros H.
  assert (Hblank : blank (ownProperty (js "message") (body req)) = true).
  { destruct H as [-> | [H | [s [-> Hs]]]].
    - reflexivity.
    - destruct (ownProperty (js "message") (body req)) as [| | | |s| |];
        try reflexivity.
      exfalso. apply (H s). reflexivity.
    - cbn [blank]. rewrite Hs. reflexivity. }
  rewrite (sendMessage_invalid req w Hblank). split; reflexivity.
Qed.

(** C5. When the session found belongs to another user than the
    caller, nothing is written: the stored sessions are unchanged, no
    save and no completion is attempted; and a submission whose message
    is valid is answered with status 403 (ForbiddenError) right after
    the query. *)
Theorem sendMessage_forbidden (req : Request) (st : gmap jsstring IChatSession)
    (session : IChatSession) (caller : N) :
  user req = Some caller ->
  findOneFails env (params_sessionId req) = None ->
  st !! params_sessionId req = Some session ->
  userId session <> caller ->
  let out := sendMessage env JSON_parse req (initial st) in
  store (snd out) = st
  /\ (forall s ok, ~ In (EvSave s ok) (trace (snd out)))
  /\ generateCalls (trace (snd out)) = 0%nat
  /\ (forall text,
        ownProperty (js "message") (body req) = VStr text ->
        (length (trim text) =? 0)%nat = false ->
        out = (reply 403 "message" "Unauthorized",
               {| store := st; trace := [EvFindOne (params_sessionId req)] |})
        /\ errorKind (fst out) = Some ForbiddenError).
Proof.
  intros Huser Hquery Hfound Hother out.
  assert (Hvalid : forall text,
    ownProperty (js "message") (body req) = VStr text ->
    (length (trim text) =? 0)%nat = false ->
    out = (reply 403 "message" "Unauthorized",
           {| store := st; trace := [EvFindOne (params_sessionId req)] |})).
  { intros text Hmsg Hblank.
    exact (sendMessage_other_owner req st text session caller
             Hmsg Hblank Huser Hquery Hfound Hother). }
  destruct (blank (ownProperty (js "message") (body req))) eqn:Hblank.
  - assert (Hout : out = (reply 400 "message" "Message cannot be empty", initial st))
      by exact (sendMessage_invalid req (initial st) Hblank).
    rewrite Hout. cbn [fst snd store trace initial].
    split; [reflexivity | split; [intros s ok [] | split; [reflexivity |]]].
    intros text Hmsg Hnb. rewrite Hmsg in Hblank. cbn [blank] in Hblank. congruence.
  - destruct (ownProperty (js "message") (body req)) as [| | | |text0| |] eqn:Hmsg;
      try discriminate.
    cbn [blank] in Hblank. rewrite (Hvalid text0 eq_refl Hblank).
    cbn [fst snd store trace].
    split; [reflexivity | split; [| split; [reflexivity |]]].
    + intros s ok [H | []]. discriminate.
    + intros text _ _. split; reflexivity.
Qed.

(** C3. When the analysis completion fails, or answers with a text
    that [JSON.parse] rejects once the code fences are stripped, the
    analysis is the fixed fallback ([emotionalState] seeking_support,
    [themes] anxiety_management, [riskLevel] 1, [recommendedApproach]
    cognitive_behavioral, [progressIndicators] active_engagement): the
    session handed to the save ends with an assistant message whose
    metadata hold that analysis and its progress projection; when the
    save succeeds that session is the one stored and the [analysis] and
    [metadata] of the answer (status 200) hold the same values.  (When
    the save fails, nothing is stored and the answer is status 500.) *)
Theorem sendMessage_fallback_analysis (req : Request)
    (st : gmap jsstring IChatSession) (text : jsstring) (session : IChatSession) :
  Accepted env req st text session ->
  (exists e, generateContent env 0 (analysisPrompt text) = Throw e)
  \/ (exists answer, generateContent env 0 (analysisPrompt text) = Ok answer
                     /\ JSON_parse (cleanAnalysisText answer) = None) ->
  let out := sendMessage env JSON_parse req (initial st) in
  let userTurn := userMessage text (clock env 1) in
  let s1 := push session userTurn in
  let stored :=
    push s1 (assistantMessage (responseText env text) (clock env 4)
               fallbackAnalysis fallbackProgress) in
  let calls := pipelineCalls req text (messages s1) in
  let fixed :=
    VObj [(js "emotionalState", VStr (js "seeking_support"));
          (js "themes", VArr [VStr (js "anxiety_management")]);
          (js "riskLevel", VNum 1);
          (js "recommendedApproach", VStr (js "cognitive_behavioral"));
          (js "progressIndicators", VArr [VStr (js "active_engagement")])] in
  let fixedProgress :=
    VObj [(js "emotionalState", VStr (js "seeking_support"));
          (js "riskLevel", VNum 1)] in
  out =
    match saveFails env stored with
    | None =>
      (sendMessageOk (responseText env text) fallbackAnalysis fallbackProgress,
       {| store := <[params_sessionId req := stored]> st;
          trace := calls ++ [EvSave stored true] |})
    | Some e =>
      (serverError e, {| store := st; trace := calls ++ [EvSave stored false] |})
    end
  /\ exists assistantTurn,
       messages stored = messages session ++ [userTurn; assistantTurn]
       /\ role assistantTurn = Role_assistant
       /\ metadata assistantTurn = Some {| analysis := fixed; progress := fixedProgress |}
       /\ match saveFails env stored with
          | None =>
            statusCode (fst out) = 200
            /\ getProp (json (fst out)) (js "analysis") = Ok fixed
            /\ getProp (json (fst out)) (js "metadata")
               = Ok (VObj [(js "progress", fixedProgress)])
            /\ store (snd out) !! params_sessionId req = Some stored
            /\ trace (snd out) = calls ++ [EvSave stored true]
          | Some _ =>
            statusCode (fst out) = 500
            /\ store (snd out) = st
            /\ trace (snd out) = calls ++ [EvSave stored false]
          end.
Proof.
  intros Hacc Hfail out userTurn s1 stored calls fixed fixedProgress.
  assert (HA : analysisValue env JSON_parse text = fallbackAnalysis).
  { unfold analysisValue.
    destruct Hfail as [[e ->] | [answer [-> ->]]]; reflexivity. }
  assert (Hrun : out =
    match saveFails env stored with
    | None =>
      (sendMessageOk (responseText env text) fallbackAnalysis fallbackProgress,
       {| store := <[params_sessionId req := stored]> st;
          trace := calls ++ [EvSave stored true] |})
    | Some e =>
      (serverError e, {| store := st; trace := calls ++ [EvSave stored false] |})
    end).
  { subst out stored calls s1 userTurn.
    rewrite (sendMessage_accepted req st text session Hacc), HA.
    cbv zeta.
    change (progressOf fallbackAnalysis) with (Ok fallbackProgress).
    cbv iota beta.
    match goal with
    | |- context [saveFails env ?s] => destruct (saveFails env s)
    end; reflexivity. }
  split; [exact Hrun |].
  exists (assistantMessage (responseText env text) (clock env 4)
            fallbackAnalysis fallbackProgress).
  split; [subst stored s1; cbn [push messages]; rewrite <- app_assoc; reflexivity |].
  split; [reflexivity |].
  split; [reflexivity |].
  rewrite Hrun. destruct (saveFails env stored) as [e|].
  - cbn [fst snd store trace statusCode serverError]. repeat split.
  - cbn [fst snd store trace statusCode json sendMessageOk].
    split; [reflexivity |].
    split; [reflexivity |].
    split; [reflexivity |].
    split; [apply lookup_insert_eq | reflexivity].
Qed.


(** C9. The user turn and the assistant turn are committed by one
    save, attempted after the two completions: the log of an accepted
    submission is the query, the telemetry event and the two
    completions, followed by one save of the session extended with both
    messages.  When that save fails, the stored sessions are unchanged
    (neither message is stored) and the answer is status 500; when it
    succeeds the session is replaced and the answer is 200.  The save is
    left out in one case only, an analysis that is [null]: the request
    then ends with status 500 after the two completions, and nothing is
    stored. *)
Theorem sendMessage_single_save (req : Request)
    (st : gmap jsstring IChatSession) (text : jsstring) (session : IChatSession) :
  Accepted env req st text session ->
  let out := sendMessage env JSON_parse req (initial st) in
  let userTurn := userMessage text (clock env 1) in
  let calls := pipelineCalls req text (messages session ++ [userTurn]) in
  role userTurn = Role_user /\ content userTurn = trim text
  /\ generateCalls calls = 2%nat
  /\ ((analysisIsNull env JSON_parse text
       /\ trace (snd out) = calls /\ store (snd out) = st
       /\ statusCode (fst out) = 500)
      \/ (~ analysisIsNull env JSON_parse text
          /\ exists assistantTurn ok,
               let saved := push (push session userTurn) assistantTurn in
               role assistantTurn = Role_assistant
               /\ messages saved = messages session ++ [userTurn; assistantTurn]
               /\ trace (snd out) = calls ++ [EvSave saved ok]
               /\ (ok = true <-> saveFails env saved = None)
               /\ if ok
                  then store (snd out) = <[params_sessionId req := saved]> st
                       /\ statusCode (fst out) = 200
                  else store (snd out) = st
                       /\ errorKind (fst out) = Some PersistenceError)).
Proof.
  intros Hacc out userTurn calls. subst out userTurn calls.
  split; [reflexivity | split; [reflexivity | split; [reflexivity |]]].
  rewrite (sendMessage_accepted req st text session Hacc). cbv zeta.
  destruct (progressOf_analysis text) as [[Hnull [e ->]] | [Hnotnull [p ->]]].
  - left. split; [exact Hnull |]. repeat split; reflexivity.
  - right. split; [exact Hnotnull |].
    set (a := assistantMessage (responseText env text) (clock env 4)
                (analysisValue env JSON_parse text) p).
    set (saved := push (push session (userMessage text (clock env 1))) a).
    assert (Hrole : role a = Role_assistant) by reflexivity.
    assert (Hmessages : messages saved
                        = messages session ++ [userMessage text (clock env 1); a]).
    { subst saved. cbn [push messages]. rewrite <- app_assoc. reflexivity. }
    destruct (saveFails env saved) as [e|] eqn:Hsave.
    + exists a, false. cbv zeta. fold saved. rewrite Hsave.
      clearbody saved. clearbody a. cbn [fst snd store trace push messages].
      split; [exact Hrole | split; [exact Hmessages | split; [reflexivity |]]].
      split; [split; discriminate | split; reflexivity].
    + exists a, true. cbv zeta. fold saved. rewrite Hsave.
      clearbody saved. clearbody a. cbn [fst snd store trace push messages].
      split; [exact Hrole | split; [exact Hmessages | split; [reflexivity |]]].
      split; [split; reflexivity | split; reflexivity].
Qed.

(** C1 (amended). The user turn is appended to the session in memory
    before either completion is asked for (the telemetry event sent
    before them carries it in its history), but nothing is written
    until both completions are over: the log starts with the query,
    the telemetry event and the two completions, and the only save, if
    any, follows them and stores the user turn.  When that save fails
    the answer is status 500, the stored sessions are unchanged, and
    both completions have been asked for.  The save is attempted unless
    the analysis is [null] (status 500, nothing stored); it is made on
    the session extended with the user turn and an assistant turn, and
    when it succeeds that session replaces the stored one and the answer
    is status 200. *)
Theorem sendMessage_user_turn_order (req : Request)
    (st : gmap jsstring IChatSession) (text : jsstring) (session : IChatSession) :
  Accepted env req st text session ->
  let out := sendMessage env JSON_parse req (initial st) in
  let userTurn := userMessage text (clock env 1) in
  exists rest,
    trace (snd out) =
      [ EvFindOne (params_sessionId req);
        EvInngestSend (sessionMessageEvent text (messages session ++ [userTurn]));
        EvGenerateContent (analysisPrompt text);
        EvGenerateContent (responsePrompt text) ] ++ rest
    /\ (rest = [] \/ exists s ok, rest = [EvSave s ok] /\ In userTurn (messages s))
    /\ (forall s, rest = [EvSave s false] ->
          errorKind (fst out) = Some PersistenceError
          /\ store (snd out) = st
          /\ generateCalls (trace (snd out)) = 2%nat)
    /\ (rest = [] <-> analysisIsNull env JSON_parse text)
    /\ (rest = [] -> statusCode (fst out) = 500 /\ store (snd out) = st)
    /\ (forall s ok, rest = [EvSave s ok] ->
          (ok = true <-> saveFails env s = None)
          /\ exists assistantTurn,
               role assistantTurn = Role_assistant
               /\ messages s = messages session ++ [userTurn; assistantTurn])
    /\ (forall s, rest = [EvSave s true] ->
          statusCode (fst out) = 200
          /\ store (snd out) = <[params_sessionId req := s]> st).
Proof.
  intros Hacc out userTurn. subst out userTurn.
  rewrite (sendMessage_accepted req st text session Hacc). cbv zeta.
  destruct (progressOf_analysis text) as [[Hnull [e ->]] | [Hnotnull [p ->]]].
  - exists []. cbn [fst snd store trace].
    split; [reflexivity |].
    split; [left; reflexivity |].
    split; [intros s [=] |].
    split; [split; [intros _; exact Hnull | reflexivity] |].
    split; [intros _; split; reflexivity |].
    split; [intros s ok [=] | intros s [=]].
  - set (a := assistantMessage (responseText env text) (clock env 4)
                (analysisValue env JSON_parse text) p).
    set (saved := push (push session (userMessage text (clock env 1))) a).
    assert (Hrole : role a = Role_assistant) by reflexivity.
    assert (Hmessages : messages saved
                        = messages session ++ [userMessage text (clock env 1); a]).
    { subst saved. cbn [push messages]. rewrite <- app_assoc. reflexivity. }
    assert (Hin : In (userMessage text (clock env 1)) (messages saved)).
    { rewrite Hmessages. apply in_or_app. right. left. reflexivity. }
    destruct (saveFails env saved) as [e|] eqn:Hsave;
      clearbody saved; clearbody a.
    + exists [EvSave saved false]. cbn [fst snd store trace].
      split; [reflexivity |].
      split; [right; exists saved, false; split; [reflexivity | exact Hin] |].
      split; [intros s _; repeat split; reflexivity |].
      split; [split; [discriminate | intros H; contradiction] |].
      split; [discriminate |].
      split; [| intros s [=]].
      intros s ok [= <- <-]. rewrite Hsave.
      split; [split; discriminate |].
      exists a. split; [exact Hrole | exact Hmessages].
    + exists [EvSave saved true]. cbn [fst snd store trace].
      split; [reflexivity |].
      split; [right; exists saved, true; split; [reflexivity | exact Hin] |].
      split; [intros s [=] |].
      split; [split; [discriminate | intros H; contradiction] |].
      split; [discriminate |].
      split.
      * intros s ok [= <- <-]. rewrite Hsave.
        split; [split; reflexivity |].
        exists a. split; [exact Hrole | exact Hmessages].
      * intros s [= <-]. split; reflexivity.
Qed.

End SendMessageClaims.

(** *** Instances on the sample data *)

Ltac by_computation := vm_compute; reflexivity.

Lemma anxious_accepted (env : Env) :
  findOneFails env (js "s-1") = None ->
  Accepted env anxiousRequest sampleStore anxiousText sampleSession.
Proof.
  intros H. constructor;
    [by_computation | by_computation | reflexivity | exact H | by_computation
    | reflexivity].
Defined.

Lemma sendMessage_blank_rejected_witness :
  (exists s, ownProperty (js "message") (body (sampleRequest (Some 7) "message" "  	 "))
             = VStr s /\ trim s = [])
  /\ sendMessage offlineEnv noParse (sampleRequest (Some 7) "message" "  	 ")
       (initial sampleStore)
     = (reply 400 "message" "Message cannot be empty", initial sampleStore).
Proof.
  assert (H : exists s,
    ownProperty (js "message") (body (sampleRequest (Some 7) "message" "  	 "))
    = VStr s /\ trim s = []).
  { exists (js "  	 "). split; by_computation. }
  split; [exact H |].
  apply (sendMessage_blank_rejected offlineEnv noParse
           (sampleRequest (Some 7) "message" "  	 ") (initial sampleStore)).
  right. right. exact H.
Defined.

Lemma sendMessage_forbidden_witness :
  userId sampleSession <> 8
  /\ sendMessage offlineEnv noParse
       (sampleRequest (Some 8) "message" "hello") (initial sampleStore)
     = (reply 403 "message" "Unauthorized",
        {| store := sampleStore; trace := [EvFindOne (js "s-1")] |}).
Proof.
  assert (H : userId sampleSession <> 8) by (cbn; lia).
  assert (Hfound : sampleStore !! params_sessionId (sampleRequest (Some 8) "message" "hello")
                   = Some sampleSession) by by_computation.
  assert (Hmsg : ownProperty (js "message") (body (sampleRequest (Some 8) "message" "hello"))
                 = VStr (js "hello")) by by_computation.
  assert (Hblank : (length (trim (js "hello")) =? 0)%nat = false) by by_computation.
  split; [exact H |].
  pose proof (proj2 (proj2 (proj2
    (sendMessage_forbidden offlineEnv noParse
       (sampleRequest (Some 8) "message" "hello") sampleStore sampleSession 8
       eq_refl eq_refl Hfound H))) (js "hello") Hmsg Hblank) as [Hrun _].
  rewrite Hrun. reflexivity.
Defined.

Lemma sendMessage_fallback_analysis_witness :
  sendMessage offlineEnv noParse anxiousRequest (initial sampleStore)
  = (sendMessageOk fallbackResponse fallbackAnalysis fallbackProgress,
     {| store := <[js "s-1" := anxiousStored]> sampleStore;
        trace := pipelineCalls anxiousRequest anxiousText [userMessage anxiousText 5001]
                 ++ [EvSave anxiousStored true] |})
  /\ getProp (json (fst (sendMessage offlineEnv noParse anxiousRequest
                           (initial sampleStore)))) (js "analysis")
     = Ok fallbackAnalysis
  /\ store (snd (sendMessage offlineEnv noParse anxiousRequest (initial sampleStore)))
       !! js "s-1" = Some anxiousStored.
Proof.
  assert (Hfail :
    (exists e, generateContent offlineEnv 0 (analysisPrompt anxiousText) = Throw e)
    \/ (exists answer, generateContent offlineEnv 0 (analysisPrompt anxiousText) = Ok answer
                       /\ noParse (cleanAnalysisText answer) = None)).
  { left. exists (Error (js "fetch failed")). reflexivity. }
  pose proof (sendMessage_fallback_analysis offlineEnv noParse anxiousRequest
                sampleStore anxiousText sampleSession
                (anxious_accepted offlineEnv eq_refl) Hfail) as H.
  cbv zeta in H. destruct H as [Hrun [a [_ [_ [_ Hcase]]]]].
  change (saveFails offlineEnv ?s) with (@None exn) in Hcase. cbv beta iota in Hcase.
  destruct Hcase as [_ [Hanalysis [_ [Hstored _]]]].
  change (params_sessionId anxiousRequest) with (js "s-1") in Hstored.
  split; [| split].
  - rewrite Hrun. reflexivity.
  - rewrite Hanalysis. reflexivity.
  - rewrite Hstored. reflexivity.
Defined.



Lemma sendMessage_single_save_witness :
  Accepted readOnlyEnv anxiousRequest sampleStore anxiousText sampleSession
  /\ store (snd (sendMessage readOnlyEnv noParse anxiousRequest (initial sampleStore)))
     = sampleStore
  /\ errorKind (fst (sendMessage readOnlyEnv noParse anxiousRequest (initial sampleStore)))
     = Some PersistenceError.
Proof.
  split; [exact (anxious_accepted readOnlyEnv eq_refl) |].
  pose proof (sendMessage_single_save readOnlyEnv noParse anxiousRequest sampleStore
                anxiousText sampleSession (anxious_accepted readOnlyEnv eq_refl)) as H.
  cbv zeta in H.
  destruct H as [_ [_ [_ [[Hnull _] | [_ [a [ok [_ [_ [_ [Hok Hcase]]]]]]]]]]].
  - exfalso. destruct Hnull as [answer [v [_ [Hparse _]]]].
    unfold noParse in Hparse. discriminate Hparse.
  - destruct ok.
    + exfalso. destruct Hok as [Hok _]. specialize (Hok eq_refl).
      change (saveFails readOnlyEnv ?s) with (Some (Error (js "write failed"))) in Hok.
      discriminate Hok.
    + exact Hcase.
Defined.

Lemma sendMessage_user_turn_order_witness :
  Accepted readOnlyEnv anxiousRequest sampleStore anxiousText sampleSession
  /\ exists rest,
       trace (snd (sendMessage readOnlyEnv noParse anxiousRequest (initial sampleStore)))
       = [ EvFindOne (js "s-1");
           EvInngestSend (sessionMessageEvent anxiousText [userMessage anxiousText 5001]);
           EvGenerateContent (analysisPrompt anxiousText);
           EvGenerateContent (responsePrompt anxiousText) ] ++ rest
       /\ (rest = [] \/ exists s ok, rest = [EvSave s ok]
                                     /\ In (userMessage anxiousText 5001) (messages s)).
Proof.
  split; [exact (anxious_accepted readOnlyEnv eq_refl) |].
  destruct (sendMessage_user_turn_order readOnlyEnv noParse anxiousRequest sampleStore
              anxiousText sampleSession (anxious_accepted readOnlyEnv eq_refl))
    as [rest [Htrace [Hrest _]]].
  exists rest. split; [exact Htrace | exact Hrest].
Defined.

(** C1 (as stated) fails.  With the model unreachable and the store
    working, both completions are asked for before anything is saved;
    and with a store that rejects the write, the request fails with
    status 500 after both completions have been asked for. *)
Lemma sendMessage_oracle_before_commit :
  Accepted offlineEnv anxiousRequest sampleStore anxiousText sampleSession
  /\ ~ committedBeforeOracle anxiousText
         (trace (snd (sendMessage offlineEnv noParse anxiousRequest (initial sampleStore))))
  /\ (exists s,
        In (EvSave s false)
           (trace (snd (sendMessage readOnlyEnv noParse anxiousRequest (initial sampleStore))))
        /\ errorKind (fst (sendMessage readOnlyEnv noParse anxiousRequest
                             (initial sampleStore))) = Some PersistenceError
        /\ generateCalls
             (trace (snd (sendMessage readOnlyEnv noParse anxiousRequest
                            (initial sampleStore)))) = 2%nat).
Proof.
  split; [exact (anxious_accepted offlineEnv eq_refl) | split].
  - intros H.
    assert (Htrace :
      trace (snd (sendMessage offlineEnv noParse anxiousRequest (initial sampleStore)))
      = [EvFindOne (js "s-1");
         EvInngestSend (sessionMessageEvent anxiousText [userMessage anxiousText 5001])]
        ++ EvGenerateContent (analysisPrompt anxiousText)
        :: [EvGenerateContent (responsePrompt anxiousText); EvSave anxiousStored true])
      by by_computation.
    destruct (H _ _ _ Htrace) as [s [m [[Hin | [Hin | []]] _]]]; discriminate Hin.
  - exists (push (push sampleSession (userMessage anxiousText 5001))
              (assistantMessage (js "Tell me more.") 5004 fallbackAnalysis fallbackProgress)).
    split; [| split]; [| by_computation | by_computation].
    right. right. right. right. left. by_computation.
Qed.

(** ** [generateFallbackTopic] *)

Lemma jsstring_eqb_eq (a b : jsstring) : jsstring_eqb a b = true <-> a = b.
Proof.
  unfold jsstring_eqb. rewrite andb_true_iff, Nat.eqb_eq, startsWith_spec. split.
  - intros [Hlen [r ->]]. rewrite length_app in Hlen.
    destruct r; [symmetry; apply app_nil_r | cbn [length] in Hlen; lia].
  - intros ->. split; [reflexivity | exists []; symmetry; apply app_nil_r].
Qed.

Lemma isMessage_inv (v : value) :
  isMessage v = true ->
  exists fields r c, v = VObj fields
    /\ ownProperty (js "role") fields = VStr r
    /\ ownProperty (js "content") fields = VStr c.
Proof.
  destruct v as [| | | | | |fields]; try discriminate. cbn [isMessage].
  destruct (ownProperty (js "role") fields) as [| | | |r| |] eqn:Hr; try discriminate.
  destruct (ownProperty (js "content") fields) as [| | | |c| |] eqn:Hc; try discriminate.
  intros _. exists fields, r, c. split; [reflexivity | split; [exact Hr | exact Hc]].
Qed.

(** On a list of messages the filter never throws. *)
Lemma filterUser_messages (msgs : list value) :
  forallb isMessage msgs = true ->
  filterUser msgs = Ok (List.filter hasRoleUser msgs).
Proof.
  induction msgs as [|m msgs IH]; [reflexivity |].
  cbn [forallb]. rewrite andb_true_iff. intros [Hm Hrest].
  destruct (isMessage_inv m Hm) as [fields [r [c [-> [Hr Hc]]]]].
  cbn [filterUser getProp List.filter hasRoleUser]. rewrite (IH Hrest), Hr.
  reflexivity.
Qed.

Lemma filter_none (msgs : list value) :
  forallb (fun m => negb (hasRoleUser m)) msgs = true ->
  List.filter hasRoleUser msgs = [].
Proof.
  induction msgs as [|m msgs IH]; [reflexivity |].
  cbn [forallb List.filter]. rewrite andb_true_iff, negb_true_iff.
  intros [-> Hrest]. exact (IH Hrest).
Qed.

Lemma filter_first (before after : list value) (m : value) :
  forallb (fun m => negb (hasRoleUser m)) before = true ->
  hasRoleUser m = true ->
  List.filter hasRoleUser (before ++ m :: after) = m :: List.filter hasRoleUser after.
Proof.
  intros Hbefore Hm. rewrite List.filter_app, (filter_none before Hbefore).
  cbn [List.filter app]. rewrite Hm. reflexivity.
Qed.

Lemma filter_isMessage (msgs : list value) :
  forallb isMessage msgs = true ->
  forallb isMessage (List.filter hasRoleUser msgs) = true.
Proof.
  induction msgs as [|m msgs IH]; [reflexivity |].
  cbn [forallb List.filter]. rewrite andb_true_iff. intros [Hm Hrest].
  destruct (hasRoleUser m); [cbn [forallb]; rewrite Hm |]; exact (IH Hrest).
Qed.

(** The loop returns the label of the first entry whose keyword occurs. *)
Lemma scanKeywords_first (entries : list (jsstring * jsstring)) (s : jsstring)
    (i : nat) (keyword label : jsstring) :
  entries !! i = Some (keyword, label) ->
  occursIn keyword s ->
  (forall j kw l, (j < i)%nat -> entries !! j = Some (kw, l) -> ~ occursIn kw s) ->
  scanKeywords entries s = Some label.
Proof.
  revert i. induction entries as [|[kw0 l0] entries IH]; intros i Hi Hocc Hfirst.
  - discriminate Hi.
  - cbn [scanKeywords]. destruct i as [|i].
    + injection Hi as -> ->. apply includes_spec in Hocc. rewrite Hocc. reflexivity.
    + destruct (includes kw0 s) eqn:Hkw0.
      * exfalso. apply (Hfirst 0%nat kw0 l0); [lia | reflexivity |].
        apply includes_spec. exact Hkw0.
      * apply (IH i); [exact Hi | exact Hocc |].
        intros j kw l Hj Hlook. apply (Hfirst (S j) kw l); [lia | exact Hlook].
Qed.

Section FallbackTopicClaims.
Variables toLowerCase toUpperCase : jsstring -> jsstring.

Abbreviation fallbackTopic := (generateFallbackTopic toLowerCase toUpperCase).

(** On a list of messages, the topic comes from the first message of
    role [user]. *)
Lemma generateFallbackTopic_messages (msgs : list value) :
  forallb isMessage msgs = true ->
  fallbackTopic (VArr msgs) =
  match List.filter hasRoleUser msgs with
  | [] => Ok newChat
  | first :: _ =>
    match firstMessageOf toLowerCase first with
    | Throw e => Throw e
    | Ok firstMessage =>
      match scanKeywords topicMap firstMessage with
      | Some topic => Ok topic
      | None => Ok (fromFirstWords toUpperCase firstMessage)
      end
    end
  end.
Proof.
  intros Hall. unfold generateFallbackTopic. cbn [truthy negb].
  rewrite (filterUser_messages msgs Hall).
  destruct msgs; reflexivity.
Qed.

(** The topic of a list whose first message of role [user] has
    content [c]. *)
Lemma generateFallbackTopic_first_user (before after : list value)
    (fields : list (jsstring * value)) (c : jsstring) :
  forallb isMessage (before ++ VObj fields :: after) = true ->
  forallb (fun m => negb (hasRoleUser m)) before = true ->
  ownProperty (js "role") fields = VStr (js "user") ->
  ownProperty (js "content") fields = VStr c ->
  fallbackTopic (VArr (before ++ VObj fields :: after)) =
  match scanKeywords topicMap (toLowerCase c) with
  | Some topic => Ok topic
  | None => Ok (fromFirstWords toUpperCase (toLowerCase c))
  end.
Proof.
  intros Hall Hbefore Hrole Hcontent.
  rewrite (generateFallbackTopic_messages _ Hall),
    (filter_first before after (VObj fields) Hbefore).
  - unfold firstMessageOf. cbn [getProp]. rewrite Hcontent.
    destruct (scanKeywords topicMap (toLowerCase c)); reflexivity.
  - cbn [hasRoleUser]. rewrite Hrole. reflexivity.
Qed.

(** C6. [generateFallbackTopic] is a function of the message list
    alone (it reads neither the stored sessions nor the outside), and
    it returns a topic for every list of messages; for a missing or
    empty list, and for a list without a message of role [user], the
    topic is the generic new-chat label. *)
Theorem generateFallbackTopic_total (msgs : list value) :
  forallb isMessage msgs = true ->
  (exists topic, fallbackTopic (VArr msgs) = Ok topic)
  /\ fallbackTopic VUndefined = Ok newChat
  /\ fallbackTopic VNull = Ok newChat
  /\ fallbackTopic (VArr []) = Ok newChat
  /\ (forallb (fun m => negb (hasRoleUser m)) msgs = true ->
      fallbackTopic (VArr msgs) = Ok newChat).
Proof.
  intros Hall.
  pose proof (generateFallbackTopic_messages msgs Hall) as Hrun.
  split; [| repeat split].
  - rewrite Hrun. pose proof (filter_isMessage msgs Hall) as Husers.
    destruct (List.filter hasRoleUser msgs) as [|first rest].
    + exists newChat. reflexivity.
    + cbn [forallb] in Husers. apply andb_true_iff in Husers as [Hfirst _].
      destruct (isMessage_inv first Hfirst) as [fields [r [c [-> [_ Hc]]]]].
      unfold firstMessageOf. cbn [getProp]. rewrite Hc.
      destruct (scanKeywords topicMap (toLowerCase c)) as [topic|];
        eexists; reflexivity.
  - intros Hnone. rewrite Hrun, (filter_none msgs Hnone). reflexivity.
Qed.

(** C10. The keywords are matched as substrings of the whole
    lowercased content of the first message of role [user]: when the
    keyword of entry [i] of the map occurs anywhere in that text (for
    instance inside a longer word) and no keyword of an earlier entry
    does, the topic is the label of entry [i].  Only the lowercased
    text matters: a content with the same lowercased text gets the
    same label. *)
Theorem generateFallbackTopic_first_keyword (before after : list value)
    (fields : list (jsstring * value)) (c : jsstring)
    (i : nat) (keyword label : jsstring) :
  forallb isMessage (before ++ VObj fields :: after) = true ->
  forallb (fun m => negb (hasRoleUser m)) before = true ->
  ownProperty (js "role") fields = VStr (js "user") ->
  ownProperty (js "content") fields = VStr c ->
  topicMap !! i = Some (keyword, label) ->
  occursIn keyword (toLowerCase c) ->
  (forall j kw l, (j < i)%nat -> topicMap !! j = Some (kw, l) ->
                  ~ occursIn kw (toLowerCase c)) ->
  fallbackTopic (VArr (before ++ VObj fields :: after)) = Ok label
  /\ (forall c', toLowerCase c' = toLowerCase c ->
        forallb isMessage after = true ->
        fallbackTopic (VArr (before ++ message (js "user") c' :: after)) = Ok label).
Proof.
  intros Hall Hbefore Hrole Hcontent Hentry Hocc Hfirst.
  pose proof (scanKeywords_first topicMap (toLowerCase c) i keyword label
                Hentry Hocc Hfirst) as Hscan.
  split.
  - rewrite (generateFallbackTopic_first_user before after fields c
               Hall Hbefore Hrole Hcontent), Hscan.
    reflexivity.
  - intros c' Hc' Hafter. unfold message.
    rewrite (generateFallbackTopic_first_user before after _ c').
    + rewrite Hc', Hscan. reflexivity.
    + rewrite forallb_app in Hall |- *. apply andb_true_iff in Hall as [Hb _].
      rewrite Hb. cbn [forallb andb]. rewrite Hafter. by_computation.
    + exact Hbefore.
    + by_computation.
    + by_computation.
Qed.

End FallbackTopicClaims.

Lemma generateFallbackTopic_total_witness :
  forallb isMessage [greeting] = true
  /\ generateFallbackTopic asciiLower asciiUpper (VArr [greeting]) = Ok newChat
  /\ exists topic,
       generateFallbackTopic asciiLower asciiUpper (VArr [greeting; sleeplessTurn])
       = Ok topic.
Proof.
  assert (H1 : forallb isMessage [greeting] = true) by by_computation.
  assert (H2 : forallb isMessage [greeting; sleeplessTurn] = true) by by_computation.
  assert (H3 : forallb (fun m => negb (hasRoleUser m)) [greeting] = true)
    by by_computation.
  split; [exact H1 | split].
  - exact (proj2 (proj2 (proj2 (proj2
             (generateFallbackTopic_total asciiLower asciiUpper [greeting] H1)))) H3).
  - exact (proj1 (generateFallbackTopic_total asciiLower asciiUpper
                    [greeting; sleeplessTurn] H2)).
Defined.

Lemma generateFallbackTopic_first_keyword_witness :
  occursIn (js "job") (asciiLower (js "I am JOBLESS"))
  /\ generateFallbackTopic asciiLower asciiUpper (VArr [greeting; joblessTurn])
     = Ok (js "💼 Work Stress")
  /\ generateFallbackTopic asciiLower asciiUpper
       (VArr [greeting; message (js "user") (js "i am Jobless")])
     = Ok (js "💼 Work Stress").
Proof.
  assert (Hocc : occursIn (js "job") (asciiLower (js "I am JOBLESS"))).
  { exists (js "i am "), (js "less"). by_computation. }
  assert (Hall : forallb isMessage
                   ([greeting]
                    ++ VObj [(js "role", VStr (js "user"));
                             (js "content", VStr (js "I am JOBLESS"))] :: []) = true)
    by by_computation.
  assert (Hbefore : forallb (fun m => negb (hasRoleUser m)) [greeting] = true)
    by by_computation.
  assert (Hrole : ownProperty (js "role")
                    [(js "role", VStr (js "user"));
                     (js "content", VStr (js "I am JOBLESS"))] = VStr (js "user"))
    by by_computation.
  assert (Hcontent : ownProperty (js "content")
                       [(js "role", VStr (js "user"));
                        (js "content", VStr (js "I am JOBLESS"))]
                     = VStr (js "I am JOBLESS"))
    by by_computation.
  assert (Hentry : topicMap !! 13%nat = Some (js "job", js "💼 Work Stress"))
    by by_computation.
  assert (Hfirst : forall j kw l, (j < 13)%nat -> topicMap !! j = Some (kw, l) ->
                                  ~ occursIn kw (asciiLower (js "I am JOBLESS"))).
  { intros j kw l Hj Hlook. apply includes_false.
    do 13 (destruct j as [|j];
           [vm_compute in Hlook; injection Hlook as <- _; by_computation |]).
    lia. }
  destruct (generateFallbackTopic_first_keyword asciiLower asciiUpper
              [greeting] [] _ (js "I am JOBLESS") 13 (js "job") (js "💼 Work Stress")
              Hall Hbefore Hrole Hcontent Hentry Hocc Hfirst) as [Hrun Hsame].
  split; [exact Hocc | split].
  - exact Hrun.
  - apply (Hsame (js "i am Jobless")); by_computation.
Defined.

(** ** [generateTopic] *)

Section GenerateTopicClaims.
Variable env : Env.
Variables toLowerCase toUpperCase : jsstring -> jsstring.
Variable ToString : value -> Result jsstring.

Abbreviation topicOf := (generateTopic env toLowerCase toUpperCase ToString).

Abbreviation fallbackAnswer := (fallbackAnswerWith toLowerCase toUpperCase).

Lemma generateTopic_invalid (req : Request) (w : World) :
  (forall msgs, ownProperty (js "messages") (body req) = VArr msgs -> msgs = []) ->
  topicOf req w
    = (reply 400 "error" "Messages array is required and cannot be empty", w).
Proof.
  intros H. unfold generateTopic, generateTopicBody.
  destruct (ownProperty (js "messages") (body req)) as [| | | | |msgs|];
    try reflexivity.
  rewrite (H msgs eq_refl). reflexivity.
Qed.

Lemma generateTopic_unauthenticated (req : Request) (w : World) (msgs : list value) :
  ownProperty (js "messages") (body req) = VArr msgs -> msgs <> [] ->
  user req = None ->
  topicOf req w = (reply 401 "message" "Unauthorized", w).
Proof.
  intros Hmsgs Hne Huser. unfold generateTopic, generateTopicBody.
  rewrite Hmsgs, Huser. destruct msgs; [congruence | reflexivity].
Qed.

Lemma generateTopic_run (req : Request) (st : gmap jsstring IChatSession)
    (msgs : list value) (caller : N) :
  ownProperty (js "messages") (body req) = VArr msgs -> msgs <> [] ->
  user req = Some caller ->
  topicOf req (initial st) =
  match topicPrompt ToString msgs with
  | Throw _ => (fallbackAnswer (VArr msgs), initial st)
  | Ok prompt =>
    let w' := {| store := st; trace := [EvGenerateContent prompt] |} in
    match generateContent env 0 prompt with
    | Throw _ => (fallbackAnswer (VArr msgs), w')
    | Ok text =>
      let topic := trim (removeAll matchQuote (trim text)) in
      if (length topic =? 0)%nat || (50 <? length topic)%nat
      then (fallbackAnswer (VArr msgs), w')
      else (topicResponse topic, w')
    end
  end.
Proof.
  intros Hmsgs Hne Huser. unfold generateTopic, generateTopicBody, fallbackAnswerWith.
  rewrite Hmsgs, Huser. destruct msgs as [|m msgs]; [congruence |].
  cbn [truthy negb length Nat.eqb orb].
  unfold bind, lift, model_generateContent, ret, logEvent, initial.
  destruct (topicPrompt ToString (m :: msgs)) as [prompt|e];
    [| destruct (generateFallbackTopic toLowerCase toUpperCase (VArr (m :: msgs)));
       reflexivity].
  run_step.
  destruct (generateContent env 0 prompt) as [text|e];
    [| destruct (generateFallbackTopic toLowerCase toUpperCase (VArr (m :: msgs)));
       reflexivity].
  cbv zeta.
  destruct ((length (trim (removeAll matchQuote (trim text))) =? 0)%nat
            || (50 <? length (trim (removeAll matchQuote (trim text))))%nat);
    [|reflexivity].
  destruct (generateFallbackTopic toLowerCase toUpperCase (VArr (m :: msgs)));
    reflexivity.
Qed.

(** The fields of a fallback answer. *)
Lemma fallbackAnswer_fields (messages : value) :
  match generateFallbackTopic toLowerCase toUpperCase messages with
  | Ok topic =>
    statusCode (fallbackAnswer messages) = 200
    /\ getProp (json (fallbackAnswer messages)) (js "topic") = Ok (VStr topic)
  | Throw _ =>
    statusCode (fallbackAnswer messages) = 500
    /\ getProp (json (fallbackAnswer messages)) (js "topic")
       = Ok (VStr (js "💬 Therapy Session"))
  end.
Proof.
  unfold fallbackAnswerWith.
  destruct (generateFallbackTopic toLowerCase toUpperCase messages);
    split; reflexivity.
Qed.

(** C7 (amended). [generateTopic] answers with status 400
    (ValidationError) when the message list is missing, is not an
    array or is empty, whoever the caller is, and with status 401
    (UnauthenticatedError, not ValidationError) when the list is fine
    and the caller is not authenticated.  For an authenticated caller,
    when the transcript cannot be built, when the completion fails, or
    when the topic of the model, stripped of quotes and surrounding
    whitespace, is empty or longer than 50 code units, the answer is
    the fallback topic of the list (status 200, in the [topic] of the
    answer), or the hardcoded topic with status 500 when the fallback
    throws; a topic of 1 to 50 code units is returned as such (status
    200, in the [topic] of the answer).  The stored sessions are never
    changed. *)
Theorem generateTopic_answers (req : Request) (st : gmap jsstring IChatSession) :
  let messages := ownProperty (js "messages") (body req) in
  let out := topicOf req (initial st) in
  let fallen :=
    fst out = fallbackAnswer messages
    /\ match generateFallbackTopic toLowerCase toUpperCase messages with
       | Ok topic =>
         statusCode (fst out) = 200
         /\ getProp (json (fst out)) (js "topic") = Ok (VStr topic)
       | Throw _ =>
         statusCode (fst out) = 500
         /\ getProp (json (fst out)) (js "topic")
            = Ok (VStr (js "💬 Therapy Session"))
       end in
  store (snd out) = st
  /\ ((forall msgs, messages = VArr msgs -> msgs = []) ->
      out = (reply 400 "error" "Messages array is required and cannot be empty",
             initial st)
      /\ errorKind (fst out) = Some ValidationError)
  /\ (forall msgs, messages = VArr msgs -> msgs <> [] ->
      (user req = None ->
       out = (reply 401 "message" "Unauthorized", initial st)
       /\ errorKind (fst out) = Some UnauthenticatedError)
      /\ (user req <> None ->
          (forall e, topicPrompt ToString msgs = Throw e -> fallen)
          /\ (forall prompt, topicPrompt ToString msgs = Ok prompt ->
              match generateContent env 0 prompt with
              | Throw _ => fallen
              | Ok text =>
                let topic := trim (removeAll matchQuote (trim text)) in
                if (length topic =? 0)%nat || (50 <? length topic)%nat
                then fallen
                else fst out = topicResponse topic
                     /\ statusCode (fst out) = 200
                     /\ getProp (json (fst out)) (js "topic") = Ok (VStr topic)
              end))).
Proof.
  intros messages out fallen. subst messages out fallen.
  split; [| split].
  - destruct (ownProperty (js "messages") (body req)) as [| | | | |msgs|] eqn:Hmsgs;
      try (rewrite generateTopic_invalid;
           [reflexivity | intros ? Heq; rewrite Hmsgs in Heq; discriminate Heq]).
    destruct msgs as [|m msgs].
    { rewrite generateTopic_invalid; [reflexivity |].
      intros ? Heq. rewrite Hmsgs in Heq. injection Heq as <-. reflexivity. }
    destruct (user req) as [caller|] eqn:Huser.
    + rewrite (generateTopic_run req st (m :: msgs) caller Hmsgs ltac:(discriminate) Huser).
      destruct (topicPrompt ToString (m :: msgs)) as [prompt|e]; [|reflexivity].
      cbv zeta. destruct (generateContent env 0 prompt) as [text|e]; [|reflexivity].
      destruct ((length (trim (removeAll matchQuote (trim text))) =? 0)%nat
                || (50 <? length (trim (removeAll matchQuote (trim text))))%nat);
        reflexivity.
    + rewrite (generateTopic_unauthenticated req (initial st) (m :: msgs)
                 Hmsgs ltac:(discriminate) Huser).
      reflexivity.
  - intros H. rewrite (generateTopic_invalid req (initial st) H).
    split; reflexivity.
  - intros msgs Hmsgs Hne. split.
    + intros Huser.
      rewrite (generateTopic_unauthenticated req (initial st) msgs Hmsgs Hne Huser).
      split; reflexivity.
    + intros Huser. destruct (user req) as [caller|] eqn:Hcaller; [|congruence].
      rewrite (generateTopic_run req st msgs caller Hmsgs Hne Hcaller), Hmsgs.
      pose proof (fallbackAnswer_fields (VArr msgs)) as Hfields.
      split.
      * intros e ->. cbn [fst]. split; [reflexivity | exact Hfields].
      * intros prompt ->. cbv zeta.
        destruct (generateContent env 0 prompt) as [text|e];
          [| cbn [fst]; split; [reflexivity | exact Hfields]].
        destruct ((length (trim (removeAll matchQuote (trim text))) =? 0)%nat
                  || (50 <? length (trim (removeAll matchQuote (trim text))))%nat);
          cbn [fst]; [split; [reflexivity | exact Hfields] |].
        split; [reflexivity | split; reflexivity].
Qed.

End GenerateTopicClaims.

(** C7 (as stated) fails: an unauthenticated caller with a non-empty
    message list is answered with status 401, which is
    UnauthenticatedError and not ValidationError. *)
Lemma generateTopic_unauthenticated_is_not_validation :
  errorKind (fst (generateTopic offlineEnv asciiLower asciiUpper stringToString
                    (topicRequest None [sleeplessTurn]) (initial sampleStore)))
  = Some UnauthenticatedError
  /\ errorKind (fst (generateTopic offlineEnv asciiLower asciiUpper stringToString
                       (topicRequest None [sleeplessTurn]) (initial sampleStore)))
     <> Some ValidationError.
Proof.
  assert (H : errorKind (fst (generateTopic offlineEnv asciiLower asciiUpper stringToString
                                (topicRequest None [sleeplessTurn]) (initial sampleStore)))
              = Some UnauthenticatedError) by by_computation.
  split; [exact H | rewrite H; discriminate].
Qed.

Lemma generateTopic_answers_witness :
  user (topicRequest (Some 7) [sleeplessTurn]) <> None
  /\ fst (generateTopic offlineEnv asciiLower asciiUpper stringToString
            (topicRequest (Some 7) [sleeplessTurn]) (initial sampleStore))
     = topicResponse (js "😴 Sleep Issues")
  /\ fst (generateTopic offlineEnv asciiLower asciiUpper stringToString
            (topicRequest None [sleeplessTurn]) (initial sampleStore))
     = reply 401 "message" "Unauthorized"
  /\ fst (generateTopic offlineEnv asciiLower asciiUpper stringToString
            (topicRequest None []) (initial sampleStore))
     = reply 400 "error" "Messages array is required and cannot be empty".
Proof.
  assert (Hauth : user (topicRequest (Some 7) [sleeplessTurn]) <> None) by discriminate.
  assert (Hlist : forall caller,
            ownProperty (js "messages") (body (topicRequest caller [sleeplessTurn]))
            = VArr [sleeplessTurn]) by (intros caller; by_computation).
  assert (Hne : [sleeplessTurn] <> []) by discriminate.
  assert (Hempty : forall msgs,
            ownProperty (js "messages") (body (topicRequest None [])) = VArr msgs ->
            msgs = []).
  { intros msgs H. vm_compute in H. injection H as <-. reflexivity. }
  split; [exact Hauth | split; [| split]].
  - destruct (generateTopic_answers offlineEnv asciiLower asciiUpper stringToString
                (topicRequest (Some 7) [sleeplessTurn]) sampleStore)
      as [_ [_ Hvalid]].
    destruct (Hvalid [sleeplessTurn] (Hlist (Some 7)) Hne) as [_ Hrun].
    destruct (Hrun Hauth) as [_ Hprompt].
    destruct (topicPrompt stringToString [sleeplessTurn]) as [prompt|e] eqn:Hp;
      [| vm_compute in Hp; discriminate Hp].
    pose proof (Hprompt prompt eq_refl) as Hout.
    change (generateContent offlineEnv 0 prompt) with
      (@Throw jsstring (Error (js "fetch failed"))) in Hout.
    cbv iota beta in Hout. destruct Hout as [Hout _]. rewrite Hout. by_computation.
  - destruct (generateTopic_answers offlineEnv asciiLower asciiUpper stringToString
                (topicRequest None [sleeplessTurn]) sampleStore)
      as [_ [_ Hvalid]].
    destruct (Hvalid [sleeplessTurn] (Hlist None) Hne) as [Hnone _].
    destruct (Hnone eq_refl) as [Hout _]. rewrite Hout. reflexivity.
  - destruct (generateTopic_answers offlineEnv asciiLower asciiUpper stringToString
                (topicRequest None []) sampleStore)
      as [_ [Hinvalid _]].
    destruct (Hinvalid Hempty) as [Hout _]. rewrite Hout. reflexivity.
Defined.

(** ** [updateSessionTopic] *)

Section UpdateSessionTopicClaims.
Variable env : Env.

Lemma updateSessionTopic_invalid (req : Request) (w : World) :
  blank (ownProperty (js "topic") (body req)) = true ->
  updateSessionTopic env req w
    = (reply 400 "error" "Topic is required and must be a non-empty string", w).
Proof.
  unfold updateSessionTopic, updateSessionTopicBody, blank.
  destruct (ownProperty (js "topic") (body req)); try reflexivity.
  intros ->. rewrite orb_true_r. reflexivity.
Qed.

(** The run after the two first guards. *)
Lemma updateSessionTopic_run (req : Request) (st : gmap jsstring IChatSession)
    (text : jsstring) (caller : N) :
  ownProperty (js "topic") (body req) = VStr text ->
  (length (trim text) =? 0)%nat = false ->
  user req = Some caller ->
  findOneFails env (params_sessionId req) = None ->
  updateSessionTopic env req (initial st) =
  let w1 := {| store := st; trace := [EvFindOne (params_sessionId req)] |} in
  match st !! params_sessionId req with
  | None => (reply 404 "error" "Session not found", w1)
  | Some session =>
    if negb (userId session =? caller)
    then (reply 403 "error" "Unauthorized", w1)
    else
      let session' := setTopic session (substring0 100 (trim text)) in
      match saveFails env session' with
      | None =>
        (topicUpdated (topic session'),
         {| store := <[sessionId session := session']> st;
            trace := [EvFindOne (params_sessionId req); EvSave session' true] |})
      | Some e =>
        ({| statusCode := 500;
            json := VObj [(js "error", VStr (js "Failed to update session topic"));
                          (js "details", VStr (errorMessage e))] |},
         {| store := st;
            trace := [EvFindOne (params_sessionId req); EvSave session' false] |})
      end
  end.
Proof.
  intros Htopic Hblank Huser Hquery.
  unfold updateSessionTopic, updateSessionTopicBody.
  rewrite Htopic, (nonblank_truthy _ Hblank), Hblank, Huser.
  cbn [negb orb]. unfold bind, findOne, save, ret, logEvent, initial.
  cbn [store trace app]. rewrite Hquery.
  destruct (st !! params_sessionId req) as [session|]; [|reflexivity].
  destruct (userId session =? caller); cbn [negb]; [|reflexivity].
  cbn [store trace app].
  destruct (saveFails env (setTopic session (substring0 100 (trim text))));
    reflexivity.
Qed.


End UpdateSessionTopicClaims.


(** ** The scenarios of the specification *)

(** A session of user 7, the message "I feel anxious about work", a
    model that is unreachable: two messages are stored, the user turn
    and the assistant turn, in that order.  With a store that rejects the
    write, none is. *)
Example scenario_submit :
  (map (fun m => (role m, content m)) <$>
     (messages <$>
        store (snd (sendMessage offlineEnv noParse
                      (sampleRequest (Some 7) "message" "I feel anxious about work")
                      (initial sampleStore))) !! js "s-1"))
  = Some [(Role_user, js "I feel anxious about work");
          (Role_assistant, fallbackResponse)]
  /\ (map (fun m => (role m, content m)) <$>
       (messages <$>
          store (snd (sendMessage readOnlyEnv noParse
                        (sampleRequest (Some 7) "message" "I feel anxious about work")
                        (initial sampleStore))) !! js "s-1"))
     = Some [].
Proof. split; by_computation. Qed.

(** The model is unreachable: the topic of "I can't sleep at night" is
    the sleep label of the fallback, not an error. *)
Example scenario_topic_offline :
  fst (generateTopic offlineEnv asciiLower asciiUpper stringToString
         (topicRequest (Some 7) [sleeplessTurn]) (initial sampleStore))
  = topicResponse (js "😴 Sleep Issues").
Proof. by_computation. Qed.

(** The fallback does throw on arrays that are not lists of messages;
    [generateTopic] then answers with the hardcoded topic. *)
Example fallback_throws_on_null :
  generateFallbackTopic asciiLower asciiUpper (VArr [VNull])
  = Throw (TypeError (js "Cannot read properties of null (reading 'role')"))
  /\ generateTopic offlineEnv asciiLower asciiUpper stringToString
       (topicRequest (Some 7) [VNull]) (initial sampleStore)
     = (ultimateFallback, initial sampleStore).
Proof. split; by_computation. Qed.

(** An analysis that parses to [null] ends the request with status 500
    before the assistant turn is appended; nothing is saved. *)
Example null_analysis :
  let out := sendMessage readOnlyEnv (fun _ => Some VNull) anxiousRequest
               (initial sampleStore) in
  statusCode (fst out) = 500 /\ length (trace (snd out)) = 4%nat
  /\ store (snd out) = sampleStore.
Proof. cbv zeta. split; [| split]; by_computation. Qed.

(** * Further properties of the handlers *)

(** ** [sendMessage]: the guards and failures the pipeline starts with *)

Section SendMessageGuards.
Variable env : Env.
Variable JSON_parse : jsstring -> option value.

Lemma sendMessage_no_caller (req : Request) (w : World) (text : jsstring) :
  ownProperty (js "message") (body req) = VStr text ->
  (length (trim text) =? 0)%nat = false ->
  user req = None ->
  sendMessage env JSON_parse req w = (reply 401 "message" "Unauthorized", w).
Proof.
  intros Hmsg Hblank Huser. unfold sendMessage, sendMessageBody.
  rewrite Hmsg, (nonblank_truthy _ Hblank), Hblank, Huser. reflexivity.
Qed.

Lemma sendMessage_query_rejected (req : Request) (st : gmap jsstring IChatSession)
    (text : jsstring) (caller : N) (e : exn) :
  ownProperty (js "message") (body req) = VStr text ->
  (length (trim text) =? 0)%nat = false ->
  user req = Some caller ->
  findOneFails env (params_sessionId req) = Some e ->
  sendMessage env JSON_parse req (initial st)
    = (serverError e, {| store := st; trace := [EvFindOne (params_sessionId req)] |}).
Proof.
  intros Hmsg Hblank Huser Hquery. unfold sendMessage, sendMessageBody.
  rewrite Hmsg, (nonblank_truthy _ Hblank), Hblank, Huser.
  cbn [negb orb]. unfold bind, findOne, logEvent, initial.
  cbn [store trace app]. rewrite Hquery. reflexivity.
Qed.

Lemma sendMessage_no_session (req : Request) (st : gmap jsstring IChatSession)
    (text : jsstring) (caller : N) :
  ownProperty (js "message") (body req) = VStr text ->
  (length (trim text) =? 0)%nat = false ->
  user req = Some caller ->
  findOneFails env (params_sessionId req) = None ->
  st !! params_sessionId req = None ->
  sendMessage env JSON_parse req (initial st)
    = (reply 404 "message" "Session not found",
       {| store := st; trace := [EvFindOne (params_sessionId req)] |}).
Proof.
  intros Hmsg Hblank Huser Hquery Hnone. unfold sendMessage, sendMessageBody.
  rewrite Hmsg, (nonblank_truthy _ Hblank), Hblank, Huser.
  cbn [negb orb]. unfold bind, findOne, logEvent, initial.
  cbn [store trace app]. rewrite Hquery, Hnone. reflexivity.
Qed.

(** X1. A valid message from an unauthenticated caller is answered with
    status 401 before any external call is made; from an authenticated
    caller to an identifier no session has, with status 404 after the
    query alone.  Neither changes the stored sessions or asks the model. *)
Theorem sendMessage_unauthenticated_or_unknown (req : Request)
    (st : gmap jsstring IChatSession) (text : jsstring) :
  ownProperty (js "message") (body req) = VStr text ->
  (length (trim text) =? 0)%nat = false ->
  (user req = None ->
   sendMessage env JSON_parse req (initial st)
     = (reply 401 "message" "Unauthorized", initial st)
   /\ errorKind (reply 401 "message" "Unauthorized") = Some UnauthenticatedError)
  /\ (forall caller,
      user req = Some caller ->
      findOneFails env (params_sessionId req) = None ->
      st !! params_sessionId req = None ->
      sendMessage env JSON_parse req (initial st)
        = (reply 404 "message" "Session not found",
           {| store := st; trace := [EvFindOne (params_sessionId req)] |})
      /\ errorKind (reply 404 "message" "Session not found") = Some NotFoundError).
Proof.
  intros Hmsg Hblank. split.
  - intros Huser. split; [| reflexivity].
    exact (sendMessage_no_caller req (initial st) text Hmsg Hblank Huser).
  - intros caller Huser Hquery Hnone. split; [| reflexivity].
    exact (sendMessage_no_session req st text caller Hmsg Hblank Huser Hquery Hnone).
Qed.

(** X2. When the query for the session rejects, the request ends with
    status 500 whose [error] is the message of the failure (or "Unknown
    error" when what was thrown is not an [Error]); nothing is stored and
    the model is not asked. *)
Theorem sendMessage_query_failure (req : Request) (st : gmap jsstring IChatSession)
    (text : jsstring) (caller : N) (e : exn) :
  ownProperty (js "message") (body req) = VStr text ->
  (length (trim text) =? 0)%nat = false ->
  user req = Some caller ->
  findOneFails env (params_sessionId req) = Some e ->
  let out := sendMessage env JSON_parse req (initial st) in
  statusCode (fst out) = 500
  /\ getProp (json (fst out)) (js "error")
     = Ok (VStr (match e with Error m => m | NotAnError => js "Unknown error" end))
  /\ store (snd out) = st
  /\ generateCalls (trace (snd out)) = 0%nat.
Proof.
  intros Hmsg Hblank Huser Hquery out. subst out.
  rewrite (sendMessage_query_rejected req st text caller e Hmsg Hblank Huser Hquery).
  cbn [fst snd store trace statusCode serverError json].
  split; [reflexivity | split; [| split; reflexivity]].
  destruct e; vm_compute; reflexivity.
Qed.

(** The telemetry step: whatever the collaborator answers, the event is
    logged and the handler goes on. *)
Lemma telemetry_swallowed (ev : InngestEvent) (w : World) :
  tryCatch (inngest_send env ev) (fun _ => ret tt) w
  = (Ok tt, logEvent (EvInngestSend ev) w).
Proof.
  unfold tryCatch, inngest_send, ret.
  destruct (inngestSendFails env ev); reflexivity.
Qed.

End SendMessageGuards.

Lemma processMessage_telemetry (env : Env) (f : InngestEvent -> option exn)
    (JSON_parse : jsstring -> option value) (session : IChatSession)
    (text : jsstring) (w : World) :
  processMessage (withTelemetry f env) JSON_parse session text w
  = processMessage env JSON_parse session text w.
Proof.
  unfold processMessage, bind, newDate. cbv beta iota.
  rewrite (telemetry_swallowed (withTelemetry f env)), (telemetry_swallowed env).
  reflexivity.
Qed.

(** X3. A failure of the telemetry collaborator never shows: with any
    other answer of [inngest.send], every request gets the same response
    and leaves the same world. *)
Theorem sendMessage_telemetry_swallowed (env : Env) (f : InngestEvent -> option exn)
    (JSON_parse : jsstring -> option value) (req : Request) (w : World) :
  sendMessage (withTelemetry f env) JSON_parse req w = sendMessage env JSON_parse req w.
Proof.
  unfold sendMessage, sendMessageBody.
  destruct (ownProperty (js "message") (body req)) as [| | | |text| |]; try reflexivity.
  destruct (negb (truthy (VStr text)) || (length (trim text) =? 0)%nat);
    [reflexivity |].
  destruct (user req) as [caller|]; [| reflexivity].
  unfold bind, findOne.
  change (findOneFails (withTelemetry f env)) with (findOneFails env).
  destruct (findOneFails env (params_sessionId req)); [reflexivity |].
  destruct (store w !! params_sessionId req) as [session|]; [| reflexivity].
  destruct (negb (userId session =? caller)); [reflexivity |].
  rewrite processMessage_telemetry. reflexivity.
Qed.

(** ** What [trim] removes *)

Lemma trimStart_split (s : jsstring) :
  exists p, s = p ++ trimStart s /\ forallb isWhiteSpace p = true.
Proof.
  induction s as [|c s [p [Hs Hp]]].
  - exists []. split; reflexivity.
  - cbn [trimStart]. destruct (isWhiteSpace c) eqn:Hc.
    + exists (c :: p). cbn [forallb app]. rewrite Hc, Hp, <- Hs. split; reflexivity.
    + exists []. split; reflexivity.
Qed.

Lemma trimStart_head (s : jsstring) (c : N) (r : jsstring) :
  trimStart s = c :: r -> isWhiteSpace c = false.
Proof.
  induction s as [|x s IH]; [discriminate |].
  cbn [trimStart]. destruct (isWhiteSpace x) eqn:Hx; [exact IH |].
  intros [= <- _]. exact Hx.
Qed.

Lemma trimStart_fixed (c : N) (r : jsstring) :
  isWhiteSpace c = false -> trimStart (c :: r) = c :: r.
Proof. intros H. cbn [trimStart]. rewrite H. reflexivity. Qed.

Lemma trimEnd_split (s : jsstring) :
  exists q, s = trimEnd s ++ q /\ forallb isWhiteSpace q = true.
Proof.
  destruct (trimStart_split (rev s)) as [p [Hs Hp]].
  exists (rev p). split.
  - unfold trimEnd. rewrite <- rev_app_distr, <- Hs, rev_involutive. reflexivity.
  - rewrite forallb_forall in Hp |- *. intros x Hx. apply Hp, in_rev. exact Hx.
Qed.

Lemma trimEnd_last (s r : jsstring) (c : N) :
  trimEnd s = r ++ [c] -> isWhiteSpace c = false.
Proof.
  unfold trimEnd. intros H. apply (f_equal (@rev N)) in H.
  rewrite rev_involutive, rev_app_distr in H. cbn [rev app] in H.
  exact (trimStart_head _ _ _ H).
Qed.

Lemma trim_head (s : jsstring) (c : N) (r : jsstring) :
  trim s = c :: r -> isWhiteSpace c = false.
Proof.
  unfold trim. intros H.
  destruct (trimEnd_split (trimStart s)) as [q [Hq _]]. rewrite H in Hq.
  exact (trimStart_head s c (r ++ q) Hq).
Qed.

Lemma trim_last (s r : jsstring) (c : N) :
  trim s = r ++ [c] -> isWhiteSpace c = false.
Proof. unfold trim. apply trimEnd_last. Qed.

Lemma trim_split (s : jsstring) :
  exists p q, s = p ++ trim s ++ q
              /\ forallb isWhiteSpace p = true /\ forallb isWhiteSpace q = true.
Proof.
  destruct (trimStart_split s) as [p [Hs Hp]].
  destruct (trimEnd_split (trimStart s)) as [q [Ht Hq]].
  exists p, q. unfold trim. rewrite <- Ht, <- Hs. repeat split; assumption.
Qed.

Lemma trimEnd_fixed (s : jsstring) (c : N) :
  isWhiteSpace c = false -> trimEnd (s ++ [c]) = s ++ [c].
Proof.
  intros H. unfold trimEnd. rewrite rev_app_distr. cbn [rev app].
  rewrite (trimStart_fixed c _ H). cbn [rev]. rewrite rev_involutive. reflexivity.
Qed.

Lemma trim_fixed (c d : N) (m : jsstring) :
  isWhiteSpace c = false -> isWhiteSpace d = false ->
  trim (c :: m ++ [d]) = c :: m ++ [d].
Proof.
  intros Hc Hd. unfold trim. rewrite (trimStart_fixed c _ Hc).
  exact (trimEnd_fixed (c :: m) d Hd).
Qed.

Lemma trim_idempotent (s : jsstring) : trim (trim s) = trim s.
Proof.
  destruct (trim s) as [|c r] eqn:Ht; [reflexivity |].
  pose proof (trim_head s c r Ht) as Hhead.
  destruct (exists_last (l := c :: r) ltac:(discriminate)) as [r' [d Hr']].
  assert (Hlast : isWhiteSpace d = false).
  { apply (trim_last s r' d). rewrite Ht. exact Hr'. }
  unfold trim at 1. rewrite (trimStart_fixed c r Hhead), Hr'.
  apply trimEnd_fixed. exact Hlast.
Qed.

(** ** [sendMessage]: what is stored *)

Section SendMessageStore.
Variable env : Env.
Variable JSON_parse : jsstring -> option value.

(** Either nothing is written, or the session found is replaced by
    itself with two messages more. *)
Lemma sendMessage_store_cases (req : Request) (st : gmap jsstring IChatSession) :
  wellKeyed st ->
  let out := sendMessage env JSON_parse req (initial st) in
  store (snd out) = st
  \/ exists text session userTurn assistantTurn,
       Accepted env req st text session
       /\ (statusCode (fst out) = 200
           /\ role userTurn = Role_user /\ role assistantTurn = Role_assistant)
       /\ store (snd out)
          = <[params_sessionId req := push (push session userTurn) assistantTurn]> st.
Proof.
  intros Hkeyed out. subst out.
  destruct (blank (ownProperty (js "message") (body req))) eqn:Hblank.
  { left. rewrite (sendMessage_invalid env JSON_parse req (initial st) Hblank).
    reflexivity. }
  destruct (ownProperty (js "message") (body req)) as [| | | |text| |] eqn:Hmsg;
    try discriminate Hblank.
  cbn [blank] in Hblank.
  destruct (user req) as [caller|] eqn:Huser.
  2: { left. rewrite (sendMessage_no_caller env JSON_parse req (initial st) text
                        Hmsg Hblank Huser). reflexivity. }
  destruct (findOneFails env (params_sessionId req)) as [e|] eqn:Hquery.
  { left. rewrite (sendMessage_query_rejected env JSON_parse req st text caller e
                     Hmsg Hblank Huser Hquery). reflexivity. }
  destruct (st !! params_sessionId req) as [session|] eqn:Hfound.
  2: { left. rewrite (sendMessage_no_session env JSON_parse req st text caller
                        Hmsg Hblank Huser Hquery Hfound). reflexivity. }
  destruct (N.eq_dec (userId session) caller) as [Howner | Hother].
  2: { left. rewrite (sendMessage_other_owner env JSON_parse req st text session caller
                        Hmsg Hblank Huser Hquery Hfound Hother). reflexivity. }
  assert (Hacc : Accepted env req st text session).
  { constructor; try assumption.
    - rewrite Huser, Howner. reflexivity.
    - exact (Hkeyed _ _ Hfound). }
  rewrite (sendMessage_accepted env JSON_parse req st text session Hacc). cbv zeta.
  destruct (progressOf (analysisValue env JSON_parse text)) as [p|e]; [| left; reflexivity].
  match goal with
  | |- context [saveFails env ?s] => destruct (saveFails env s)
  end; [left; reflexivity |].
  right.
  exists text, session, (userMessage text (clock env 1)),
         (assistantMessage (responseText env text) (clock env 4)
            (analysisValue env JSON_parse text) p).
  split; [exact Hacc | split; [repeat split | reflexivity]].
Qed.

(** A successful submission, spelled out. *)
Lemma sendMessage_success (req : Request) (st : gmap jsstring IChatSession)
    (text : jsstring) (session : IChatSession) :
  Accepted env req st text session ->
  statusCode (fst (sendMessage env JSON_parse req (initial st))) = 200 ->
  exists p,
    let A := analysisValue env JSON_parse text in
    let R := responseText env text in
    let s2 := push (push session (userMessage text (clock env 1)))
                   (assistantMessage R (clock env 4) A p) in
    sendMessage env JSON_parse req (initial st)
    = (sendMessageOk R A p,
       {| store := <[params_sessionId req := s2]> st;
          trace := pipelineCalls req text
                     (messages (push session (userMessage text (clock env 1))))
                   ++ [EvSave s2 true] |}).
Proof.
  intros Hacc. rewrite (sendMessage_accepted env JSON_parse req st text session Hacc).
  cbv zeta.
  destruct (progressOf (analysisValue env JSON_parse text)) as [p|e];
    [| cbn [fst statusCode serverError]; discriminate].
  match goal with
  | |- context [saveFails env ?s] => destruct (saveFails env s)
  end; [cbn [fst statusCode serverError]; discriminate |].
  intros _. exists p. reflexivity.
Qed.

(** X4. What a successful submission answers is what it stores: the
    session gains the user turn (trimmed text, no metadata) and then the
    assistant turn, whose content is the [response] (and [message]) of
    the answer and whose metadata hold the [analysis] and the progress
    projection of the answer. *)
Theorem sendMessage_returns_what_it_stores (req : Request)
    (st : gmap jsstring IChatSession) (text : jsstring) (session : IChatSession) :
  Accepted env req st text session ->
  let out := sendMessage env JSON_parse req (initial st) in
  statusCode (fst out) = 200 ->
  exists userTurn assistantTurn md,
    (messages <$> store (snd out) !! params_sessionId req)
      = Some (messages session ++ [userTurn; assistantTurn])
    /\ role userTurn = Role_user /\ content userTurn = trim text
    /\ metadata userTurn = None
    /\ role assistantTurn = Role_assistant /\ metadata assistantTurn = Some md
    /\ getProp (json (fst out)) (js "response") = Ok (VStr (content assistantTurn))
    /\ getProp (json (fst out)) (js "message") = Ok (VStr (content assistantTurn))
    /\ getProp (json (fst out)) (js "analysis") = Ok (analysis md)
    /\ getProp (json (fst out)) (js "metadata")
       = Ok (VObj [(js "progress", progress md)]).
Proof.
  intros Hacc out Hok. subst out.
  destruct (sendMessage_success req st text session Hacc Hok) as [p Hrun].
  cbv zeta in Hrun. rewrite Hrun. cbn [fst snd store json sendMessageOk].
  exists (userMessage text (clock env 1)),
         (assistantMessage (responseText env text) (clock env 4)
            (analysisValue env JSON_parse text) p),
         {| analysis := analysisValue env JSON_parse text; progress := p |}.
  split.
  - rewrite lookup_insert_eq. cbn [fmap option_fmap option_map push messages].
    rewrite <- app_assoc. reflexivity.
  - cbn [userMessage assistantMessage role content metadata analysis progress].
    repeat split.
Qed.

(** X5. The content stored for the user turn is the submitted text
    without the whitespace at its two ends, and nothing else is removed:
    it is not empty, it neither starts nor ends with whitespace, and the
    submitted text is that content between two runs of whitespace. *)
Theorem sendMessage_stores_trimmed_text (req : Request)
    (st : gmap jsstring IChatSession) (text : jsstring) (session : IChatSession) :
  Accepted env req st text session ->
  let out := sendMessage env JSON_parse req (initial st) in
  statusCode (fst out) = 200 ->
  exists stored userTurn assistantTurn,
    store (snd out) !! params_sessionId req = Some stored
    /\ messages stored = messages session ++ [userTurn; assistantTurn]
    /\ content userTurn <> []
    /\ (forall c r, content userTurn = c :: r -> isWhiteSpace c = false)
    /\ (forall r c, content userTurn = r ++ [c] -> isWhiteSpace c = false)
    /\ exists p q, text = p ++ content userTurn ++ q
                   /\ forallb isWhiteSpace p = true
                   /\ forallb isWhiteSpace q = true.
Proof.
  intros Hacc out Hok. subst out.
  destruct (sendMessage_success req st text session Hacc Hok) as [p Hrun].
  cbv zeta in Hrun. rewrite Hrun. cbn [fst snd store].
  eexists _, (userMessage text (clock env 1)), _. split; [apply lookup_insert_eq |].
  cbn [push messages userMessage content]. split; [rewrite <- app_assoc; reflexivity |].
  split; [| split; [| split]].
  - intros Hnil. pose proof (acc_nonblank _ _ _ _ _ Hacc) as Hnb.
    rewrite Hnil in Hnb. discriminate Hnb.
  - apply trim_head.
  - apply trim_last.
  - apply trim_split.
Qed.

(** X6. [sendMessage] only appends: whatever the request and the
    answers of the outside, every session stored before is still stored,
    under the same identifier and with the same owner, start, status and
    topic; its messages are the former ones followed by nothing or by a
    user turn and an assistant turn; the sessions other than the one
    addressed are unchanged, and no session appears. *)
Theorem sendMessage_only_appends (req : Request) (st : gmap jsstring IChatSession) :
  wellKeyed st ->
  let out := sendMessage env JSON_parse req (initial st) in
  (forall k s, st !! k = Some s ->
     exists s' added,
       store (snd out) !! k = Some s'
       /\ messages s' = messages s ++ added
       /\ (added = []
           \/ exists userTurn assistantTurn,
                added = [userTurn; assistantTurn]
                /\ role userTurn = Role_user /\ role assistantTurn = Role_assistant)
       /\ sessionId s' = sessionId s /\ userId s' = userId s
       /\ startTime s' = startTime s /\ status s' = status s
       /\ topic s' = topic s
       /\ (k <> params_sessionId req -> s' = s))
  /\ (forall k, st !! k = None -> store (snd out) !! k = None).
Proof.
  intros Hkeyed out.
  assert (Hsame : forall k s (m : gmap jsstring IChatSession),
            m !! k = Some s ->
            exists s' added,
              m !! k = Some s'
              /\ messages s' = messages s ++ added
              /\ (added = []
                  \/ exists userTurn assistantTurn,
                       added = [userTurn; assistantTurn]
                       /\ role userTurn = Role_user
                       /\ role assistantTurn = Role_assistant)
              /\ sessionId s' = sessionId s /\ userId s' = userId s
              /\ startTime s' = startTime s /\ status s' = status s
              /\ topic s' = topic s
              /\ (k <> params_sessionId req -> s' = s)).
  { intros k s m Hk. exists s, [].
    split; [exact Hk | split; [symmetry; apply app_nil_r |]].
    split; [left; reflexivity | repeat split; reflexivity]. }
  destruct (sendMessage_store_cases req st Hkeyed)
    as [Hstore | [text [session [u [a [Hacc [[_ [Hu Ha]] Hstore]]]]]]];
    fold out in Hstore; rewrite Hstore.
  - split; [| intros k Hk; exact Hk]. intros k s Hk. exact (Hsame k s st Hk).
  - pose proof (acc_found _ _ _ _ _ Hacc) as Hfound. split.
    + intros k s Hk. destruct (decide (k = params_sessionId req)) as [-> | Hne].
      * rewrite Hfound in Hk. injection Hk as <-.
        exists (push (push session u) a), [u; a].
        split; [apply lookup_insert_eq |].
        split; [cbn [push messages]; rewrite <- app_assoc; reflexivity |].
        split; [right; exists u, a; repeat split; assumption |].
        repeat split; try reflexivity. congruence.
      * destruct (Hsame k s st Hk) as [s' [added [Hk' Hrest]]].
        exists s', added. rewrite lookup_insert_ne by congruence.
        split; [exact Hk' | exact Hrest].
    + intros k Hk. rewrite lookup_insert_ne; [exact Hk |].
      intros <-. rewrite Hfound in Hk. discriminate Hk.
Qed.

End SendMessageStore.

(** *** Instances *)

Lemma sendMessage_unauthenticated_or_unknown_witness :
  sendMessage offlineEnv noParse (sampleRequest None "message" "hello") (initial sampleStore)
    = (reply 401 "message" "Unauthorized", initial sampleStore)
  /\ sendMessage offlineEnv noParse (sampleRequest (Some 7) "message" "hello") (initial ∅)
     = (reply 404 "message" "Session not found",
        {| store := ∅; trace := [EvFindOne (js "s-1")] |}).
Proof.
  assert (Hmsg : forall caller,
            ownProperty (js "message") (body (sampleRequest caller "message" "hello"))
            = VStr (js "hello")) by (intros caller; by_computation).
  assert (Hblank : (length (trim (js "hello")) =? 0)%nat = false) by by_computation.
  split.
  - exact (proj1 (proj1 (sendMessage_unauthenticated_or_unknown offlineEnv noParse
                           (sampleRequest None "message" "hello") sampleStore (js "hello")
                           (Hmsg None) Hblank) eq_refl)).
  - exact (proj1 (proj2 (sendMessage_unauthenticated_or_unknown offlineEnv noParse
                           (sampleRequest (Some 7) "message" "hello") ∅ (js "hello")
                           (Hmsg (Some 7)) Hblank) 7 eq_refl eq_refl eq_refl)).
Defined.

Lemma sendMessage_query_failure_witness :
  statusCode (fst (sendMessage brokenQueryEnv noParse anxiousRequest (initial sampleStore)))
    = 500
  /\ getProp (json (fst (sendMessage brokenQueryEnv noParse anxiousRequest
                           (initial sampleStore)))) (js "error")
     = Ok (VStr (js "connection lost"))
  /\ store (snd (sendMessage brokenQueryEnv noParse anxiousRequest (initial sampleStore)))
     = sampleStore.
Proof.
  assert (Hmsg : ownProperty (js "message") (body anxiousRequest) = VStr anxiousText)
    by by_computation.
  assert (Hblank : (length (trim anxiousText) =? 0)%nat = false) by by_computation.
  destruct (sendMessage_query_failure brokenQueryEnv noParse anxiousRequest sampleStore
              anxiousText 7 (Error (js "connection lost")) Hmsg Hblank eq_refl eq_refl)
    as [Hstatus [Herror [Hstore _]]].
  split; [exact Hstatus | split; [exact Herror | exact Hstore]].
Defined.

Lemma answering_status :
  statusCode (fst (sendMessage answeringEnv noParse anxiousRequest (initial sampleStore)))
  = 200.
Proof. by_computation. Qed.

Lemma sendMessage_returns_what_it_stores_witness :
  Accepted answeringEnv anxiousRequest sampleStore anxiousText sampleSession
  /\ exists userTurn assistantTurn,
       (messages <$> store (snd (sendMessage answeringEnv noParse anxiousRequest
                                   (initial sampleStore))) !! js "s-1")
         = Some ([] ++ [userTurn; assistantTurn])
       /\ content userTurn = trim anxiousText
       /\ getProp (json (fst (sendMessage answeringEnv noParse anxiousRequest
                                (initial sampleStore)))) (js "response")
          = Ok (VStr (content assistantTurn)).
Proof.
  split; [exact (anxious_accepted answeringEnv eq_refl) |].
  destruct (sendMessage_returns_what_it_stores answeringEnv noParse anxiousRequest
              sampleStore anxiousText sampleSession
              (anxious_accepted answeringEnv eq_refl) answering_status)
    as [u [a [md [Hstored [_ [Hcontent [_ [_ [_ [Hresponse _]]]]]]]]]].
  exists u, a. split; [exact Hstored | split; [exact Hcontent | exact Hresponse]].
Defined.

Lemma sendMessage_stores_trimmed_text_witness :
  Accepted answeringEnv anxiousRequest sampleStore anxiousText sampleSession
  /\ exists stored userTurn assistantTurn,
       store (snd (sendMessage answeringEnv noParse anxiousRequest (initial sampleStore)))
         !! js "s-1" = Some stored
       /\ messages stored = [] ++ [userTurn; assistantTurn]
       /\ content userTurn <> [].
Proof.
  split; [exact (anxious_accepted answeringEnv eq_refl) |].
  destruct (sendMessage_stores_trimmed_text answeringEnv noParse anxiousRequest
              sampleStore anxiousText sampleSession
              (anxious_accepted answeringEnv eq_refl) answering_status)
    as [stored [u [a [Hstored [Hmessages [Hcontent _]]]]]].
  exists stored, u, a. split; [exact Hstored | split; [exact Hmessages | exact Hcontent]].
Defined.

Lemma sampleStore_wellKeyed : wellKeyed sampleStore.
Proof.
  intros k s Hk. unfold sampleStore in Hk.
  apply lookup_singleton_Some in Hk as [<- <-]. reflexivity.
Qed.

Lemma sendMessage_only_appends_witness :
  wellKeyed sampleStore
  /\ exists s' added,
       store (snd (sendMessage answeringEnv noParse anxiousRequest (initial sampleStore)))
         !! js "s-1" = Some s'
       /\ messages s' = messages sampleSession ++ added
       /\ userId s' = userId sampleSession.
Proof.
  split; [exact sampleStore_wellKeyed |].
  destruct (proj1 (sendMessage_only_appends answeringEnv noParse anxiousRequest
                     sampleStore sampleStore_wellKeyed)
              (js "s-1") sampleSession ltac:(by_computation))
    as [s' [added [Hstored [Hmessages [_ [_ [Howner _]]]]]]].
  exists s', added. split; [exact Hstored | split; [exact Hmessages | exact Howner]].
Defined.

(** ** [createChatSession] *)

Section CreateChatSession.
Variable env : Env.
Variable outside : Outside.

Lemma createChatSession_no_caller (req : Request) (w : World) :
  user req = None ->
  createChatSession env outside req w = (reply 401 "message" "Unauthorized", w).
Proof.
  intros Huser. unfold createChatSession, createChatSessionBody.
  rewrite Huser. reflexivity.
Qed.

Lemma createChatSession_no_user (req : Request) (w : World) (caller : N) :
  user req = Some caller ->
  User_findById outside caller = Ok false ->
  createChatSession env outside req w = (reply 404 "message" "User not found", w).
Proof.
  intros Huser Hfind. unfold createChatSession, createChatSessionBody.
  rewrite Huser. unfold bind, lift. rewrite Hfind. reflexivity.
Qed.

Lemma createChatSession_user_query_rejected (req : Request) (w : World)
    (caller : N) (e : exn) :
  user req = Some caller ->
  User_findById outside caller = Throw e ->
  store (snd (createChatSession env outside req w)) = store w
  /\ statusCode (fst (createChatSession env outside req w)) = 500.
Proof.
  intros Huser Hfind. unfold createChatSession, createChatSessionBody.
  rewrite Huser. unfold bind, lift. rewrite Hfind. split; reflexivity.
Qed.

Lemma createChatSession_run (req : Request) (st : gmap jsstring IChatSession)
    (caller : N) :
  user req = Some caller ->
  User_findById outside caller = Ok true ->
  createChatSession env outside req (initial st) =
  let session := newChatSession (uuidv4 outside) caller (clock env 0) in
  match saveFails env session with
  | Some e =>
    ({| statusCode := 500;
        json := VObj [(js "message", VStr (js "Error creating chat session"));
                      (js "error", VStr (errorMessage e))] |},
     {| store := st; trace := [EvSave session false] |})
  | None =>
    match st !! uuidv4 outside with
    | Some _ =>
      ({| statusCode := 500;
          json := VObj [(js "message", VStr (js "Error creating chat session"));
                        (js "error", VStr (js "E11000 duplicate key error"))] |},
       {| store := st; trace := [EvSave session false] |})
    | None =>
      (created (uuidv4 outside),
       {| store := <[uuidv4 outside := session]> st; trace := [EvSave session true] |})
    end
  end.
Proof.
  intros Huser Hfind. unfold createChatSession, createChatSessionBody.
  rewrite Huser. unfold bind, lift, newDate, saveNew, ret, logEvent, initial.
  rewrite Hfind. cbn [negb store trace length app newChatSession sessionId].
  destruct (saveFails env _); [reflexivity |].
  destruct (st !! uuidv4 outside); reflexivity.
Qed.

(** X7. For an authenticated caller whose user document exists, when
    the generated identifier is not in use and the save succeeds, the
    answer is status 201 with that identifier, and the store holds under
    it a session of the caller that is active, has no message and no
    topic; every other identifier maps to what it did. *)
Theorem createChatSession_creates (req : Request) (st : gmap jsstring IChatSession)
    (caller : N) :
  user req = Some caller ->
  User_findById outside caller = Ok true ->
  st !! uuidv4 outside = None ->
  saveFails env (newChatSession (uuidv4 outside) caller (clock env 0)) = None ->
  let out := createChatSession env outside req (initial st) in
  statusCode (fst out) = 201
  /\ getProp (json (fst out)) (js "sessionId") = Ok (VStr (uuidv4 outside))
  /\ (exists session,
        store (snd out) !! uuidv4 outside = Some session
        /\ sessionId session = uuidv4 outside /\ userId session = caller
        /\ messages session = [] /\ topic session = None /\ status session = active)
  /\ (forall k, k <> uuidv4 outside -> store (snd out) !! k = st !! k).
Proof.
  intros Huser Hfind Hfresh Hsave out. subst out.
  rewrite (createChatSession_run req st caller Huser Hfind). cbv zeta.
  rewrite Hsave, Hfresh. cbn [fst snd store statusCode json created].
  split; [reflexivity | split; [| split]].
  - vm_compute. reflexivity.
  - eexists. split; [apply lookup_insert_eq |]. repeat split.
  - intros k Hk. apply lookup_insert_ne. congruence.
Qed.

(** X8. [createChatSession] never touches a session that exists:
    whatever the request and the answers of the outside (no caller, no
    user document, a failing save, an identifier already in use), every
    session stored before is stored unchanged afterwards; and any answer
    other than 201 leaves the store as it was. *)
Theorem createChatSession_preserves (req : Request) (st : gmap jsstring IChatSession) :
  let out := createChatSession env outside req (initial st) in
  (forall k s, st !! k = Some s -> store (snd out) !! k = Some s)
  /\ (statusCode (fst out) <> 201 -> store (snd out) = st).
Proof.
  intros out.
  assert (Hcases : store (snd out) = st
                   \/ (statusCode (fst out) = 201
                       /\ st !! uuidv4 outside = None
                       /\ exists session,
                            store (snd out) = <[uuidv4 outside := session]> st)).
  { subst out. destruct (user req) as [caller|] eqn:Huser.
    2: { left. rewrite (createChatSession_no_caller req (initial st) Huser).
         reflexivity. }
    destruct (User_findById outside caller) as [[|]|e] eqn:Hfind.
    - rewrite (createChatSession_run req st caller Huser Hfind). cbv zeta.
      destruct (saveFails env _); [left; reflexivity |].
      destruct (st !! uuidv4 outside) eqn:Hfresh; [left; reflexivity |].
      right. split; [reflexivity | split; [reflexivity | eexists; reflexivity]].
    - left. rewrite (createChatSession_no_user req (initial st) caller Huser Hfind).
      reflexivity.
    - left. exact (proj1 (createChatSession_user_query_rejected req (initial st)
                            caller e Huser Hfind)). }
  destruct Hcases as [Hsame | [Hstatus [Hfresh [session Hstore]]]].
  - rewrite Hsame. split; [intros k s Hk; exact Hk | reflexivity].
  - rewrite Hstore. split; [| congruence].
    intros k s Hk. rewrite lookup_insert_ne; [exact Hk |].
    intros <-. rewrite Hfresh in Hk. discriminate Hk.
Qed.

(** X9. No session is created for a request without a caller (status
    401) or for a caller without a user document (status 404): the world
    is returned as it was. *)
Theorem createChatSession_refuses (req : Request) (w : World) :
  (user req = None ->
   createChatSession env outside req w = (reply 401 "message" "Unauthorized", w))
  /\ (forall caller, user req = Some caller ->
      User_findById outside caller = Ok false ->
      createChatSession env outside req w = (reply 404 "message" "User not found", w)).
Proof.
  split.
  - exact (createChatSession_no_caller req w).
  - exact (createChatSession_no_user req w).
Qed.

End CreateChatSession.

(** X10. A session that was just created takes a first message: when
    the same caller submits a valid message to the identifier returned
    and the submission succeeds, the session holds exactly two messages,
    the user turn with the trimmed text and then the assistant turn. *)
Theorem create_then_send (env : Env) (outside : Outside)
    (JSON_parse : jsstring -> option value)
    (req : Request) (st : gmap jsstring IChatSession) (caller : N)
    (req' : Request) (text : jsstring) :
  user req = Some caller ->
  User_findById outside caller = Ok true ->
  st !! uuidv4 outside = None ->
  saveFails env (newChatSession (uuidv4 outside) caller (clock env 0)) = None ->
  params_sessionId req' = uuidv4 outside ->
  ownProperty (js "message") (body req') = VStr text ->
  (length (trim text) =? 0)%nat = false ->
  user req' = Some caller ->
  findOneFails env (uuidv4 outside) = None ->
  let st1 := store (snd (createChatSession env outside req (initial st))) in
  let out := sendMessage env JSON_parse req' (initial st1) in
  statusCode (fst out) = 200 ->
  exists userTurn assistantTurn,
    (messages <$> store (snd out) !! uuidv4 outside) = Some [userTurn; assistantTurn]
    /\ role userTurn = Role_user /\ content userTurn = trim text
    /\ role assistantTurn = Role_assistant
    /\ getProp (json (fst out)) (js "response") = Ok (VStr (content assistantTurn)).
Proof.
  intros Huser Hfind Hfresh Hsave Hid Hmsg Hblank Huser' Hquery st1 out Hok.
  subst out st1.
  rewrite (createChatSession_run env outside req st caller Huser Hfind) in Hok |- *.
  cbv zeta in Hok |- *. rewrite Hsave, Hfresh in Hok |- *.
  cbn [snd store] in Hok |- *.
  set (session := newChatSession (uuidv4 outside) caller (clock env 0)) in *.
  assert (Hacc : Accepted env req' (<[uuidv4 outside := session]> st) text session).
  { constructor.
    - exact Hmsg.
    - exact Hblank.
    - exact Huser'.
    - rewrite Hid. exact Hquery.
    - rewrite Hid. apply lookup_insert_eq.
    - rewrite Hid. reflexivity. }
  destruct (sendMessage_success env JSON_parse req' _ text session Hacc Hok) as [p Hrun].
  cbv zeta in Hrun. rewrite Hrun. cbn [fst snd store json sendMessageOk].
  exists (userMessage text (clock env 1)),
         (assistantMessage (responseText env text) (clock env 4)
            (analysisValue env JSON_parse text) p).
  rewrite Hid, lookup_insert_eq. repeat split.
Qed.

(** ** [deleteChatSession], [getChatHistory], [getChatSession] *)

Section ReadAndDelete.
Variable env : Env.
Variable outside : Outside.
Variable messagesJSON : list IChatMessage -> value.
Variable sessionJSON : IChatSession -> value.

Lemma deleteChatSession_run (req : Request) (st : gmap jsstring IChatSession)
    (caller : N) :
  user req = Some caller ->
  findOneFails env (params_sessionId req) = None ->
  deleteChatSession env outside req (initial st) =
  let w1 := {| store := st; trace := [EvFindOne (params_sessionId req)] |} in
  match st !! params_sessionId req with
  | None => (reply 404 "error" "Session not found", w1)
  | Some session =>
    if negb (userId session =? caller)
    then (reply 403 "error" "Unauthorized - you can only delete your own sessions", w1)
    else
      match deleteOneFails outside (params_sessionId req) with
      | Some e =>
        ({| statusCode := 500;
            json := VObj [(js "error", VStr (js "Failed to delete session"));
                          (js "details", VStr (errorMessage e))] |}, w1)
      | None =>
        (deleted (params_sessionId req),
         {| store := delete (params_sessionId req) st;
            trace := [EvFindOne (params_sessionId req)] |})
      end
  end.
Proof.
  intros Huser Hquery. unfold deleteChatSession, deleteChatSessionBody.
  rewrite Huser. unfold bind, findOne, deleteOne, ret, logEvent, initial.
  cbn [store trace app]. rewrite Hquery.
  destruct (st !! params_sessionId req) as [session|]; [| reflexivity].
  destruct (negb (userId session =? caller)); [reflexivity |].
  cbn [store trace].
  destruct (deleteOneFails outside (params_sessionId req)); reflexivity.
Qed.

Lemma deleteChatSession_store_cases (req : Request) (st : gmap jsstring IChatSession) :
  let out := deleteChatSession env outside req (initial st) in
  store (snd out) = st
  \/ (statusCode (fst out) = 200
      /\ store (snd out) = delete (params_sessionId req) st
      /\ exists session caller,
           st !! params_sessionId req = Some session
           /\ user req = Some caller /\ userId session = caller).
Proof.
  intros out. subst out.
  destruct (user req) as [caller|] eqn:Huser.
  2: { left. unfold deleteChatSession, deleteChatSessionBody. rewrite Huser.
       reflexivity. }
  destruct (findOneFails env (params_sessionId req)) as [e|] eqn:Hquery.
  { left. unfold deleteChatSession, deleteChatSessionBody. rewrite Huser.
    unfold bind, findOne. rewrite Hquery. reflexivity. }
  rewrite (deleteChatSession_run req st caller Huser Hquery). cbv zeta.
  destruct (st !! params_sessionId req) as [session|] eqn:Hfound; [| left; reflexivity].
  destruct (userId session =? caller) eqn:Howner; cbn [negb]; [| left; reflexivity].
  destruct (deleteOneFails outside (params_sessionId req)); [left; reflexivity |].
  right. split; [reflexivity | split; [reflexivity |]].
  exists session, caller. apply N.eqb_eq in Howner. repeat split; assumption || reflexivity.
Qed.

(** X11. When the owner deletes a session and the store carries the
    deletion out, the answer is status 200 with the identifier, the
    identifier maps to nothing afterwards, and every other session is
    stored as before. *)
Theorem deleteChatSession_removes (req : Request) (st : gmap jsstring IChatSession)
    (session : IChatSession) :
  user req = Some (userId session) ->
  findOneFails env (params_sessionId req) = None ->
  st !! params_sessionId req = Some session ->
  deleteOneFails outside (params_sessionId req) = None ->
  let out := deleteChatSession env outside req (initial st) in
  statusCode (fst out) = 200
  /\ getProp (json (fst out)) (js "sessionId") = Ok (VStr (params_sessionId req))
  /\ store (snd out) !! params_sessionId req = None
  /\ (forall k, k <> params_sessionId req -> store (snd out) !! k = st !! k).
Proof.
  intros Huser Hquery Hfound Hdelete out. subst out.
  rewrite (deleteChatSession_run req st (userId session) Huser Hquery). cbv zeta.
  rewrite Hfound, N.eqb_refl, Hdelete. cbn [negb fst snd store statusCode json deleted].
  split; [reflexivity | split; [| split]].
  - vm_compute. reflexivity.
  - apply lookup_delete_eq.
  - intros k Hk. apply lookup_delete_ne. congruence.
Qed.

(** X12. Only the owner deletes: for a request without a caller (401),
    for an identifier no session has (404) and for a caller who is not
    the owner (403), the stored sessions are unchanged; and in general a
    session other than the one addressed is never removed or changed,
    whatever the answers of the outside. *)
Theorem deleteChatSession_refuses (req : Request) (st : gmap jsstring IChatSession) :
  let out := deleteChatSession env outside req (initial st) in
  (user req = None ->
   statusCode (fst out) = 401 /\ store (snd out) = st)
  /\ (forall caller, user req = Some caller ->
      findOneFails env (params_sessionId req) = None ->
      (st !! params_sessionId req = None ->
       statusCode (fst out) = 404 /\ store (snd out) = st)
      /\ (forall session, st !! params_sessionId req = Some session ->
          userId session <> caller ->
          statusCode (fst out) = 403 /\ store (snd out) = st))
  /\ (forall k, k <> params_sessionId req -> store (snd out) !! k = st !! k).
Proof.
  intros out. split; [| split].
  - intros Huser. subst out. unfold deleteChatSession, deleteChatSessionBody.
    rewrite Huser. split; reflexivity.
  - intros caller Huser Hquery. subst out.
    rewrite (deleteChatSession_run req st caller Huser Hquery). cbv zeta. split.
    + intros ->. split; reflexivity.
    + intros session -> Hother. apply N.eqb_neq in Hother. rewrite Hother.
      split; reflexivity.
  - intros k Hk.
    destruct (deleteChatSession_store_cases req st) as [Hsame | [_ [Hstore _]]];
      fold out in Hsame || fold out in Hstore.
    + rewrite Hsame. reflexivity.
    + rewrite Hstore. apply lookup_delete_ne. congruence.
Qed.

Lemma getChatHistory_run (req : Request) (w : World) (caller : N) :
  user req = Some caller ->
  findOneFails env (params_sessionId req) = None ->
  getChatHistory env messagesJSON req w =
  let w1 := logEvent (EvFindOne (params_sessionId req)) w in
  match store w !! params_sessionId req with
  | None => (reply 404 "message" "Session not found", w1)
  | Some session =>
    if negb (userId session =? caller)
    then (reply 403 "message" "Unauthorized", w1)
    else ({| statusCode := 200; json := messagesJSON (messages session) |}, w1)
  end.
Proof.
  intros Huser Hquery. unfold getChatHistory, getChatHistoryBody.
  rewrite Huser. unfold bind, findOne, ret. rewrite Hquery.
  destruct (store w !! params_sessionId req) as [session|]; [| reflexivity].
  destruct (negb (userId session =? caller)); reflexivity.
Qed.

Lemma getChatSession_run (req : Request) (w : World) :
  findOneFails env (params_sessionId req) = None ->
  getChatSession env sessionJSON req w =
  let w1 := logEvent (EvFindOne (params_sessionId req)) w in
  match store w !! params_sessionId req with
  | None => (reply 404 "error" "Chat session not found", w1)
  | Some session => ({| statusCode := 200; json := sessionJSON session |}, w1)
  end.
Proof.
  intros Hquery. unfold getChatSession, getChatSessionBody.
  unfold bind, findOne, ret. rewrite Hquery.
  destruct (store w !! params_sessionId req); reflexivity.
Qed.

(** X13. [getChatHistory] answers the owner with the stored messages
    of the session, refuses any other caller with status 403, answers
    404 for an identifier no session has, and in no case (also without a
    caller, or when the query fails) changes the stored sessions. *)
Theorem getChatHistory_reads (req : Request) (w : World) :
  store (snd (getChatHistory env messagesJSON req w)) = store w
  /\ (forall caller, user req = Some caller ->
      findOneFails env (params_sessionId req) = None ->
      (store w !! params_sessionId req = None ->
       statusCode (fst (getChatHistory env messagesJSON req w)) = 404)
      /\ (forall session, store w !! params_sessionId req = Some session ->
          (userId session = caller ->
           fst (getChatHistory env messagesJSON req w)
           = {| statusCode := 200; json := messagesJSON (messages session) |})
          /\ (userId session <> caller ->
              statusCode (fst (getChatHistory env messagesJSON req w)) = 403))).
Proof.
  split.
  - unfold getChatHistory, getChatHistoryBody.
    destruct (user req) as [caller|]; [| reflexivity].
    unfold bind, findOne, ret.
    destruct (findOneFails env (params_sessionId req)); [reflexivity |].
    destruct (store w !! params_sessionId req) as [session|]; [| reflexivity].
    destruct (negb (userId session =? caller)); reflexivity.
  - intros caller Huser Hquery.
    rewrite (getChatHistory_run req w caller Huser Hquery). cbv zeta. split.
    + intros ->. reflexivity.
    + intros session ->. split.
      * intros Howner. apply N.eqb_eq in Howner. rewrite Howner. reflexivity.
      * intros Hother. apply N.eqb_neq in Hother. rewrite Hother. reflexivity.
Qed.

(** X14. [getChatSession] does not look at the caller: when the query
    succeeds, a stored session is answered whole, with status 200, to
    any request, also one whose caller is not the owner and whom
    [getChatHistory] refuses with status 403 for the same session; the
    stored sessions are not changed. *)
Theorem getChatSession_any_caller (req : Request) (w : World) (session : IChatSession) :
  findOneFails env (params_sessionId req) = None ->
  store w !! params_sessionId req = Some session ->
  fst (getChatSession env sessionJSON req w)
    = {| statusCode := 200; json := sessionJSON session |}
  /\ store (snd (getChatSession env sessionJSON req w)) = store w
  /\ (forall caller, user req = Some caller -> userId session <> caller ->
      statusCode (fst (getChatHistory env messagesJSON req w)) = 403).
Proof.
  intros Hquery Hfound. rewrite (getChatSession_run req w Hquery). cbv zeta.
  rewrite Hfound. split; [reflexivity | split; [reflexivity |]].
  intros caller Huser Hother.
  rewrite (getChatHistory_run req w caller Huser Hquery). cbv zeta.
  rewrite Hfound. apply N.eqb_neq in Hother. rewrite Hother. reflexivity.
Qed.

(** X15. After a deletion that succeeded, the identifier is unknown to
    every handler that looks a session up: [getChatSession],
    [getChatHistory], a second [deleteChatSession] and [sendMessage]
    with a valid message all answer with status 404. *)
Theorem delete_then_not_found (JSON_parse : jsstring -> option value)
    (req : Request) (st : gmap jsstring IChatSession) (session : IChatSession)
    (text : jsstring) :
  user req = Some (userId session) ->
  findOneFails env (params_sessionId req) = None ->
  st !! params_sessionId req = Some session ->
  deleteOneFails outside (params_sessionId req) = None ->
  ownProperty (js "message") (body req) = VStr text ->
  (length (trim text) =? 0)%nat = false ->
  let st' := store (snd (deleteChatSession env outside req (initial st))) in
  statusCode (fst (getChatSession env sessionJSON req (initial st'))) = 404
  /\ statusCode (fst (getChatHistory env messagesJSON req (initial st'))) = 404
  /\ statusCode (fst (deleteChatSession env outside req (initial st'))) = 404
  /\ statusCode (fst (sendMessage env JSON_parse req (initial st'))) = 404.
Proof.
  intros Huser Hquery Hfound Hdelete Hmsg Hblank st'.
  assert (Hgone : st' !! params_sessionId req = None).
  { subst st'.
    rewrite (deleteChatSession_run req st (userId session) Huser Hquery). cbv zeta.
    rewrite Hfound, N.eqb_refl, Hdelete. cbn [negb snd store].
    apply lookup_delete_eq. }
  split; [| split; [| split]].
  - rewrite (getChatSession_run req (initial st') Hquery). cbv zeta.
    cbn [initial store]. rewrite Hgone. reflexivity.
  - rewrite (getChatHistory_run req (initial st') (userId session) Huser Hquery).
    cbv zeta. cbn [initial store]. rewrite Hgone. reflexivity.
  - rewrite (deleteChatSession_run req st' (userId session) Huser Hquery). cbv zeta.
    rewrite Hgone. reflexivity.
  - rewrite (sendMessage_no_session env JSON_parse req st' text (userId session)
               Hmsg Hblank Huser Hquery Hgone).
    reflexivity.
Qed.

(** X16. What [sendMessage] stored is what [getChatHistory] answers:
    after a submission that succeeded, the owner's history of the session
    is the former messages followed by the user turn, with the trimmed
    text, and the assistant turn, with the reply that was returned. *)
Theorem send_then_history (JSON_parse : jsstring -> option value)
    (req : Request) (st : gmap jsstring IChatSession)
    (text : jsstring) (session : IChatSession) :
  Accepted env req st text session ->
  let out := sendMessage env JSON_parse req (initial st) in
  statusCode (fst out) = 200 ->
  exists userTurn assistantTurn,
    fst (getChatHistory env messagesJSON req (initial (store (snd out))))
    = {| statusCode := 200;
         json := messagesJSON (messages session ++ [userTurn; assistantTurn]) |}
    /\ role userTurn = Role_user /\ content userTurn = trim text
    /\ role assistantTurn = Role_assistant
    /\ getProp (json (fst out)) (js "response") = Ok (VStr (content assistantTurn)).
Proof.
  intros Hacc out Hok. subst out.
  destruct (sendMessage_success env JSON_parse req st text session Hacc Hok) as [p Hrun].
  cbv zeta in Hrun. rewrite Hrun. cbn [fst snd store json sendMessageOk].
  exists (userMessage text (clock env 1)),
         (assistantMessage (responseText env text) (clock env 4)
            (analysisValue env JSON_parse text) p).
  split; [| repeat split].
  rewrite (getChatHistory_run req _ (userId session)
             (acc_user _ _ _ _ _ Hacc) (acc_query _ _ _ _ _ Hacc)).
  cbv zeta. cbn [initial store]. rewrite lookup_insert_eq.
  cbn [push userId messages]. rewrite N.eqb_refl, <- app_assoc. reflexivity.
Qed.

End ReadAndDelete.

(** ** [getAllChatSessions] *)

(** X17. [getAllChatSessions] lists the sessions of the caller and no
    other: for an authenticated caller whose query succeeds the answer
    is status 200 with the summaries of exactly the stored sessions the
    caller owns (in the order of the store's sort), each with the number
    of its messages as [messageCount]; a request without a caller is
    answered with status 401; the stored sessions are never changed. *)
Theorem getAllChatSessions_lists (outside : Outside)
    (summariesJSON : list SessionSummary -> value)
    (sortByUpdatedAt : list IChatSession -> list IChatSession)
    (req : Request) (st : gmap jsstring IChatSession) :
  (forall l, Permutation (sortByUpdatedAt l) l) ->
  let out := getAllChatSessions outside summariesJSON sortByUpdatedAt req (initial st) in
  store (snd out) = st
  /\ (user req = None -> statusCode (fst out) = 401)
  /\ (forall caller, user req = Some caller -> findFails outside caller = None ->
      exists sessions,
        fst out = {| statusCode := 200;
                     json := summariesJSON (map transformSession sessions) |}
        /\ (forall s, In s sessions <->
                      (exists k, st !! k = Some s) /\ userId s = caller)
        /\ map messageCount (map transformSession sessions)
           = map (fun s => length (messages s)) sessions).
Proof.
  intros Hsort out. subst out. unfold getAllChatSessions, getAllChatSessionsBody.
  destruct (user req) as [caller|] eqn:Huser.
  2: { split; [reflexivity | split; [reflexivity | discriminate]]. }
  unfold bind, findByUser, ret. cbn [initial store].
  destruct (findFails outside caller) as [e|] eqn:Hfind.
  { split; [reflexivity | split; [discriminate |]].
    intros caller' [= <-] Hnone. rewrite Hfind in Hnone. discriminate Hnone. }
  split; [reflexivity | split; [discriminate |]].
  intros caller' [= <-] _.
  eexists. split; [reflexivity | split].
  - intros s. split.
    + intros Hin. apply (Permutation_in _ (Hsort _)) in Hin.
      apply filter_In in Hin as [Hin Howner]. apply in_map_iff in Hin as [[k s'] [Hs Hin]].
      cbn [snd] in Hs. subst s'. apply list_elem_of_In, elem_of_map_to_list in Hin.
      split; [exists k; exact Hin | apply N.eqb_eq; exact Howner].
    + intros [[k Hk] Howner].
      apply (Permutation_in _ (Permutation_sym (Hsort _))).
      apply filter_In. split; [| apply N.eqb_eq; exact Howner].
      apply in_map_iff. exists (k, s). split; [reflexivity |].
      apply list_elem_of_In, elem_of_map_to_list. exact Hk.
  - rewrite map_map. reflexivity.
Qed.

Lemma getAllChatSessions_lists_witness :
  exists sessions,
    fst (getAllChatSessions sampleOutside idsJSON (fun l => l)
           (sampleRequest (Some 7) "unused" "") (initial twoSessions))
    = {| statusCode := 200; json := idsJSON (map transformSession sessions) |}
    /\ In sampleSession sessions /\ ~ In otherSession sessions.
Proof.
  destruct (getAllChatSessions_lists sampleOutside idsJSON (fun l => l)
              (sampleRequest (Some 7) "unused" "") twoSessions
              (fun l => Permutation_refl l))
    as [_ [_ Hlist]].
  destruct (Hlist 7 eq_refl eq_refl) as [sessions [Hout [Hin _]]].
  exists sessions. split; [exact Hout | split].
  - apply Hin. split; [| reflexivity]. exists (js "s-1"). by_computation.
  - intros Hother. apply Hin in Hother as [_ Hother]. discriminate Hother.
Defined.

(** ** [updateSessionTopic]: what else it leaves alone *)

Lemma updateSessionTopic_store_cases (env : Env) (req : Request)
    (st : gmap jsstring IChatSession) :
  let out := updateSessionTopic env req (initial st) in
  store (snd out) = st
  \/ exists text session,
       st !! params_sessionId req = Some session
       /\ store (snd out)
          = <[sessionId session := setTopic session (substring0 100 (trim text))]> st.
Proof.
  intros out. subst out.
  destruct (blank (ownProperty (js "topic") (body req))) eqn:Hblank.
  { left. rewrite (updateSessionTopic_invalid env req (initial st) Hblank). reflexivity. }
  destruct (ownProperty (js "topic") (body req)) as [| | | |text| |] eqn:Htopic;
    try discriminate Hblank.
  cbn [blank] in Hblank.
  destruct (user req) as [caller|] eqn:Huser.
  2: { left. unfold updateSessionTopic, updateSessionTopicBody.
       rewrite Htopic, (nonblank_truthy _ Hblank), Hblank, Huser. reflexivity. }
  destruct (findOneFails env (params_sessionId req)) as [e|] eqn:Hquery.
  { left. unfold updateSessionTopic, updateSessionTopicBody.
    rewrite Htopic, (nonblank_truthy _ Hblank), Hblank, Huser.
    cbn [negb orb]. unfold bind, findOne. rewrite Hquery. reflexivity. }
  rewrite (updateSessionTopic_run env req st text caller Htopic Hblank Huser Hquery).
  cbv zeta.
  destruct (st !! params_sessionId req) as [session|] eqn:Hfound; [| left; reflexivity].
  destruct (negb (userId session =? caller)); [left; reflexivity |].
  destruct (saveFails env _); [left; reflexivity |].
  right. exists text, session. split; reflexivity.
Qed.

(** X18. [updateSessionTopic] changes nothing but the topic of the
    session addressed: whatever the request and the answers of the
    outside, every session stored before is still stored with the same
    identifier, owner, messages, start and status, every other session
    is unchanged, and no session appears. *)
Theorem updateSessionTopic_only_topic (env : Env) (req : Request)
    (st : gmap jsstring IChatSession) :
  wellKeyed st ->
  let out := updateSessionTopic env req (initial st) in
  (forall k s, st !! k = Some s ->
     exists s', store (snd out) !! k = Some s'
                /\ sessionId s' = sessionId s /\ userId s' = userId s
                /\ messages s' = messages s /\ startTime s' = startTime s
                /\ status s' = status s
                /\ (k <> params_sessionId req -> s' = s))
  /\ (forall k, st !! k = None -> store (snd out) !! k = None).
Proof.
  intros Hkeyed out.
  destruct (updateSessionTopic_store_cases env req st)
    as [Hsame | [text [session [Hfound Hstore]]]];
    fold out in Hsame || fold out in Hstore.
  - rewrite Hsame. split; [| intros k Hk; exact Hk].
    intros k s Hk. exists s. repeat split; assumption || reflexivity.
  - rewrite Hstore, (Hkeyed _ _ Hfound). split.
    + intros k s Hk. destruct (decide (k = params_sessionId req)) as [-> | Hne].
      * rewrite Hfound in Hk. injection Hk as <-.
        eexists. split; [apply lookup_insert_eq |].
        repeat split; try reflexivity. congruence.
      * exists s. rewrite lookup_insert_ne by congruence.
        repeat split; assumption || reflexivity.
    + intros k Hk. rewrite lookup_insert_ne; [exact Hk |].
      intros <-. rewrite Hfound in Hk. discriminate Hk.
Qed.

Lemma updateSessionTopic_only_topic_witness :
  wellKeyed sampleStore
  /\ exists s',
       store (snd (updateSessionTopic offlineEnv
                     (sampleRequest (Some 7) "topic" "  Work stress  ")
                     (initial sampleStore))) !! js "s-1" = Some s'
       /\ messages s' = messages sampleSession.
Proof.
  split; [exact sampleStore_wellKeyed |].
  destruct (proj1 (updateSessionTopic_only_topic offlineEnv
                     (sampleRequest (Some 7) "topic" "  Work stress  ")
                     sampleStore sampleStore_wellKeyed)
              (js "s-1") sampleSession ltac:(by_computation))
    as [s' [Hstored [_ [_ [Hmessages _]]]]].
  exists s'. split; [exact Hstored | exact Hmessages].
Defined.

(** ** Invariants of the stored sessions *)

Lemma topics_insert (st : gmap jsstring IChatSession) (k : jsstring)
    (s : IChatSession) :
  topicsWithinLimit st ->
  (forall t, topic s = Some t -> (length t <= 100)%nat) ->
  topicsWithinLimit (<[k := s]> st).
Proof.
  intros Hst Hs j x t Hj Ht. apply lookup_insert_Some in Hj as [[_ <-] | [_ Hj]].
  - exact (Hs t Ht).
  - exact (Hst _ _ _ Hj Ht).
Qed.

Lemma topics_delete (st : gmap jsstring IChatSession) (k : jsstring) :
  topicsWithinLimit st -> topicsWithinLimit (delete k st).
Proof.
  intros Hst j x t Hj Ht. apply lookup_delete_Some in Hj as [_ Hj].
  exact (Hst _ _ _ Hj Ht).
Qed.

Lemma createChatSession_store_cases (env : Env) (outside : Outside) (req : Request)
    (st : gmap jsstring IChatSession) :
  let out := createChatSession env outside req (initial st) in
  store (snd out) = st
  \/ exists caller t,
       store (snd out)
       = <[uuidv4 outside := newChatSession (uuidv4 outside) caller t]> st.
Proof.
  intros out. subst out. destruct (user req) as [caller|] eqn:Huser.
  2: { left. rewrite (createChatSession_no_caller env outside req (initial st) Huser).
       reflexivity. }
  destruct (User_findById outside caller) as [[|]|e] eqn:Hfind.
  - rewrite (createChatSession_run env outside req st caller Huser Hfind). cbv zeta.
    destruct (saveFails env _); [left; reflexivity |].
    destruct (st !! uuidv4 outside); [left; reflexivity |].
    right. eexists _, _. reflexivity.
  - left. rewrite (createChatSession_no_user env outside req (initial st) caller
                     Huser Hfind). reflexivity.
  - left. exact (proj1 (createChatSession_user_query_rejected env outside req
                          (initial st) caller e Huser Hfind)).
Qed.

Section Invariants.
Variable env : Env.
Variable outside : Outside.
Variable JSON_parse : jsstring -> option value.

(** X20. The limit of the schema on topics ([maxlength: 100]) is never
    exceeded by what the controller writes: if no stored topic is longer
    than 100 code units before a request to [sendMessage],
    [updateSessionTopic], [createChatSession] or [deleteChatSession],
    none is after it, however long the topic submitted. *)
Theorem handlers_keep_topic_limit (req : Request) (st : gmap jsstring IChatSession) :
  wellKeyed st ->
  topicsWithinLimit st ->
  topicsWithinLimit (store (snd (sendMessage env JSON_parse req (initial st))))
  /\ topicsWithinLimit (store (snd (updateSessionTopic env req (initial st))))
  /\ topicsWithinLimit (store (snd (createChatSession env outside req (initial st))))
  /\ topicsWithinLimit (store (snd (deleteChatSession env outside req (initial st)))).
Proof.
  intros Hkeyed Hst. split; [| split; [| split]].
  - destruct (sendMessage_store_cases env JSON_parse req st Hkeyed)
      as [-> | [text [session [u [a [Hacc [_ ->]]]]]]]; [exact Hst |].
    apply topics_insert; [exact Hst |]. cbn [push topic].
    intros t Ht. exact (Hst _ _ _ (acc_found _ _ _ _ _ Hacc) Ht).
  - destruct (updateSessionTopic_store_cases env req st)
      as [-> | [text [session [Hfound ->]]]]; [exact Hst |].
    apply topics_insert; [exact Hst |]. cbn [setTopic topic].
    intros t Ht.
    assert (Heq : t = substring0 100 (trim text)) by congruence.
    rewrite Heq. apply firstn_le_length.
  - destruct (createChatSession_store_cases env outside req st)
      as [-> | [caller [t ->]]]; [exact Hst |].
    apply topics_insert; [exact Hst |]. cbn [newChatSession topic]. discriminate.
  - destruct (deleteChatSession_store_cases env outside req st)
      as [-> | [_ [-> _]]]; [exact Hst |].
    apply topics_delete. exact Hst.
Qed.

End Invariants.

(** *** Instances *)

Lemma createChatSession_creates_witness :
  statusCode (fst (createChatSession offlineEnv sampleOutside
                     (sampleRequest (Some 7) "unused" "") (initial sampleStore))) = 201
  /\ exists session,
       store (snd (createChatSession offlineEnv sampleOutside
                     (sampleRequest (Some 7) "unused" "") (initial sampleStore)))
         !! js "3f2c-new" = Some session
       /\ userId session = 7 /\ messages session = [].
Proof.
  assert (Hfresh : sampleStore !! uuidv4 sampleOutside = None) by by_computation.
  destruct (createChatSession_creates offlineEnv sampleOutside
              (sampleRequest (Some 7) "unused" "") sampleStore 7
              eq_refl eq_refl Hfresh eq_refl)
    as [Hstatus [_ [[session [Hstored [_ [Howner [Hmessages _]]]]] _]]].
  split; [exact Hstatus |].
  exists session. split; [exact Hstored | split; [exact Howner | exact Hmessages]].
Defined.

Lemma createChatSession_refuses_witness :
  createChatSession offlineEnv sampleOutside (sampleRequest None "unused" "")
    (initial sampleStore)
    = (reply 401 "message" "Unauthorized", initial sampleStore)
  /\ createChatSession offlineEnv strangerOutside (sampleRequest (Some 7) "unused" "")
       (initial sampleStore)
     = (reply 404 "message" "User not found", initial sampleStore).
Proof.
  split.
  - exact (proj1 (createChatSession_refuses offlineEnv sampleOutside
                    (sampleRequest None "unused" "") (initial sampleStore)) eq_refl).
  - exact (proj2 (createChatSession_refuses offlineEnv strangerOutside
                    (sampleRequest (Some 7) "unused" "") (initial sampleStore))
             7 eq_refl eq_refl).
Defined.

Lemma create_then_send_witness :
  exists userTurn assistantTurn,
    (messages <$>
       store (snd (sendMessage answeringEnv noParse firstMessageRequest
                     (initial (store (snd (createChatSession answeringEnv sampleOutside
                                             (sampleRequest (Some 7) "unused" "")
                                             (initial sampleStore)))))))
       !! uuidv4 sampleOutside)
    = Some [userTurn; assistantTurn]
    /\ content userTurn = trim anxiousText.
Proof.
  assert (Hfresh : sampleStore !! uuidv4 sampleOutside = None) by by_computation.
  assert (Hmsg : ownProperty (js "message") (body firstMessageRequest) = VStr anxiousText)
    by by_computation.
  assert (Hblank : (length (trim anxiousText) =? 0)%nat = false) by by_computation.
  assert (Hok : statusCode
                  (fst (sendMessage answeringEnv noParse firstMessageRequest
                          (initial (store (snd (createChatSession answeringEnv
                                                  sampleOutside
                                                  (sampleRequest (Some 7) "unused" "")
                                                  (initial sampleStore)))))))
                = 200) by by_computation.
  destruct (create_then_send answeringEnv sampleOutside noParse
              (sampleRequest (Some 7) "unused" "") sampleStore 7
              firstMessageRequest anxiousText
              eq_refl eq_refl Hfresh eq_refl eq_refl Hmsg Hblank eq_refl eq_refl Hok)
    as [u [a [Hstored [_ [Hcontent _]]]]].
  exists u, a. split; [exact Hstored | exact Hcontent].
Defined.

Lemma twoSessions_first : twoSessions !! js "s-1" = Some sampleSession.
Proof. by_computation. Qed.

Lemma deleteChatSession_removes_witness :
  store (snd (deleteChatSession offlineEnv sampleOutside
                (sampleRequest (Some 7) "unused" "") (initial twoSessions)))
    !! js "s-1" = None
  /\ store (snd (deleteChatSession offlineEnv sampleOutside
                   (sampleRequest (Some 7) "unused" "") (initial twoSessions)))
       !! js "s-2" = twoSessions !! js "s-2".
Proof.
  destruct (deleteChatSession_removes offlineEnv sampleOutside
              (sampleRequest (Some 7) "unused" "") twoSessions sampleSession
              eq_refl eq_refl twoSessions_first eq_refl)
    as [_ [_ [Hgone Hothers]]].
  split; [exact Hgone |].
  apply Hothers. vm_compute. discriminate.
Defined.

Lemma deleteChatSession_refuses_witness :
  statusCode (fst (deleteChatSession offlineEnv sampleOutside
                     (sampleRequest (Some 8) "unused" "") (initial twoSessions))) = 403
  /\ store (snd (deleteChatSession offlineEnv sampleOutside
                   (sampleRequest (Some 8) "unused" "") (initial twoSessions)))
     = twoSessions.
Proof.
  assert (Hother : userId sampleSession <> 8) by (cbn; lia).
  exact (proj2 (proj1 (proj2 (deleteChatSession_refuses offlineEnv sampleOutside
                                (sampleRequest (Some 8) "unused" "") twoSessions))
                  8 eq_refl eq_refl)
           sampleSession twoSessions_first Hother).
Defined.

Lemma getChatHistory_reads_witness :
  fst (getChatHistory offlineEnv contentsJSON (sampleRequest (Some 7) "unused" "")
         (initial twoSessions))
    = {| statusCode := 200; json := contentsJSON (messages sampleSession) |}
  /\ statusCode (fst (getChatHistory offlineEnv contentsJSON
                        (sampleRequest (Some 8) "unused" "") (initial twoSessions)))
     = 403.
Proof.
  assert (Hother : userId sampleSession <> 8) by (cbn; lia).
  split.
  - exact (proj1 (proj2 (proj2 (getChatHistory_reads offlineEnv contentsJSON
                                  (sampleRequest (Some 7) "unused" "")
                                  (initial twoSessions))
                           7 eq_refl eq_refl)
                    sampleSession twoSessions_first) eq_refl).
  - exact (proj2 (proj2 (proj2 (getChatHistory_reads offlineEnv contentsJSON
                                  (sampleRequest (Some 8) "unused" "")
                                  (initial twoSessions))
                           8 eq_refl eq_refl)
                    sampleSession twoSessions_first) Hother).
Defined.

Lemma getChatSession_any_caller_witness :
  userId sampleSession <> 8
  /\ fst (getChatSession offlineEnv idJSON (sampleRequest (Some 8) "unused" "")
            (initial twoSessions))
     = {| statusCode := 200; json := idJSON sampleSession |}.
Proof.
  split; [cbn; lia |].
  exact (proj1 (getChatSession_any_caller offlineEnv contentsJSON idJSON
                  (sampleRequest (Some 8) "unused" "") (initial twoSessions)
                  sampleSession eq_refl twoSessions_first)).
Defined.

Lemma delete_then_not_found_witness :
  statusCode
    (fst (getChatHistory offlineEnv contentsJSON anxiousRequest
            (initial (store (snd (deleteChatSession offlineEnv sampleOutside
                                    anxiousRequest (initial twoSessions)))))))
  = 404
  /\ statusCode
       (fst (sendMessage offlineEnv noParse anxiousRequest
               (initial (store (snd (deleteChatSession offlineEnv sampleOutside
                                       anxiousRequest (initial twoSessions)))))))
     = 404.
Proof.
  assert (Hmsg : ownProperty (js "message") (body anxiousRequest) = VStr anxiousText)
    by by_computation.
  assert (Hblank : (length (trim anxiousText) =? 0)%nat = false) by by_computation.
  destruct (delete_then_not_found offlineEnv sampleOutside contentsJSON idJSON noParse
              anxiousRequest twoSessions sampleSession anxiousText
              eq_refl eq_refl twoSessions_first eq_refl Hmsg Hblank)
    as [_ [Hhistory [_ Hsend]]].
  split; [exact Hhistory | exact Hsend].
Defined.

Lemma send_then_history_witness :
  exists userTurn assistantTurn,
    fst (getChatHistory answeringEnv contentsJSON anxiousRequest
           (initial (store (snd (sendMessage answeringEnv noParse anxiousRequest
                                   (initial sampleStore))))))
    = {| statusCode := 200;
         json := contentsJSON (messages sampleSession ++ [userTurn; assistantTurn]) |}
    /\ content userTurn = trim anxiousText.
Proof.
  destruct (send_then_history answeringEnv contentsJSON noParse anxiousRequest
              sampleStore anxiousText sampleSession
              (anxious_accepted answeringEnv eq_refl) answering_status)
    as [u [a [Hhistory [_ [Hcontent _]]]]].
  exists u, a. split; [exact Hhistory | exact Hcontent].
Defined.

Lemma sampleStore_topics : topicsWithinLimit sampleStore.
Proof.
  intros k s t Hk Ht. unfold sampleStore in Hk.
  apply lookup_singleton_Some in Hk as [_ <-]. discriminate Ht.
Qed.

Lemma handlers_keep_topic_limit_witness :
  topicsWithinLimit sampleStore
  /\ topicsWithinLimit
       (store (snd (updateSessionTopic offlineEnv
                      (sampleRequest (Some 7) "topic" "  Work stress  ")
                      (initial sampleStore)))).
Proof.
  destruct (handlers_keep_topic_limit offlineEnv sampleOutside noParse
              (sampleRequest (Some 7) "topic" "  Work stress  ")
              sampleStore sampleStore_wellKeyed sampleStore_topics) as [_ [Hupdate _]].
  split; [exact sampleStore_topics | exact Hupdate].
Defined.

(** ** The text clean-ups *)

Lemma removeAll_go_skip (matchAt : jsstring -> option nat) (n : nat) (s : jsstring) :
  removeAll_go matchAt n s = removeAll_go matchAt 0 (skipn n s).
Proof.
  revert n. induction s as [|c s IH]; intros n.
  - destruct n; reflexivity.
  - destruct n as [|n]; [reflexivity |]. cbn [removeAll_go skipn]. apply IH.
Qed.

(** Where the pattern matches nowhere, nothing is removed. *)
Lemma removeAll_no_match (matchAt : jsstring -> option nat) (s : jsstring) :
  (forall a c b, s = a ++ c :: b -> matchAt (c :: b) = None) ->
  removeAll matchAt s = s.
Proof.
  unfold removeAll. induction s as [|c s IH]; intros Hnone; [reflexivity |].
  cbn [removeAll_go]. rewrite (Hnone [] c s eq_refl). f_equal.
  apply IH. intros a c' b Hs. apply (Hnone (c :: a) c' b). rewrite Hs. reflexivity.
Qed.

Lemma matchFenceOpen_needs_backtick (c : N) (b : jsstring) :
  c <> 96 -> matchFenceOpen (c :: b) = None.
Proof.
  intros Hc. unfold matchFenceOpen.
  change (backticks ++ js "json") with (96 :: 96 :: 96 :: js "json").
  cbn [startsWith].
  apply N.eqb_neq in Hc. rewrite N.eqb_sym in Hc. rewrite Hc. reflexivity.
Qed.

Lemma matchFenceClose_plain (c : N) (b : jsstring) :
  c <> 96 -> (forall d r, b = d :: r -> d <> 96) ->
  matchFenceClose (c :: b) = None.
Proof.
  intros Hc Hb. unfold matchFenceClose, backticks. cbn [startsWith].
  apply N.eqb_neq in Hc. rewrite N.eqb_sym in Hc. rewrite Hc. cbn [andb].
  destruct (10 =? c); [| reflexivity]. cbn [andb].
  destruct b as [|d r]; [reflexivity |].
  pose proof (Hb d r eq_refl) as Hd. apply N.eqb_neq in Hd.
  rewrite N.eqb_sym in Hd. rewrite Hd. reflexivity.
Qed.

Lemma matchFenceOpen_at_fence (rest : jsstring) :
  matchFenceOpen (96 :: 96 :: 96 :: 106 :: 115 :: 111 :: 110 :: 10 :: rest) = Some 8%nat.
Proof. reflexivity. Qed.

Lemma removeAll_fenceOpen_plain (s : jsstring) :
  ~ In 96 s -> removeAll matchFenceOpen (s ++ 10 :: backticks) = s ++ 10 :: backticks.
Proof.
  intros Hs. apply removeAll_no_match. intros a c b Heq.
  destruct (N.eq_dec c 96) as [-> | Hc]; [| apply matchFenceOpen_needs_backtick, Hc].
  (* a backtick of the closing fence: fewer than seven units are left *)
  assert (Hlen : (length b < 3)%nat).
  { revert a Heq. induction s as [|x s IH]; intros a Heq.
    - destruct a as [|? [|? [|? [|? [|? a]]]]]; cbn in Heq; try discriminate Heq;
        injection Heq as <-; intros; subst; cbn [length]; try lia.
      all: try (destruct a; discriminate).
    - destruct a as [|y a].
      + cbn in Heq. injection Heq as -> _. exfalso. apply Hs. left. reflexivity.
      + cbn in Heq. injection Heq as _ Heq.
        apply (IH (fun H => Hs (or_intror H)) a Heq). }
  unfold matchFenceOpen.
  change (backticks ++ js "json") with [96; 96; 96; 106; 115; 111; 110].
  destruct b as [|b0 [|b1 [|b2 b]]]; cbn [length] in Hlen; try lia;
    cbn [startsWith];
    repeat (match goal with |- context [(?x =? ?y)%N] => destruct (x =? y)%N end;
            cbn [andb]; try reflexivity).
Qed.

Lemma removeAll_fenceClose (s : jsstring) :
  ~ In 96 s -> removeAll matchFenceClose (s ++ 10 :: backticks) = s.
Proof.
  unfold removeAll. induction s as [|c s IH]; intros Hs; [reflexivity |].
  cbn [app removeAll_go]. rewrite matchFenceClose_plain.
  - f_equal. apply IH. intros H. apply Hs. right. exact H.
  - intros ->. apply Hs. left. reflexivity.
  - intros d r Hd ->. destruct s as [|x s]; cbn in Hd.
    + discriminate Hd.
    + injection Hd as -> _. apply Hs. right. left. reflexivity.
Qed.

Lemma removeAll_plain (matchAt : jsstring -> option nat) (s : jsstring) :
  (forall c b, c <> 96 -> (forall d r, b = d :: r -> d <> 96) -> matchAt (c :: b) = None) ->
  ~ In 96 s -> removeAll matchAt s = s.
Proof.
  intros Hm Hs. apply removeAll_no_match. intros a c b ->.
  apply Hm.
  - intros ->. apply Hs, in_or_app. right. left. reflexivity.
  - intros d r -> ->. apply Hs, in_or_app. right. right. left. reflexivity.
Qed.

Lemma trim_keeps_absent (c : N) (s : jsstring) : ~ In c s -> ~ In c (trim s).
Proof.
  intros Hs Hin. destruct (trim_split s) as [p [q [Heq _]]]. apply Hs.
  rewrite Heq. apply in_or_app. right. apply in_or_app. left. exact Hin.
Qed.

(** X21. The clean-up of the analysis text recovers what a code fence
    wraps: a text made of the opening fence with its language tag, a
    line break, a body without backtick, a line break and the closing
    fence is cleaned to the trimmed body; and a text without any
    backtick is only trimmed. *)
Theorem cleanAnalysisText_unfences (body : jsstring) :
  ~ In 96 body ->
  cleanAnalysisText (backticks ++ js "json" ++ [10] ++ body ++ [10] ++ backticks)
    = trim body
  /\ cleanAnalysisText body = trim body.
Proof.
  intros Hbody. split.
  - unfold cleanAnalysisText.
    assert (Htrim : trim (backticks ++ js "json" ++ [10] ++ body ++ [10] ++ backticks)
                    = backticks ++ js "json" ++ [10] ++ body ++ [10] ++ backticks).
    { change (backticks ++ js "json" ++ [10] ++ body ++ [10] ++ backticks)
        with (96 :: [96; 96; 106; 115; 111; 110; 10] ++ body ++ [10; 96; 96; 96]).
      replace (body ++ [10; 96; 96; 96]) with ((body ++ [10; 96; 96]) ++ [96])
        by (rewrite <- app_assoc; reflexivity).
      rewrite (app_assoc [96; 96; 106; 115; 111; 110; 10]).
      apply trim_fixed; reflexivity. }
    rewrite Htrim.
    assert (Hopen : removeAll matchFenceOpen
                      (backticks ++ js "json" ++ [10] ++ body ++ [10] ++ backticks)
                    = body ++ 10 :: backticks).
    { unfold removeAll.
      change (backticks ++ js "json" ++ [10] ++ body ++ [10] ++ backticks)
        with (96 :: 96 :: 96 :: 106 :: 115 :: 111 :: 110 :: 10 :: body ++ 10 :: backticks).
      cbn [removeAll_go]. rewrite matchFenceOpen_at_fence. cbn [removeAll_go].
      exact (removeAll_fenceOpen_plain body Hbody). }
    rewrite Hopen, (removeAll_fenceClose body Hbody). reflexivity.
  - unfold cleanAnalysisText.
    pose proof (trim_keeps_absent 96 body Hbody) as Htrimmed.
    rewrite (removeAll_plain matchFenceOpen (trim body)); [| | exact Htrimmed].
    + rewrite (removeAll_plain matchFenceClose (trim body)); [| | exact Htrimmed].
      * apply trim_idempotent.
      * exact matchFenceClose_plain.
    + intros c b Hc _. apply matchFenceOpen_needs_backtick, Hc.
Qed.

Lemma cleanAnalysisText_unfences_witness :
  ~ In 96 (js " { } ")
  /\ cleanAnalysisText (backticks ++ js "json" ++ [10] ++ js " { } " ++ [10] ++ backticks)
     = js "{ }".
Proof.
  assert (H : ~ In 96 (js " { } ")).
  { vm_compute. intros [H | [H | [H | [H | [H | []]]]]]; discriminate H. }
  split; [exact H |].
  rewrite (proj1 (cleanAnalysisText_unfences (js " { } ") H)). by_computation.
Defined.

Lemma removeAll_matchQuote (s : jsstring) :
  removeAll matchQuote s = List.filter (fun c => negb (isQuote c)) s.
Proof.
  unfold removeAll. induction s as [|c s IH]; [reflexivity |].
  cbn [removeAll_go matchQuote List.filter]. unfold isQuote at 1.
  destruct ((c =? 39) || (c =? 34)); cbn [negb]; [exact IH | f_equal; exact IH].
Qed.

Lemma cleaned_topic_has_no_quote (text : jsstring) (c : N) :
  isQuote c = true -> ~ In c (trim (removeAll matchQuote (trim text))).
Proof.
  intros Hc. apply trim_keeps_absent. rewrite removeAll_matchQuote.
  intros Hin. apply filter_In in Hin as [_ Hin]. rewrite Hc in Hin. discriminate Hin.
Qed.

(** X22. A topic that [generateTopic] answers with status 200 is the
    fallback topic of the message list, or it comes from the model and
    then has between 1 and 50 code units, contains neither a single nor
    a double quote, and neither starts nor ends with whitespace. *)
Theorem generateTopic_topic_is_clean (env : Env)
    (toLowerCase toUpperCase : jsstring -> jsstring)
    (ToString : value -> Result jsstring)
    (req : Request) (st : gmap jsstring IChatSession) (topic' : jsstring) :
  fst (generateTopic env toLowerCase toUpperCase ToString req (initial st))
    = topicResponse topic' ->
  fst (generateTopic env toLowerCase toUpperCase ToString req (initial st))
    = fallbackAnswerWith toLowerCase toUpperCase (ownProperty (js "messages") (body req))
  \/ ((1 <= length topic' <= 50)%nat
      /\ ~ In 34 topic' /\ ~ In 39 topic'
      /\ (forall c r, topic' = c :: r -> isWhiteSpace c = false)
      /\ (forall r c, topic' = r ++ [c] -> isWhiteSpace c = false)).
Proof.
  destruct (ownProperty (js "messages") (body req)) as [| | | | |msgs|] eqn:Hmsgs;
    try (rewrite generateTopic_invalid;
         [intros [=] | intros ? Heq; rewrite Hmsgs in Heq; discriminate Heq]).
  destruct msgs as [|m msgs].
  { rewrite generateTopic_invalid; [intros [=] |].
    intros ? Heq. rewrite Hmsgs in Heq. injection Heq as <-. reflexivity. }
  destruct (user req) as [caller|] eqn:Huser.
  2: { rewrite (generateTopic_unauthenticated env toLowerCase toUpperCase ToString
                  req (initial st) (m :: msgs) Hmsgs ltac:(discriminate) Huser).
       intros [=]. }
  rewrite (generateTopic_run env toLowerCase toUpperCase ToString req st (m :: msgs)
             caller Hmsgs ltac:(discriminate) Huser).
  destruct (topicPrompt ToString (m :: msgs)) as [prompt|e]; [| left; reflexivity].
  cbv zeta. destruct (generateContent env 0 prompt) as [text|e]; [| left; reflexivity].
  destruct ((length (trim (removeAll matchQuote (trim text))) =? 0)%nat
            || (50 <? length (trim (removeAll matchQuote (trim text))))%nat) eqn:Hsize;
    [left; reflexivity |].
  cbn [fst]. intros Heq. right.
  assert (Htopic : topic' = trim (removeAll matchQuote (trim text))).
  { unfold topicResponse in Heq. congruence. }
  rewrite Htopic. apply orb_false_iff in Hsize as [Hzero Hlong].
  apply Nat.eqb_neq in Hzero. apply Nat.ltb_ge in Hlong.
  split; [lia | split; [| split; [| split]]].
  - apply cleaned_topic_has_no_quote. reflexivity.
  - apply cleaned_topic_has_no_quote. reflexivity.
  - apply trim_head.
  - apply trim_last.
Qed.

Lemma generateTopic_topic_is_clean_witness :
  fst (generateTopic quotingEnv asciiLower asciiUpper stringToString
         (topicRequest (Some 7) [sleeplessTurn]) (initial sampleStore))
    = topicResponse (js "Work Stress")
  /\ ~ In 39 (js "Work Stress").
Proof.
  assert (Hrun : fst (generateTopic quotingEnv asciiLower asciiUpper stringToString
                        (topicRequest (Some 7) [sleeplessTurn]) (initial sampleStore))
                 = topicResponse (js "Work Stress")) by by_computation.
  split; [exact Hrun |].
  destruct (generateTopic_topic_is_clean quotingEnv asciiLower asciiUpper stringToString
              (topicRequest (Some 7) [sleeplessTurn]) sampleStore (js "Work Stress") Hrun)
    as [Hfallback | [_ [_ [Hquote _]]]].
  - exfalso. rewrite Hrun in Hfallback. vm_compute in Hfallback. discriminate Hfallback.
  - exact Hquote.
Defined.

(** ** The label made of the first words *)

Lemma split_not_nil (sep : N) (s : jsstring) : split sep s <> [].
Proof.
  destruct s as [|c s]; [discriminate |]. cbn [split].
  destruct (c =? sep); [discriminate |]. destruct (split sep s); discriminate.
Qed.

Lemma join_cons (sep w : jsstring) (ws : list jsstring) :
  ws <> [] -> join sep (w :: ws) = w ++ sep ++ join sep ws.
Proof. destruct ws; [congruence | reflexivity]. Qed.

(** Splitting at a separator and joining with it gives the string back. *)
Lemma join_split (sep : N) (s : jsstring) : join [sep] (split sep s) = s.
Proof.
  induction s as [|c s IH]; [reflexivity |]. cbn [split].
  destruct (c =? sep) eqn:Hc.
  - apply N.eqb_eq in Hc. subst c.
    rewrite (join_cons _ _ _ (split_not_nil sep s)), IH. reflexivity.
  - pose proof (split_not_nil sep s) as Hne.
    destruct (split sep s) as [|w ws]; [congruence |].
    destruct ws as [|w' ws].
    + cbn [join] in IH |- *. rewrite IH. reflexivity.
    + rewrite join_cons in IH |- * by discriminate.
      rewrite <- IH. reflexivity.
Qed.

Lemma split_pieces (sep : N) (s : jsstring) :
  Forall (fun w => ~ In sep w) (split sep s).
Proof.
  induction s as [|c s IH]; [repeat constructor; intros [] |]. cbn [split].
  destruct (c =? sep) eqn:Hc.
  - constructor; [intros [] | exact IH].
  - destruct (split sep s) as [|w ws]; [repeat constructor |].
    + intros [-> | []]. rewrite N.eqb_refl in Hc. discriminate Hc.
    + inversion IH as [|? ? Hw Hws]; subst. constructor; [| exact Hws].
      intros [-> | Hin]; [rewrite N.eqb_refl in Hc; discriminate Hc | exact (Hw Hin)].
Qed.

Lemma spaces_app (a b : jsstring) : spaces (a ++ b) = (spaces a + spaces b)%nat.
Proof. unfold spaces. rewrite List.filter_app, length_app. reflexivity. Qed.

Lemma spaces_none (w : jsstring) : ~ In 32 w -> spaces w = 0%nat.
Proof.
  unfold spaces. induction w as [|c w IH]; [reflexivity |]. intros Hw.
  cbn [List.filter]. destruct (32 =? c) eqn:Hc.
  - apply N.eqb_eq in Hc. exfalso. apply Hw. left. symmetry. exact Hc.
  - apply IH. intros H. apply Hw. right. exact H.
Qed.

(** The first three words are a prefix of the string that ends before
    its third space, or the whole string when it has fewer spaces. *)
Lemma first_words_prefix (s : jsstring) :
  let words := join [32] (firstn 3 (split 32 s)) in
  exists rest,
    s = words ++ rest
    /\ (spaces words <= 2)%nat
    /\ (rest = [] \/ (spaces words = 2%nat /\ exists r, rest = 32 :: r)).
Proof.
  intros words. subst words.
  pose proof (join_split 32 s) as Hjoin. pose proof (split_pieces 32 s) as Hpieces.
  pose proof (split_not_nil 32 s) as Hne.
  destruct (split 32 s) as [|a [|b [|c [|d l]]]]; [congruence | | | |].
  - exists []. cbn [firstn join] in *. rewrite app_nil_r.
    pose proof (Forall_inv Hpieces) as Ha. cbv beta in Ha.
    rewrite (spaces_none a Ha).
    split; [symmetry; exact Hjoin | split; [lia | left; reflexivity]].
  - exists []. cbn [firstn join] in *. rewrite app_nil_r.
    pose proof (Forall_inv Hpieces) as Ha.
    pose proof (Forall_inv (Forall_inv_tail Hpieces)) as Hb. cbv beta in Ha, Hb.
    rewrite !spaces_app, (spaces_none a Ha), (spaces_none b Hb).
    split; [symmetry; exact Hjoin | split; [cbn; lia | left; reflexivity]].
  - exists []. cbn [firstn join] in *. rewrite app_nil_r.
    pose proof (Forall_inv Hpieces) as Ha.
    pose proof (Forall_inv (Forall_inv_tail Hpieces)) as Hb.
    pose proof (Forall_inv (Forall_inv_tail (Forall_inv_tail Hpieces))) as Hc.
    cbv beta in Ha, Hb, Hc.
    rewrite !spaces_app, (spaces_none a Ha), (spaces_none b Hb), (spaces_none c Hc).
    split; [symmetry; exact Hjoin | split; [cbn; lia | left; reflexivity]].
  - exists (32 :: join [32] (d :: l)).
    pose proof (Forall_inv Hpieces) as Ha.
    pose proof (Forall_inv (Forall_inv_tail Hpieces)) as Hb.
    pose proof (Forall_inv (Forall_inv_tail (Forall_inv_tail Hpieces))) as Hc.
    cbv beta in Ha, Hb, Hc.
    rewrite !join_cons in Hjoin by discriminate.
    cbn [firstn]. rewrite !join_cons by discriminate. cbn [join].
    rewrite !spaces_app, (spaces_none a Ha), (spaces_none b Hb), (spaces_none c Hc).
    split; [| split; [cbn; lia | right; split; [cbn; lia | eexists; reflexivity]]].
    rewrite <- Hjoin, <- !app_assoc. reflexivity.
Qed.

Lemma scanKeywords_none (entries : list (jsstring * jsstring)) (s : jsstring) :
  (forall kw l, In (kw, l) entries -> ~ occursIn kw s) ->
  scanKeywords entries s = None.
Proof.
  induction entries as [|[kw l] entries IH]; intros Hnone; [reflexivity |].
  cbn [scanKeywords]. destruct (includes kw s) eqn:Hkw.
  - exfalso. apply (Hnone kw l); [left; reflexivity |]. apply includes_spec. exact Hkw.
  - apply IH. intros kw' l' Hin. apply (Hnone kw' l'). right. exact Hin.
Qed.

(** X23. When no keyword of the map occurs in the lowercased content
    of the first message of role [user], the topic is the chat marker
    followed by the first three space-separated words of that text with
    the first code unit in upper case: the words are the text up to its
    third space, or all of it when it has at most two. *)
Theorem generateFallbackTopic_first_words
    (toLowerCase toUpperCase : jsstring -> jsstring)
    (before after : list value) (fields : list (jsstring * value)) (c : jsstring) :
  forallb isMessage (before ++ VObj fields :: after) = true ->
  forallb (fun m => negb (hasRoleUser m)) before = true ->
  ownProperty (js "role") fields = VStr (js "user") ->
  ownProperty (js "content") fields = VStr c ->
  (forall kw l, In (kw, l) topicMap -> ~ occursIn kw (toLowerCase c)) ->
  exists words rest,
    toLowerCase c = words ++ rest
    /\ (spaces words <= 2)%nat
    /\ (rest = [] \/ (spaces words = 2%nat /\ exists r, rest = 32 :: r))
    /\ generateFallbackTopic toLowerCase toUpperCase
         (VArr (before ++ VObj fields :: after))
       = Ok (js "💬 " ++ toUpperCase (firstn 1 words) ++ skipn 1 words).
Proof.
  intros Hall Hbefore Hrole Hcontent Hnone.
  destruct (first_words_prefix (toLowerCase c)) as [rest [Hsplit [Hcount Hrest]]].
  exists (join [32] (firstn 3 (split 32 (toLowerCase c)))), rest.
  split; [exact Hsplit | split; [exact Hcount | split; [exact Hrest |]]].
  rewrite (generateFallbackTopic_first_user toLowerCase toUpperCase before after
             fields c Hall Hbefore Hrole Hcontent).
  rewrite (scanKeywords_none topicMap (toLowerCase c) Hnone). reflexivity.
Qed.

Lemma generateFallbackTopic_first_words_witness :
  exists words rest,
    asciiLower (js "Hello  there my friend") = words ++ rest
    /\ (rest = [] \/ (spaces words = 2%nat /\ exists r, rest = 32 :: r))
    /\ generateFallbackTopic asciiLower asciiUpper (VArr [greeting; helloTurn])
       = Ok (js "💬 " ++ asciiUpper (firstn 1 words) ++ skipn 1 words).
Proof.
  assert (Hall : forallb isMessage
                   ([greeting]
                    ++ VObj [(js "role", VStr (js "user"));
                             (js "content", VStr (js "Hello  there my friend"))] :: [])
                 = true) by by_computation.
  assert (Hbefore : forallb (fun m => negb (hasRoleUser m)) [greeting] = true)
    by by_computation.
  assert (Hrole : ownProperty (js "role")
                    [(js "role", VStr (js "user"));
                     (js "content", VStr (js "Hello  there my friend"))]
                  = VStr (js "user")) by by_computation.
  assert (Hcontent : ownProperty (js "content")
                       [(js "role", VStr (js "user"));
                        (js "content", VStr (js "Hello  there my friend"))]
                     = VStr (js "Hello  there my friend")) by by_computation.
  assert (Hnone : forall kw l, In (kw, l) topicMap ->
                    ~ occursIn kw (asciiLower (js "Hello  there my friend"))).
  { intros kw l Hin. apply includes_false. unfold topicMap in Hin. cbn [In] in Hin.
    repeat (destruct Hin as [Hin | Hin]; [injection Hin as <- _; by_computation |]).
    destruct Hin. }
  destruct (generateFallbackTopic_first_words asciiLower asciiUpper [greeting] [] _
              (js "Hello  there my friend") Hall Hbefore Hrole Hcontent Hnone)
    as [words [rest [Hsplit [_ [Hrest Hrun]]]]].
  exists words, rest. split; [exact Hsplit | split; [exact Hrest | exact Hrun]].
Defined.

Lemma createChatSession_preserves_witness :
  sampleStore !! js "s-1" = Some sampleSession
  /\ statusCode (fst (createChatSession offlineEnv collidingOutside
                        (sampleRequest (Some 8) "unused" "") (initial sampleStore)))
     <> 201
  /\ store (snd (createChatSession offlineEnv collidingOutside
                   (sampleRequest (Some 8) "unused" "") (initial sampleStore)))
     = sampleStore.
Proof.
  assert (Hfound : sampleStore !! js "s-1" = Some sampleSession) by by_computation.
  assert (Hstatus : statusCode (fst (createChatSession offlineEnv collidingOutside
                                       (sampleRequest (Some 8) "unused" "")
                                       (initial sampleStore))) <> 201).
  { vm_compute. discriminate. }
  split; [exact Hfound | split; [exact Hstatus |]].
  exact (proj2 (createChatSession_preserves offlineEnv collidingOutside
                  (sampleRequest (Some 8) "unused" "") sampleStore) Hstatus).
Defined.
